(** * Hyperliquid trading subsystem: protocol client, signing, permissions

    A shallow embedding of the wire-protocol helpers, the nonce sequencer,
    the permission controller, the wallet registry and the streaming
    client's connection state machine, with the properties the
    specification states about them.

    Conventions of the embedding.
    - Python [int] is unbounded, so it is [Z].  The numbers in action
      parameters are ints; the controller's float limits are taken at whole
      values, against which Python compares an int exactly.
    - Python [str] is [string]; symbols and action names are ASCII.
    - A [dict] that is written as a display and looped over, serialised or
      logged (the asset table, action parameters, wire payloads) is an
      association list in insertion order; the registry's wallets and the
      streaming client's tracked subscriptions, which are only looked up,
      inserted into and deleted from by key, are [gmap]s.
    - Methods that read or write [self] take the object's state and return
      the new state next to the result.
    - Wall-clock reads ([datetime.now()]) and the outcome of network calls
      are arguments supplied by the environment. *)

From stdpp Require Import gmap strings list fin_maps pretty.
From Stdlib Require Import ZArith Sorted.

Local Open Scope string_scope.
Local Open Scope Z_scope.

(** ** Python values and ordered dictionaries *)

Module Py.

(** Ordered dictionaries with string keys, in insertion order. *)
Section OrderedDict.
Context {V : Type}.

Definition dict := list (string * V).

Fixpoint get (d : dict) (k : string) : option V :=
  match d with
  | [] => None
  | (k', v) :: d' => if String.eqb k' k then Some v else get d' k
  end.

Definition get_default (d : dict) (k : string) (dflt : V) : V :=
  match get d k with
  | Some v => v
  | None => dflt
  end.

(** [d[k] = v]: an existing key keeps its position, a new key goes last. *)
Fixpoint set (d : dict) (k : string) (v : V) : dict :=
  match d with
  | [] => [(k, v)]
  | (k', v') :: d' =>
      if String.eqb k' k then (k', v) :: d' else (k', v') :: set d' k v
  end.

(** A dictionary display [{k1: v1, k2: v2, ...}] evaluates its items
    from left to right, so a repeated key keeps its first position and
    its last value. *)
Definition of_literal (items : list (string * V)) : dict :=
  foldl (fun d kv => set d kv.1 kv.2) [] items.

Definition keys (d : dict) : list string := map fst d.
Definition values (d : dict) : list V := map snd d.
End OrderedDict.

Arguments dict V : clear implicits.

(** The values that travel in action parameters and wire payloads. *)
#[warnings="-register-all"]
Inductive value : Type :=
| VNone
| VBool (b : bool)
| VInt (n : Z)
| VStr (s : string)
| VList (l : list value)
| VDict (d : list (string * value)).

(** [str(n)] and [f"{n}"] for an [int]. *)
Definition str_int (n : Z) : string := pretty n.

(** [str.upper()] on ASCII text. *)
Definition upper_ascii (c : Ascii.ascii) : Ascii.ascii :=
  let n := Ascii.nat_of_ascii c in
  if ((97 <=? n) && (n <=? 122))%nat then Ascii.ascii_of_nat (n - 32) else c.

Fixpoint upper (s : string) : string :=
  match s with
  | EmptyString => EmptyString
  | String c s' => String (upper_ascii c) (upper s')
  end.


Definition lower_ascii (c : Ascii.ascii) : Ascii.ascii :=
  let n := Ascii.nat_of_ascii c in
  if ((65 <=? n) && (n <=? 90))%nat then Ascii.ascii_of_nat (n + 32) else c.

Fixpoint lower (s : string) : string :=
  match s with
  | EmptyString => EmptyString
  | String c s' => String (lower_ascii c) (lower s')
  end.

(** [x in l] for a list of strings. *)
Definition mem (x : string) (l : list string) : bool :=
  existsb (String.eqb x) l.

(** [l[-n:]] for a positive [n]: the last [n] elements. *)
Definition last_n {A : Type} (n : nat) (l : list A) : list A :=
  drop (length l - n) l.

(** A call either returns or raises; a handler only ever reads [str(e)],
    so an exception is its message. *)
Inductive result (A : Type) : Type :=
| Ok (a : A)
| Raise (msg : string).

Arguments Ok {A} a.
Arguments Raise {A} msg.

#[global] Instance result_ret : MRet result := fun A a => Ok a.

#[global] Instance result_bind : MBind result := fun A B k m =>
  match m with
  | Ok a => k a
  | Raise msg => Raise msg
  end.

(** [type(v).__name__] *)
Definition type_name (v : value) : string :=
  match v with
  | VNone => "NoneType"
  | VBool _ => "bool"
  | VInt _ => "int"
  | VStr _ => "str"
  | VList _ => "list"
  | VDict _ => "dict"
  end.

(** [bool] is a subclass of [int]: [True] counts as 1 and [False] as 0. *)
Definition as_int (v : value) : option Z :=
  match v with
  | VInt n => Some n
  | VBool b => Some (if b then 1 else 0)
  | _ => None
  end.

(** Truth value of [v] in a condition. *)
Definition truthy (v : value) : bool :=
  match v with
  | VNone => false
  | VBool b => b
  | VInt n => negb (n =? 0)
  | VStr s => negb (String.eqb s EmptyString)
  | VList l => match l with [] => false | _ => true end
  | VDict d => match d with [] => false | _ => true end
  end.

Fixpoint str_repeat (s : string) (n : nat) : string :=
  match n with
  | O => EmptyString
  | S n' => s +:+ str_repeat s n'
  end.

Definition list_repeat {A : Type} (l : list A) (n : nat) : list A :=
  mjoin (replicate n l).

(** [a * b] *)
Definition mul (a b : value) : result value :=
  match as_int a, as_int b with
  | Some x, Some y => Ok (VInt (x * y))
  | Some x, None =>
      match b with
      | VStr s => Ok (VStr (str_repeat s (Z.to_nat x)))
      | VList l => Ok (VList (list_repeat l (Z.to_nat x)))
      | _ => Raise ("unsupported operand type(s) for *: '" +:+ type_name a
                    +:+ "' and '" +:+ type_name b +:+ "'")
      end
  | None, Some y =>
      match a with
      | VStr s => Ok (VStr (str_repeat s (Z.to_nat y)))
      | VList l => Ok (VList (list_repeat l (Z.to_nat y)))
      | _ => Raise ("unsupported operand type(s) for *: '" +:+ type_name a
                    +:+ "' and '" +:+ type_name b +:+ "'")
      end
  | None, None =>
      match a, b with
      | (VStr _ | VList _), _ =>
          Raise ("can't multiply sequence by non-int of type '"
                 +:+ type_name b +:+ "'")
      | _, (VStr _ | VList _) =>
          Raise ("can't multiply sequence by non-int of type '"
                 +:+ type_name a +:+ "'")
      | _, _ =>
          Raise ("unsupported operand type(s) for *: '" +:+ type_name a
                 +:+ "' and '" +:+ type_name b +:+ "'")
      end
  end.

(** [a > bound] and [a < bound] against a number [bound] whose type is
    named [bound_type] in the error message. *)
Definition gt_number (a : value) (bound : Z) (bound_type : string)
  : result bool :=
  match as_int a with
  | Some x => Ok (bound <? x)
  | None => Raise ("'>' not supported between instances of '"
                   +:+ type_name a +:+ "' and '" +:+ bound_type +:+ "'")
  end.

Definition lt_number (a : value) (bound : Z) (bound_type : string)
  : result bool :=
  match as_int a with
  | Some x => Ok (x <? bound)
  | None => Raise ("'<' not supported between instances of '"
                   +:+ type_name a +:+ "' and '" +:+ bound_type +:+ "'")
  end.

(** [acc += v] for a numeric accumulator [acc]. *)
Definition add_number (acc : Z) (acc_type : string) (v : value) : result Z :=
  match as_int v with
  | Some x => Ok (acc + x)
  | None => Raise ("unsupported operand type(s) for +=: '" +:+ acc_type
                   +:+ "' and '" +:+ type_name v +:+ "'")
  end.

Definition join_comma (l : list string) : string :=
  match l with
  | [] => EmptyString
  | x :: l' => foldl (fun acc y => acc +:+ ", " +:+ y) x l'
  end.

(** [repr(s)] of a string without quotes or backslashes. *)
Definition repr_str (s : string) : string := "'" +:+ s +:+ "'".

(** [repr(v)]. *)
Fixpoint repr (v : value) : string :=
  match v with
  | VNone => "None"
  | VBool b => if b then "True" else "False"
  | VInt n => str_int n
  | VStr s => repr_str s
  | VList l => "[" +:+ join_comma (map repr l) +:+ "]"
  | VDict d =>
      "{" +:+ join_comma (map (fun kv => repr_str kv.1 +:+ ": " +:+ repr kv.2) d)
      +:+ "}"
  end.

(** [str(v)] and [f"{v}"]: a string prints bare, anything else as [repr]. *)
Definition str (v : value) : string :=
  match v with
  | VStr s => s
  | _ => repr v
  end.

(** [str(x)] of a float holding the integer [x], below 10^16 in size. *)
Definition str_float (x : Z) : string := str_int x +:+ ".0".

(** [l[-n:]] for any int [n]: the slice starts at [-n], counted from the
    end when that is negative; [l[-0:]] is the whole list. *)
Definition slice_last {A : Type} (n : Z) (l : list A) : list A :=
  if 0 <? n then drop (length l - Z.to_nat n) l
  else drop (Z.to_nat (- n)) l.

(** [v == s] for a string [s]. *)
Definition eq_str (v : value) (s : string) : bool :=
  match v with
  | VStr s' => String.eqb s' s
  | _ => false
  end.

(** ASCII whitespace, as [str.strip()] removes it. *)
Definition is_space (c : Ascii.ascii) : bool :=
  let n := Ascii.nat_of_ascii c in
  ((9 <=? n) && (n <=? 13) || (28 <=? n) && (n <=? 32))%nat.

Fixpoint lstrip (s : string) : string :=
  match s with
  | String c s' => if is_space c then lstrip s' else s
  | EmptyString => EmptyString
  end.

Definition strip (s : string) : string :=
  String.rev (lstrip (String.rev (lstrip s))).

(** [len(v)] *)
Definition len (v : value) : result Z :=
  match v with
  | VStr s => Ok (Z.of_nat (String.length s))
  | VList l => Ok (Z.of_nat (length l))
  | VDict d => Ok (Z.of_nat (length d))
  | _ => Raise ("object of type '" +:+ type_name v +:+ "' has no len()")
  end.

(** [v[i]] for an int [i]: sequences count a negative index from the end;
    a dictionary with string keys holds no int key. *)
Definition getitem_int (v : value) (i : Z) : result value :=
  match v with
  | VList l =>
      let n := Z.of_nat (length l) in
      let j := if i <? 0 then i + n else i in
      if (0 <=? j) && (j <? n) then
        match l !! Z.to_nat j with
        | Some x => Ok x
        | None => Raise "list index out of range"
        end
      else Raise "list index out of range"
  | VStr s =>
      let n := Z.of_nat (String.length s) in
      let j := if i <? 0 then i + n else i in
      if (0 <=? j) && (j <? n) then
        match String.get (Z.to_nat j) s with
        | Some c => Ok (VStr (String c EmptyString))
        | None => Raise "string index out of range"
        end
      else Raise "string index out of range"
  | VDict _ => Raise (str_int i)
  | _ => Raise ("'" +:+ type_name v +:+ "' object is not subscriptable")
  end.

(** [v[k]] for a string [k]; the messages are CPython 3.11's. *)
Definition getitem_str (v : value) (k : string) : result value :=
  match v with
  | VDict d =>
      match get d k with
      | Some x => Ok x
      | None => Raise (repr_str k)
      end
  | VList _ => Raise "list indices must be integers or slices, not str"
  | VStr _ => Raise "string indices must be integers, not 'str'"
  | _ => Raise ("'" +:+ type_name v +:+ "' object is not subscriptable")
  end.

(** [v.get(k, dflt)]: only a dictionary has the method. *)
Definition get_method (v : value) (k : string) (dflt : value) : result value :=
  match v with
  | VDict d => Ok (get_default d k dflt)
  | _ => Raise ("'" +:+ type_name v +:+ "' object has no attribute 'get'")
  end.

End Py.

(** ** Asset directory ([hyperliquid/types.py]) *)

Module Types.

(** The items of the [ASSET_IDS] display, in source order. *)
Definition ASSET_IDS_items : list (string * Z) :=
[ ("BTC", 0); ("ETH", 1); ("SOL", 2); ("ARB", 3); ("APE", 4); ("AVAX", 5);
  ("BNB", 6); ("DOGE", 7); ("FTM", 8); ("GMX", 9); ("LINK", 10);
  ("LTC", 11); ("NEAR", 12); ("OP", 13); ("ORDI", 14); ("PEPE", 15);
  ("SHIB", 16); ("SUI", 17); ("SUSHI", 18); ("TIA", 19); ("TRX", 20);
  ("UNI", 21); ("WLD", 22); ("XRP", 23); ("ZKS", 24); ("SEI", 25);
  ("INJ", 26); ("STX", 27); ("FIL", 28); ("ETC", 29); ("CFX", 30);
  ("ICP", 31); ("APT", 32); ("IMX", 33); ("GALA", 34); ("XLM", 35);
  ("DOT", 36); ("ADA", 37); ("MATIC", 38); ("ATOM", 39); ("LDO", 40);
  ("ONDO", 41); ("ALT", 42); ("JTO", 43); ("ZRO", 44); ("ENA", 45);
  ("WIF", 46); ("TIA", 47); ("MERL", 48); ("PYTH", 49); ("REZ", 50);
  ("STRK", 51); ("TON", 52); ("AXL", 53); ("MYRO", 54); ("MEW", 55);
  ("AUCTION", 56); ("RARI", 57); ("BOME", 58); ("PNUT", 59);
  ("MOTHER", 60); ("GRIFFAIN", 61); ("AI16Z", 62); ("FARTCOIN", 63);
  ("GOAT", 64); ("HYPER", 65); ("TURBO", 66); ("ZEREBRO", 67);
  ("POPCAT", 68); ("CUMMIES", 69); ("S", 70); ("AIXBT", 71); ("SPX", 72);
  ("KMNO", 73); ("MOODENG", 74); ("BANANA", 75); ("PONKE", 76);
  ("SSB", 77); ("KAIA", 78); ("CETUS", 79); ("KAS", 80); ("BEAM", 81);
  ("CAKE", 82); ("ENA", 83); ("ENA", 84); ("ENA", 85); ("ENA", 86);
  ("ENA", 87); ("ENA", 88); ("ENA", 89); ("ENA", 90); ("ENA", 91);
  ("ENA", 92); ("ENA", 93); ("ENA", 94); ("ENA", 95); ("ENA", 96);
  ("ENA", 97); ("ENA", 98); ("ENA", 99) ].

Definition ASSET_IDS : Py.dict Z := Py.of_literal ASSET_IDS_items.

Definition SPOT_ASSET_OFFSET : Z := 10000.

Definition spot_indices : Py.dict Z :=
  Py.of_literal [ ("PURR/USDC", 0); ("HYPE/USDC", 1) ].

Definition get_asset_id (symbol : string) (is_spot : bool) : Z :=
  if is_spot then
    let spot_index := Py.get_default spot_indices symbol 0 in
    SPOT_ASSET_OFFSET + spot_index
  else
    Py.get_default ASSET_IDS (Py.upper symbol) 0.

(** [spot_symbols] is keyed by the spot index. *)
Definition spot_symbols : list (Z * string) :=
  [ (0, "PURR/USDC"); (1, "HYPE/USDC") ].

Fixpoint spot_symbols_get (d : list (Z * string)) (i : Z) : option string :=
  match d with
  | [] => None
  | (j, s) :: d' => if j =? i then Some s else spot_symbols_get d' i
  end.

(** [for symbol, aid in ASSET_IDS.items(): if aid == asset_id: return symbol] *)
Fixpoint first_symbol_with (items : list (string * Z)) (asset_id : Z)
  : option string :=
  match items with
  | [] => None
  | (symbol, aid) :: items' =>
      if aid =? asset_id then Some symbol
      else first_symbol_with items' asset_id
  end.

Definition get_symbol_from_asset_id (asset_id : Z) : string :=
  if SPOT_ASSET_OFFSET <=? asset_id then
    let spot_index := asset_id - SPOT_ASSET_OFFSET in
    match spot_symbols_get spot_symbols spot_index with
    | Some s => s
    | None => "SPOT_" +:+ Py.str_int spot_index
    end
  else
    match first_symbol_with ASSET_IDS asset_id with
    | Some symbol => symbol
    | None => "UNKNOWN_" +:+ Py.str_int asset_id
    end.

(** [AssetInfo]: the fields hold what the reply holds. *)
Record AssetInfo := {
  name : Py.value;
  sz_decimals : Py.value;
  max_leverage : Py.value;
  only_isolated : Py.value;
}.

(** [AssetInfo.from_dict] *)
Definition AssetInfo_from_dict (data : Py.value) : Py.result AssetInfo :=
  name ← Py.getitem_str data "name";
  sz_decimals ← Py.getitem_str data "szDecimals";
  max_leverage ← Py.get_method data "maxLeverage" (Py.VInt 1);
  only_isolated ← Py.get_method data "onlyIsolated" (Py.VBool false);
  mret {| name := name; sz_decimals := sz_decimals;
          max_leverage := max_leverage; only_isolated := only_isolated |}.

End Types.


(** ** Nonce sequencing ([wallet/signature_engine.py]) *)

Module SignatureEngine.

(** The part of the engine's state that nonce management touches. *)
Record t := mk {
  address : string;
  current_nonce : Z;
}.

(** [__init__] seeds the counter with the wall clock in milliseconds. *)
Definition init (address : string) (time_ms : Z) : t :=
  {| address := address; current_nonce := time_ms |}.

Definition get_next_nonce (e : t) : Z * t :=
  let nonce := current_nonce e in
  (nonce, {| address := address e; current_nonce := current_nonce e + 1 |}).

Definition reset_nonce (nonce : Z) (e : t) : t :=
  {| address := address e;
     current_nonce := Z.max (current_nonce e) (nonce + 1) |}.

(** [count] calls of [get_next_nonce] one after the other: the nonces in the
    order they were handed out, and the engine afterwards. *)
Fixpoint issue (count : nat) (e : t) : list Z * t :=
  match count with
  | O => ([], e)
  | S count' =>
      let '(nonce, e1) := get_next_nonce e in
      let '(rest, e2) := issue count' e1 in
      (nonce :: rest, e2)
  end.

(** *** Construction and signing *)

(** Why [__init__] raises its [ValueError]: no key given or found in the
    environment; the placeholder or a key shorter than 64 characters once
    stripped; a key [Account.from_key] rejects, with its message. *)
Inductive init_error : Type :=
| KeyNotFound
| KeyPlaceholderOrShort
| KeyRejected (msg : string).

Section Signing.

(** What the engine calls outside this repository: the JSON encoder and the
    account object of [eth_account].  [signed_r] and [signed_s] are the
    32-byte big-endian hex of the signature's [r] and [s]. *)
Context {account signed : Type}.
Context (from_key : string -> Py.result account).
Context (address_of : account -> string).
Context (json_dumps_sorted_compact : Py.value -> Py.result string).
Context (sign_message_text : account -> string -> Py.result signed).
Context (sign_typed_data : account -> Py.value -> Py.result signed).
Context (signed_r signed_s : signed -> string).
Context (signed_v : signed -> Z).

(** [__init__]: [private_key] is the argument, [env_key] the value of
    [HYPER_LIQUID_KEY], [time_ms] the clock in milliseconds. *)
Definition __init__ (private_key env_key : option string) (time_ms : Z)
  : init_error + (account * t) :=
  let key :=
    match private_key with
    | Some k => if negb (String.eqb k EmptyString) then Some k else env_key
    | None => env_key
    end in
  match key with
  | None => inl KeyNotFound
  | Some k =>
      if String.eqb k EmptyString then inl KeyNotFound
      else if String.eqb k "your_eth_private_key_here"
              || (Z.of_nat (String.length (Py.strip k)) <? 64)
      then inl KeyPlaceholderOrShort
      else
        match from_key k with
        | Py.Raise msg => inl (KeyRejected msg)
        | Py.Ok acct => inr (acct, init (address_of acct) time_ms)
        end
  end.

Definition _create_l1_message (e : t) (action : Py.dict Py.value)
  (nonce : Z) : Py.result string :=
  action_json ← json_dumps_sorted_compact (Py.VDict action);
  let vault_address :=
    Py.get_default action "vaultAddress" (Py.VStr EmptyString) in
  if Py.truthy vault_address then
    mret (address e +:+ Py.str vault_address +:+ action_json
          +:+ Py.str_int nonce)
  else
    mret (address e +:+ action_json +:+ Py.str_int nonce).

Definition schema_field (name type : string) : Py.value :=
  Py.VDict [ ("name", Py.VStr name); ("type", Py.VStr type) ].

Definition _create_typed_data (action : Py.dict Py.value) (nonce : Z)
  : Py.result Py.value :=
  let action_type := Py.get_default action "type" (Py.VStr EmptyString) in
  let field (key : string) (dflt : string) :=
    Py.get_default action key (Py.VStr dflt) in
  selected ←
    (if Py.eq_str action_type "usdSend" then
       mret
         ("HyperliquidTransaction:UsdSend",
          [ schema_field "hyperliquidChain" "string";
            schema_field "signatureChainId" "string";
            schema_field "destination" "address";
            schema_field "amount" "string";
            schema_field "time" "uint64" ],
          [ ("hyperliquidChain", field "hyperliquidChain" "Mainnet");
            ("signatureChainId", field "signatureChainId" "0xa4b1");
            ("destination", field "destination" EmptyString);
            ("amount", field "amount" EmptyString);
            ("time", Py.VInt nonce) ])
     else if Py.eq_str action_type "withdraw3" then
       mret
         ("HyperliquidTransaction:Withdraw",
          [ schema_field "hyperliquidChain" "string";
            schema_field "signatureChainId" "string";
            schema_field "amount" "string";
            schema_field "time" "uint64" ],
          [ ("hyperliquidChain", field "hyperliquidChain" "Mainnet");
            ("signatureChainId", field "signatureChainId" "0xa4b1");
            ("amount", field "amount" EmptyString);
            ("time", Py.VInt nonce) ])
     else if Py.eq_str action_type "spotSend" then
       mret
         ("HyperliquidTransaction:SpotSend",
          [ schema_field "hyperliquidChain" "string";
            schema_field "destination" "address";
            schema_field "token" "string";
            schema_field "amount" "string";
            schema_field "time" "uint64" ],
          [ ("hyperliquidChain", field "hyperliquidChain" "Mainnet");
            ("destination", field "destination" EmptyString);
            ("token", field "token" EmptyString);
            ("amount", field "amount" EmptyString);
            ("time", Py.VInt nonce) ])
     else if Py.eq_str action_type "approveAgent" then
       mret
         ("HyperliquidTransaction:ApproveAgent",
          [ schema_field "hyperliquidChain" "string";
            schema_field "signatureChainId" "string";
            schema_field "agentAddress" "address";
            schema_field "agentName" "string";
            schema_field "nonce" "uint64" ],
          [ ("hyperliquidChain", field "hyperliquidChain" "Mainnet");
            ("signatureChainId", field "signatureChainId" "0xa4b1");
            ("agentAddress", field "agentAddress" EmptyString);
            ("agentName", field "agentName" EmptyString);
            ("nonce", Py.VInt nonce) ])
     else
       Py.Raise ("Unsupported action type for typed data: "
                 +:+ Py.str action_type));
  let '(primary_type, fields, message) := selected in
  mret (Py.VDict
    [ ("types", Py.VDict [ (primary_type, Py.VList fields) ]);
      ("primaryType", Py.VStr primary_type);
      ("domain", Py.VDict
         [ ("name", Py.VStr "HyperliquidSignTransaction");
           ("version", Py.VStr "1");
           ("chainId", Py.VInt 42161);
           ("verifyingContract",
            Py.VStr "0x0000000000000000000000000000000000000000") ]);
      ("message", Py.VDict message) ]).

Definition signature_dict (signed_message : signed) : Py.value :=
  Py.VDict [ ("r", Py.VStr (signed_r signed_message));
             ("s", Py.VStr (signed_s signed_message));
             ("v", Py.VInt (signed_v signed_message)) ].

(** A nonce left out is drawn from the counter, which moves on before
    anything that can raise. *)
Definition draw_nonce (e : t) (nonce : option Z) : Z * t :=
  match nonce with
  | Some n => (n, e)
  | None => get_next_nonce e
  end.

Definition sign_l1_action (acct : account) (e : t)
  (action : Py.dict Py.value) (nonce : option Z) : Py.result Py.value * t :=
  let '(nonce, e) := draw_nonce e nonce in
  (message ← _create_l1_message e action nonce;
   signed_message ← sign_message_text acct message;
   mret (signature_dict signed_message), e).

Definition sign_user_action (acct : account) (e : t)
  (action : Py.dict Py.value) (nonce : option Z) : Py.result Py.value * t :=
  let '(nonce, e) := draw_nonce e nonce in
  (typed_data ← _create_typed_data action nonce;
   signed_message ← sign_typed_data acct typed_data;
   mret (signature_dict signed_message), e).

Definition create_order_signature (acct : account) (e : t)
  (action : Py.dict Py.value) : Py.result (Py.value * Z) * t :=
  let '(nonce, e) := get_next_nonce e in
  let '(signature, e) := sign_l1_action acct e action (Some nonce) in
  (signature ← signature; mret (signature, nonce), e).

Definition create_transfer_signature (acct : account) (e : t)
  (action : Py.dict Py.value) : Py.result (Py.value * Z) * t :=
  let '(nonce, e) := get_next_nonce e in
  let '(signature, e) := sign_user_action acct e action (Some nonce) in
  (signature ← signature; mret (signature, nonce), e).

(** The calls a user of the engine can make, and what a run of them does
    to the engine: the nonces drawn from the counter, in order, and the
    engine afterwards. *)
Inductive call : Type :=
| GetNextNonce
| ResetNonce (nonce : Z)
| SignL1Action (action : Py.dict Py.value) (nonce : option Z)
| SignUserAction (action : Py.dict Py.value) (nonce : option Z)
| CreateOrderSignature (action : Py.dict Py.value)
| CreateTransferSignature (action : Py.dict Py.value).

Definition drawn_by (e : t) (c : call) : list Z :=
  match c with
  | GetNextNonce | CreateOrderSignature _ | CreateTransferSignature _
  | SignL1Action _ None | SignUserAction _ None => [current_nonce e]
  | ResetNonce _ | SignL1Action _ (Some _) | SignUserAction _ (Some _) => []
  end.

Definition after (acct : account) (e : t) (c : call) : t :=
  match c with
  | GetNextNonce => (get_next_nonce e).2
  | ResetNonce n => reset_nonce n e
  | SignL1Action action nonce => (sign_l1_action acct e action nonce).2
  | SignUserAction action nonce => (sign_user_action acct e action nonce).2
  | CreateOrderSignature action => (create_order_signature acct e action).2
  | CreateTransferSignature action =>
      (create_transfer_signature acct e action).2
  end.

Fixpoint run (acct : account) (e : t) (calls : list call) : list Z * t :=
  match calls with
  | [] => ([], e)
  | c :: calls' =>
      let '(rest, e') := run acct (after acct e c) calls' in
      ((drawn_by e c ++ rest)%list, e')
  end.

End Signing.

End SignatureEngine.

(** ** Permission controller ([wallet/permission_controller.py]) *)

Module PermissionController.

(** The environment variables [__init__] reads, already parsed; [None] when
    the variable is unset.  The float-valued limits hold whole numbers, as
    the defaults do. *)
Record environ := {
  MAX_LEVERAGE : option Z;
  MAX_POSITION_SIZE_USD : option Z;
  MAX_TOTAL_EXPOSURE : option Z;
  MAX_DAILY_LOSS : option Z;
  MAX_CONCURRENT_POSITIONS : option Z;
  REQUIRE_AI_CONFIRMATION : option string;
}.

Definition no_environ : environ :=
  {| MAX_LEVERAGE := None; MAX_POSITION_SIZE_USD := None;
     MAX_TOTAL_EXPOSURE := None; MAX_DAILY_LOSS := None;
     MAX_CONCURRENT_POSITIONS := None; REQUIRE_AI_CONFIRMATION := None |}.

Record level_config := {
  description : string;
  allowed_actions : list string;
  max_leverage : Z;
  max_position_size : Z;  (* a float *)
  level_risk : string;
}.

Record risk_limits := {
  max_total_exposure : Z;  (* a float *)
  max_daily_loss : Z;  (* a float *)
  max_concurrent_positions : Z;
  require_ai_confirmation : bool;
}.

Record log_entry := {
  timestamp : string;
  entry_wallet : string;
  agent_name : option string;
  entry_action : string;
  entry_params : Py.dict Py.value;
  entry_result : Py.dict Py.value;
  entry_risk : Py.value;
}.

Record stats := {
  date : string;
  total_trades : Z;
  total_volume : Z;  (* a float *)
  total_pnl : Z;  (* a float *)
  max_loss : Z;  (* a float *)
}.

Record t := mk {
  permission_levels : Py.dict level_config;
  global_risk_limits : risk_limits;
  action_log : list log_entry;
  daily_stats : stats;
}.

Definition fresh_stats (today : string) : stats :=
  {| date := today; total_trades := 0; total_volume := 0; total_pnl := 0;
     max_loss := 0 |}.

Definition init (env : environ) (today : string) : t :=
  {| permission_levels := Py.of_literal
       [ ("read_only",
          {| description := "Read-only access (positions, balance, market data)";
             allowed_actions :=
               [ "get_positions"; "get_balance"; "get_account_value";
                 "get_data" ];
             max_leverage := 1;
             max_position_size := 0;
             level_risk := "low" |});
         ("trading",
          {| description := "Full trading access with risk limits";
             allowed_actions :=
               [ "get_positions"; "get_balance"; "get_account_value";
                 "get_data"; "place_order"; "cancel_order"; "modify_order";
                 "close_position"; "update_leverage"; "update_margin" ];
             max_leverage := default 10 (MAX_LEVERAGE env);
             max_position_size := default 1000 (MAX_POSITION_SIZE_USD env);
             level_risk := "medium" |});
         ("full_access",
          {| description := "Complete wallet access including transfers";
             allowed_actions :=
               [ "*"; "transfer_funds"; "withdraw"; "deposit"; "send_asset";
                 "approve_wallet"; "manage_permissions" ];
             max_leverage := default 50 (MAX_LEVERAGE env);
             max_position_size := default 10000 (MAX_POSITION_SIZE_USD env);
             level_risk := "high" |}) ];
     global_risk_limits :=
       {| max_total_exposure := default 50000 (MAX_TOTAL_EXPOSURE env);
          max_daily_loss := default 1000 (MAX_DAILY_LOSS env);
          max_concurrent_positions :=
            default 10 (MAX_CONCURRENT_POSITIONS env);
          require_ai_confirmation :=
            String.eqb
              (Py.lower (default "true" (REQUIRE_AI_CONFIRMATION env)))
              "true" |};
     action_log := [];
     daily_stats := fresh_stats today |}.

(** The dictionary [validate_action] returns.  A key that a return
    statement leaves out is [None]; [limits] is [Some None] for the empty
    dictionary. *)
Record action_limits := {
  limit_max_leverage : Z;
  limit_max_position_size : Z;  (* a float *)
  limit_risk_level : string;
}.

Record validation := {
  allowed : bool;
  requires_ai_confirmation : option bool;
  reason : option string;
  risk_level : string;
  limits : option (option action_limits);
}.

Record permission_check := {
  pc_allowed : bool;
  pc_reason : string;
}.

Record risk_check := {
  rc_allowed : bool;
  rc_reason : string;
  rc_risk_level : option string;
}.

(** [allowed_actions.update(level_actions)] on a set kept as a list without
    repetition.  The order in which Python lists a set is up to its string
    hashing; here it is the order of first insertion. *)
Definition set_update (acc : list string) (new : list string) : list string :=
  foldl (fun a x => if Py.mem x a then a else (a ++ [x])%list) acc new.

(** [self.permission_levels.get(perm_level, {}).get("allowed_actions", [])] *)
Definition level_actions_of (levels : Py.dict level_config)
  (perm_level : string) : list string :=
  match Py.get levels perm_level with
  | Some level_config => allowed_actions level_config
  | None => []
  end.

Fixpoint check_permissions_loop (levels : Py.dict level_config)
  (action : string) (wallet_permissions : list string)
  (allowed_actions : list string) : permission_check :=
  match wallet_permissions with
  | [] =>
      if Py.mem action allowed_actions then
        {| pc_allowed := true; pc_reason := "Action permitted" |}
      else
        {| pc_allowed := false;
           pc_reason := "Action '" +:+ action +:+ "' not permitted. Allowed: "
                        +:+ Py.repr (Py.VList (map Py.VStr allowed_actions)) |}
  | perm_level :: rest =>
      let level_actions := level_actions_of levels perm_level in
      if Py.mem "*" level_actions then
        {| pc_allowed := true; pc_reason := "Full access granted" |}
      else
        check_permissions_loop levels action rest
          (set_update allowed_actions level_actions)
  end.

Definition _check_permissions (c : t) (action : string)
  (wallet_permissions : list string) : permission_check :=
  check_permissions_loop (permission_levels c) action wallet_permissions [].

(** The body of [_check_risk_limits] inside its [try]. *)
Definition check_risk_limits_body (c : t) (action : string)
  (params : Py.dict Py.value) : Py.result risk_check :=
  trading ←
    (if Py.mem action ["place_order"; "modify_order"] then
       let size := Py.get_default params "size" (Py.VInt 0) in
       let leverage := Py.get_default params "leverage" (Py.VInt 1) in
       exposure ← Py.mul size leverage;
       over ← Py.gt_number exposure
                (max_total_exposure (global_risk_limits c)) "float";
       if over : bool then
         mret (Some
           {| rc_allowed := false;
              rc_reason :=
                "Position size $" +:+ Py.str exposure +:+ " exceeds limit $"
                +:+ Py.str_float (max_total_exposure (global_risk_limits c));
              rc_risk_level := Some "high" |})
       else mret None
     else mret None);
  match trading with
  | Some denied => mret denied
  | None =>
      funds ←
        (if Py.mem action ["withdraw"; "transfer_funds"; "send_asset"] then
           let amount := Py.get_default params "amount" (Py.VInt 0) in
           over ← Py.gt_number amount
                    (max_daily_loss (global_risk_limits c)) "float";
           if over : bool then
             mret (Some
               {| rc_allowed := false;
                  rc_reason :=
                    "Amount $" +:+ Py.str amount +:+ " exceeds daily limit $"
                    +:+ Py.str_float (max_daily_loss (global_risk_limits c));
                  rc_risk_level := Some "high" |})
           else mret None
         else mret None);
      match funds with
      | Some denied => mret denied
      | None =>
          mret {| rc_allowed := true; rc_reason := "Risk limits OK";
                  rc_risk_level := None |}
      end
  end.

Definition _check_risk_limits (c : t) (wallet_address : string)
  (action : string) (params : Py.dict Py.value) : risk_check :=
  match check_risk_limits_body c action params with
  | Py.Ok r => r
  | Py.Raise msg =>
      {| rc_allowed := false; rc_reason := "Risk check error: " +:+ msg;
         rc_risk_level := Some "medium" |}
  end.

Definition _requires_ai_confirmation (c : t) (action : string)
  (params : Py.dict Py.value) : Py.result bool :=
  if negb (require_ai_confirmation (global_risk_limits c)) then mret false
  else
    let high_risk_actions :=
      [ "withdraw"; "transfer_funds"; "send_asset"; "approve_wallet";
        "manage_permissions" ] in
    if Py.mem action high_risk_actions then mret true
    else if Py.mem action ["place_order"; "modify_order"] then
      let size := Py.get_default params "size" (Py.VInt 0) in
      let leverage := Py.get_default params "leverage" (Py.VInt 1) in
      exposure ← Py.mul size leverage;
      over ← Py.gt_number exposure 5000 "int";
      mret over
    else mret false.

Definition _get_action_risk_level (action : string)
  (params : Py.dict Py.value) : Py.result string :=
  let high_risk_actions :=
    [ "withdraw"; "transfer_funds"; "send_asset"; "approve_wallet" ] in
  let medium_risk_actions :=
    [ "place_order"; "modify_order"; "update_leverage" ] in
  if Py.mem action high_risk_actions then mret "high"
  else if Py.mem action medium_risk_actions then
    let size := Py.get_default params "size" (Py.VInt 0) in
    let leverage := Py.get_default params "leverage" (Py.VInt 1) in
    exposure ← Py.mul size leverage;
    over ← Py.gt_number exposure 2000 "int";
    mret (if over : bool then "high" else "medium")
  else mret "low".

(** The first of [full_access], [trading], [read_only] the wallet holds
    decides the limits; [None] is the empty dictionary. *)
Fixpoint action_limits_loop (levels : Py.dict level_config)
  (candidates : list string) (wallet_permissions : list string)
  : Py.result (option action_limits) :=
  match candidates with
  | [] => mret None
  | perm_level :: rest =>
      if Py.mem perm_level wallet_permissions then
        match Py.get levels perm_level with
        | Some level_config =>
            mret (Some
              {| limit_max_leverage := max_leverage level_config;
                 limit_max_position_size := max_position_size level_config;
                 limit_risk_level := level_risk level_config |})
        | None => Py.Raise (Py.repr_str perm_level)
        end
      else action_limits_loop levels rest wallet_permissions
  end.

Definition _get_action_limits (c : t) (action : string)
  (wallet_permissions : list string) : Py.result (option action_limits) :=
  action_limits_loop (permission_levels c)
    ["full_access"; "trading"; "read_only"] wallet_permissions.

(** The body of [validate_action] inside its [try]. *)
Definition validate_action_body (c : t) (wallet_address : string)
  (action : string) (params : option (Py.dict Py.value))
  (wallet_permissions : option (list string)) : Py.result validation :=
  let params := default [] params in
  let permission_check :=
    _check_permissions c action (default [] wallet_permissions) in
  if negb (pc_allowed permission_check) then
    mret {| allowed := false; requires_ai_confirmation := None;
            reason := Some (pc_reason permission_check);
            risk_level := "blocked"; limits := None |}
  else
    let risk_check := _check_risk_limits c wallet_address action params in
    if negb (rc_allowed risk_check) then
      level ← match rc_risk_level risk_check with
              | Some level => mret level
              | None => Py.Raise (Py.repr_str "risk_level")
              end;
      mret {| allowed := false; requires_ai_confirmation := None;
              reason := Some (rc_reason risk_check);
              risk_level := level; limits := None |}
    else
      confirm ← _requires_ai_confirmation c action params;
      if confirm : bool then
        mret {| allowed := true; requires_ai_confirmation := Some true;
                reason := Some "Action requires AI confirmation";
                risk_level := "high"; limits := None |}
      else
        level ← _get_action_risk_level action params;
        action_limits ←
          _get_action_limits c action (default [] wallet_permissions);
        mret {| allowed := true; requires_ai_confirmation := Some false;
                reason := None; risk_level := level;
                limits := Some action_limits |}.

(** [validate_action] returns its verdict and leaves the controller as it
    found it: no statement of the method assigns to [self]. *)
Definition validate_action (c : t) (wallet_address : string)
  (action : string) (params : option (Py.dict Py.value))
  (wallet_permissions : option (list string)) : validation * t :=
  match validate_action_body c wallet_address action params
          wallet_permissions with
  | Py.Ok v => (v, c)
  | Py.Raise msg =>
      ({| allowed := false; requires_ai_confirmation := None;
          reason := Some ("Validation error: " +:+ msg);
          risk_level := "blocked"; limits := None |}, c)
  end.

(** [_update_daily_stats]: the statistics after the call, and the message of
    the exception when one of the additions raises.  [today] is the date the
    clock shows. *)
Definition _update_daily_stats (today : string) (s : stats) (action : string)
  (params : Py.dict Py.value) (result : Py.dict Py.value)
  : stats * option string :=
  let s := if negb (String.eqb (date s) today) then fresh_stats today else s in
  let '(s, raised) :=
    if Py.mem action ["place_order"; "modify_order"]
       && Py.truthy (Py.get_default result "success" (Py.VBool false))
    then
      let s := {| date := date s; total_trades := total_trades s + 1;
                  total_volume := total_volume s; total_pnl := total_pnl s;
                  max_loss := max_loss s |} in
      let size := Py.get_default params "size" (Py.VInt 0) in
      match Py.add_number (total_volume s) "float" size with
      | Py.Ok volume =>
          ({| date := date s; total_trades := total_trades s;
              total_volume := volume; total_pnl := total_pnl s;
              max_loss := max_loss s |}, None)
      | Py.Raise msg => (s, Some msg)
      end
    else (s, None) in
  match raised with
  | Some msg => (s, Some msg)
  | None =>
      if String.eqb action "close_position" then
        let pnl := Py.get_default params "pnl" (Py.VInt 0) in
        match Py.add_number (total_pnl s) "float" pnl with
        | Py.Raise msg => (s, Some msg)
        | Py.Ok total =>
            let s := {| date := date s; total_trades := total_trades s;
                        total_volume := total_volume s; total_pnl := total;
                        max_loss := max_loss s |} in
            match Py.lt_number pnl 0 "int", Py.as_int pnl with
            | Py.Ok true, Some loss =>
                ({| date := date s; total_trades := total_trades s;
                    total_volume := total_volume s; total_pnl := total_pnl s;
                    max_loss := Z.min (max_loss s) loss |}, None)
            | Py.Raise msg, _ => (s, Some msg)
            | _, _ => (s, None)
            end
        end
      else (s, None)
  end.

(** [log_action]: [now] is the clock reading stamped on the entry, [today]
    the date the statistics are kept for.  The entry is appended before the
    statistics are touched, so it stays when their update raises; the
    trimming to the last 1000 entries is then skipped. *)
Definition log_action (now today : string) (c : t) (wallet_address : string)
  (action : string) (params : Py.dict Py.value) (result : Py.dict Py.value)
  (agent_name : option string) : option string * t :=
  let log_entry :=
    {| timestamp := now; entry_wallet := wallet_address;
       agent_name := agent_name; entry_action := action;
       entry_params := params; entry_result := result;
       entry_risk := Py.get_default result "risk_level" (Py.VStr "unknown") |} in
  let action_log := (action_log c ++ [log_entry])%list in
  let '(daily_stats, raised) :=
    _update_daily_stats today (daily_stats c) action params result in
  match raised with
  | Some msg =>
      (Some msg,
       {| permission_levels := permission_levels c;
          global_risk_limits := global_risk_limits c;
          action_log := action_log; daily_stats := daily_stats |})
  | None =>
      (None,
       {| permission_levels := permission_levels c;
          global_risk_limits := global_risk_limits c;
          action_log :=
            if (1000 <? Z.of_nat (length action_log)) then
              Py.last_n 1000 action_log
            else action_log;
          daily_stats := daily_stats |})
  end.

Definition emergency_stop (now today : string) (c : t)
  (wallet_address : string) (reason : string) : bool * t :=
  match log_action now today c wallet_address "emergency_stop"
          [("reason", Py.VStr reason)]
          [("success", Py.VBool true); ("action", Py.VStr "stopped")]
          (Some "system") with
  | (None, c') => (true, c')
  | (Some _, c') => (false, c')
  end.

(** [get_audit_log]: [wallet_address] is [None] when the argument is left
    out; an empty address does not filter either. *)
Definition get_audit_log (c : t) (wallet_address : option string)
  (limit : Z) : list log_entry :=
  let log_entries := action_log c in
  let log_entries :=
    match wallet_address with
    | Some address =>
        if negb (String.eqb address EmptyString) then
          List.filter (fun entry => String.eqb (entry_wallet entry) address)
            log_entries
        else log_entries
    | None => log_entries
    end in
  Py.slice_last limit log_entries.




End PermissionController.

(** ** Wallet registry ([wallet/wallet_registry.py]) *)

Module WalletRegistry.

Record action_log := {
  timestamp : string;
  action : string;
  success : bool;
  details : Py.dict Py.value;
}.

(** A wallet entry.  The entries the registry writes carry every key; one
    read back from the registry file may lack [activity_count] or either
    action list, which is [None] here. *)
Record wallet := {
  address : string;
  registered_at : string;
  is_active : bool;
  permissions : list string;
  agent_name : string;
  description : string;
  risk_level : string;
  max_daily_volume : Z;
  last_activity : option string;
  activity_count : option Z;
  approved_actions : option (list action_log);
  blocked_actions : option (list action_log);
}.

(** The registry: [wallets] is [None] when the key is missing. *)
Record t := mk {
  master_address : string;
  wallets : option (gmap string wallet);
  last_updated : string;
  version : string;
}.

(** What [_load_registry] returns when there is no registry file. *)
Definition empty (now : string) : t :=
  {| master_address := EmptyString; wallets := Some ∅; last_updated := now;
     version := "1.0.0" |}.

(** [_save_registry] stamps the registry and writes it out; a failed write
    is caught and leaves the stamp in place. *)
Definition _save_registry (now : string) (r : t) : t :=
  {| master_address := master_address r; wallets := wallets r;
     last_updated := now; version := version r |}.

Definition set_wallet (r : t) (wallet_address : string) (w : wallet) : t :=
  {| master_address := master_address r;
     wallets := Some (<[wallet_address := w]> (default ∅ (wallets r)));
     last_updated := last_updated r; version := version r |}.

(** The metadata keys [register_wallet] reads, [None] when absent. *)
Record metadata := {
  meta_permissions : option (list string);
  meta_agent_name : option string;
  meta_description : option string;
  meta_risk_level : option string;
  meta_max_daily_volume : option Z;
}.

Definition register_wallet (now save_now : string) (r : t)
  (wallet_address : string) (m : metadata) : bool * t :=
  let wallet_entry :=
    {| address := wallet_address; registered_at := now; is_active := true;
       permissions := default ["read"] (meta_permissions m);
       agent_name := default EmptyString (meta_agent_name m);
       description := default EmptyString (meta_description m);
       risk_level := default "medium" (meta_risk_level m);
       max_daily_volume := default 10000 (meta_max_daily_volume m);
       last_activity := None; activity_count := Some 0;
       approved_actions := Some []; blocked_actions := Some [] |} in
  (true, _save_registry save_now (set_wallet r wallet_address wallet_entry)).

(** [log_wallet_activity].  [now1] and [now2] are the two clock readings
    the method takes, [save_now] the one [_save_registry] takes.  The
    wallet dictionary is updated in place, so what was written before an
    exception stays written. *)
Definition log_wallet_activity (now1 now2 save_now : string) (r : t)
  (wallet_address : string) (action : string) (success : bool)
  (details : option (Py.dict Py.value)) : t :=
  match default ∅ (wallets r) !! wallet_address with
  | None => r
  | Some wallet =>
      let touched :=
        {| address := address wallet; registered_at := registered_at wallet;
           is_active := is_active wallet; permissions := permissions wallet;
           agent_name := agent_name wallet;
           description := description wallet;
           risk_level := risk_level wallet;
           max_daily_volume := max_daily_volume wallet;
           last_activity := Some now1;
           activity_count := activity_count wallet;
           approved_actions := approved_actions wallet;
           blocked_actions := blocked_actions wallet |} in
      match activity_count wallet with
      | None => set_wallet r wallet_address touched
      | Some count =>
          let action_log :=
            {| timestamp := now2; action := action; success := success;
               details := default [] details |} in
          let approved :=
            if success then
              let l := (default [] (approved_actions wallet) ++ [action_log])%list in
              Some (if (100 <? Z.of_nat (length l)) then Py.last_n 100 l else l)
            else approved_actions wallet in
          let blocked :=
            if success then blocked_actions wallet
            else
              let l := (default [] (blocked_actions wallet) ++ [action_log])%list in
              Some (if (50 <? Z.of_nat (length l)) then Py.last_n 50 l else l) in
          let logged :=
            {| address := address wallet;
               registered_at := registered_at wallet;
               is_active := is_active wallet;
               permissions := permissions wallet;
               agent_name := agent_name wallet;
               description := description wallet;
               risk_level := risk_level wallet;
               max_daily_volume := max_daily_volume wallet;
               last_activity := Some now1;
               activity_count := Some (count + 1);
               approved_actions := approved;
               blocked_actions := blocked |} in
          _save_registry save_now (set_wallet r wallet_address logged)
      end
  end.

(** *** Look-ups, clean-up and import *)

Definition get_wallet_info (r : t) (wallet_address : string)
  : option wallet :=
  default ∅ (wallets r) !! wallet_address.

Definition get_wallet_permissions (r : t) (wallet_address : string)
  : list string :=
  match get_wallet_info r wallet_address with
  | Some wallet_info => permissions wallet_info
  | None => []
  end.

Definition is_wallet_active (r : t) (wallet_address : string) : bool :=
  match get_wallet_info r wallet_address with
  | Some wallet_info => is_active wallet_info
  | None => false
  end.




(** [import_registry]: [imported] is what the file holds, [None] when it
    cannot be opened or read, and inside it the wallets, [None] when the
    file has no [wallets] key.  Imported wallets replace registered ones
    of the same address. *)
Definition import_registry (imported : option (option (gmap string wallet)))
  (save_now : string) (r : t) : bool * t :=
  match imported with
  | None => (false, r)
  | Some None => (true, _save_registry save_now r)
  | Some (Some imported_wallets) =>
      (true,
       _save_registry save_now
         {| master_address := master_address r;
            wallets := Some (imported_wallets ∪ default ∅ (wallets r));
            last_updated := last_updated r; version := version r |})
  end.

End WalletRegistry.

(** ** Order actions ([hyperliquid/client.py]) *)

Module HyperliquidClient.

Section OrderAction.

(** Prices and sizes are floats, or whatever number the caller passes; the
    method only ever applies the built-in [str] to them. *)
Context {number : Type} (str : number -> string).

(** [create_order_action] reads nothing of the client; [reduce_only]
    defaults to [False] and [time_in_force] to ["Gtc"]. *)
Definition create_order_action (asset_id : Z) (is_buy : bool)
  (price size : number) (reduce_only : bool) (time_in_force : string)
  : Py.value :=
  let order :=
    Py.VDict
      [ ("a", Py.VInt asset_id);
        ("b", Py.VBool is_buy);
        ("p", Py.VStr (str price));
        ("s", Py.VStr (str size));
        ("r", Py.VBool reduce_only);
        ("t", Py.VDict
           [ (if negb (String.eqb time_in_force "Market") then "limit"
              else "market",
              Py.VDict [ ("tif", Py.VStr time_in_force) ]) ]) ] in
  Py.VDict
    [ ("type", Py.VStr "order");
      ("orders", Py.VList [ order ]);
      ("grouping", Py.VStr "na") ].

End OrderAction.

(** *** Session and cached metadata *)

(** The client's session and caches.  A cache attribute holding [None] is
    [None] here. *)
Record t := mk {
  session : bool;
  _meta_cache : option Py.value;
  _spot_meta_cache : option Py.value;
  _asset_info_cache : gmap Z Types.AssetInfo;
}.

Definition init : t :=
  {| session := false; _meta_cache := None; _spot_meta_cache := None;
     _asset_info_cache := ∅ |}.

Definition start (st : t) : t :=
  {| session := true; _meta_cache := _meta_cache st;
     _spot_meta_cache := _spot_meta_cache st;
     _asset_info_cache := _asset_info_cache st |}.

Definition close (st : t) : t :=
  {| session := false; _meta_cache := _meta_cache st;
     _spot_meta_cache := _spot_meta_cache st;
     _asset_info_cache := _asset_info_cache st |}.

(** [_post_request]: [reply] is what the exchange answers, or the error of
    the transport, which is passed on as it is. *)
Definition _post_request (reply : Py.result Py.value) (st : t)
  : Py.result Py.value :=
  if negb (session st) then
    Py.Raise "HTTP session not started. Call start() first."
  else reply.

(** What is kept when a reply is assigned to a cache attribute. *)
Definition cached (reply : Py.value) : option Py.value :=
  match reply with
  | Py.VNone => None
  | other => Some other
  end.

Definition get_meta (reply : Py.result Py.value) (st : t)
  : Py.result Py.value * t :=
  match _meta_cache st with
  | Some meta => (Py.Ok meta, st)
  | None =>
      match _post_request reply st with
      | Py.Ok meta =>
          (Py.Ok meta,
           {| session := session st; _meta_cache := cached meta;
              _spot_meta_cache := _spot_meta_cache st;
              _asset_info_cache := _asset_info_cache st |})
      | Py.Raise msg => (Py.Raise msg, st)
      end
  end.

Definition get_spot_meta (reply : Py.result Py.value) (st : t)
  : Py.result Py.value * t :=
  match _spot_meta_cache st with
  | Some meta => (Py.Ok meta, st)
  | None =>
      match _post_request reply st with
      | Py.Ok meta =>
          (Py.Ok meta,
           {| session := session st; _meta_cache := _meta_cache st;
              _spot_meta_cache := cached meta;
              _asset_info_cache := _asset_info_cache st |})
      | Py.Raise msg => (Py.Raise msg, st)
      end
  end.

(** [get_asset_info]: [reply] is the exchange's answer to the [meta] query,
    should the method have to ask. *)
Definition get_asset_info (reply : Py.result Py.value) (asset_id : Z)
  (st : t) : Py.result Types.AssetInfo * t :=
  match _asset_info_cache st !! asset_id with
  | Some asset_info => (Py.Ok asset_info, st)
  | None =>
      let '(meta, st) := get_meta reply st in
      let looked_up :=
        meta ← meta;
        universe ← Py.get_method meta "universe" (Py.VList []);
        size ← Py.len universe;
        if asset_id <? size then
          asset_data ← Py.getitem_int universe asset_id;
          Types.AssetInfo_from_dict asset_data
        else
          Py.Raise ("Asset ID " +:+ Py.str_int asset_id
                    +:+ " not found in universe") in
      match looked_up with
      | Py.Ok asset_info =>
          (Py.Ok asset_info,
           {| session := session st; _meta_cache := _meta_cache st;
              _spot_meta_cache := _spot_meta_cache st;
              _asset_info_cache :=
                <[asset_id := asset_info]> (_asset_info_cache st) |})
      | Py.Raise msg => (Py.Raise msg, st)
      end
  end.

Definition create_cancel_action (asset_id order_id : Z) : Py.value :=
  Py.VDict
    [ ("type", Py.VStr "cancel");
      ("cancels",
       Py.VList [ Py.VDict [ ("a", Py.VInt asset_id);
                             ("o", Py.VInt order_id) ] ]) ].

End HyperliquidClient.

(** ** Module-level signing helpers ([hyperliquid/signing.py]) *)

Module Signing.

Section Helpers.

(** What the helpers call outside this repository: the JSON encoder, UTF-8
    encoding, SHA-256 and the account object of [eth_account].  Each is a
    function of its arguments; [json.dumps] raises on a value it cannot
    encode. *)
Context {bytes account signable signed : Type}.
Context (json_dumps_sorted_compact : Py.value -> Py.result string).
Context (encode_utf8 : string -> bytes).
Context (sha256_digest : bytes -> bytes).
Context (bytes_hex : bytes -> string).
Context (encode_defunct : bytes -> signable).
Context (sign_message : account -> signable -> signed).
Context (signature_of : signed -> bytes).
Context (address_of : account -> string).

(** The local variables of a signing helper when it returns. *)
Record frame := {
  message : Py.value;
  message_json : string;
  message_bytes : bytes;
  message_hash : bytes;
  signed_message : signed;
  returned : Py.value;
}.

Definition sign_user_action (action : Py.dict Py.value) (acct : account)
  (nonce : Z) : Py.result frame :=
  let message :=
    Py.VDict [ ("action", Py.VDict action); ("nonce", Py.VInt nonce) ] in
  message_json ← json_dumps_sorted_compact message;
  let message_bytes := encode_utf8 message_json in
  let message_hash := sha256_digest message_bytes in
  let signed_message := sign_message acct (encode_defunct message_hash) in
  mret {| message := message; message_json := message_json;
          message_bytes := message_bytes; message_hash := message_hash;
          signed_message := signed_message;
          returned :=
            Py.VDict
              [ ("hash", Py.VStr (bytes_hex message_hash));
                ("signature",
                 Py.VStr (bytes_hex (signature_of signed_message)));
                ("sender", Py.VStr (address_of acct)) ] |}.

Definition sign_l1_action (action : Py.dict Py.value) (acct : account)
  (nonce : Z) : Py.result frame :=
  let message :=
    Py.VDict [ ("action", Py.VDict action); ("nonce", Py.VInt nonce) ] in
  message_json ← json_dumps_sorted_compact message;
  let message_bytes := encode_utf8 message_json in
  let message_hash := sha256_digest message_bytes in
  let signed_message := sign_message acct (encode_defunct message_hash) in
  mret {| message := message; message_json := message_json;
          message_bytes := message_bytes; message_hash := message_hash;
          signed_message := signed_message;
          returned :=
            Py.VDict
              [ ("hash", Py.VStr (bytes_hex message_hash));
                ("signature",
                 Py.VStr (bytes_hex (signature_of signed_message)));
                ("sender", Py.VStr (address_of acct)) ] |}.

(** *** Verification and the convenience wrappers *)

(** [bytes.fromhex] and [Account.recover_message], both of which raise on
    input they cannot read. *)
Context (bytes_fromhex : string -> Py.result bytes).
Context (recover_message : signable -> bytes -> Py.result string).

(** The body of [verify_signature] inside its [try]; [expected_sender] is
    [None] when the argument is left out. *)
Definition verify_signature_body (action : Py.dict Py.value)
  (signature_dict : Py.dict Py.value) (expected_sender : option string)
  : Py.result bool :=
  let sender_differs :=
    match expected_sender with
    | Some expected =>
        negb (String.eqb expected EmptyString)
        && negb (Py.eq_str (Py.get_default signature_dict "sender" Py.VNone)
                   expected)
    | None => false
    end in
  if sender_differs then mret false
  else
    let nonce := Py.get_default signature_dict "nonce" Py.VNone in
    if negb (Py.truthy nonce) then mret false
    else
      let message :=
        Py.VDict [ ("action", Py.VDict action); ("nonce", nonce) ] in
      message_json ← json_dumps_sorted_compact message;
      let message_bytes := encode_utf8 message_json in
      let message_hash := sha256_digest message_bytes in
      if negb (Py.eq_str (Py.get_default signature_dict "hash" Py.VNone)
                 (bytes_hex message_hash))
      then mret false
      else
        signature_hex ← Py.getitem_str (Py.VDict signature_dict) "signature";
        signature ←
          match signature_hex with
          | Py.VStr s => bytes_fromhex s
          | other => Py.Raise ("fromhex() argument must be str, not "
                               +:+ Py.type_name other)
          end;
        recovered ← recover_message (encode_defunct message_hash) signature;
        sender ← Py.getitem_str (Py.VDict signature_dict) "sender";
        mret (Py.eq_str sender recovered).

(** Any exception counts as a failed verification. *)
Definition verify_signature (action : Py.dict Py.value)
  (signature_dict : Py.dict Py.value) (expected_sender : option string)
  : bool :=
  match verify_signature_body action signature_dict expected_sender with
  | Py.Ok verdict => verdict
  | Py.Raise _ => false
  end.

(** [create_signed_order]: [clock_ms] is what [get_nonce] reads when no
    nonce is given. *)
Definition create_signed_order (clock_ms : Z)
  (order_action : Py.dict Py.value) (acct : account) (nonce : option Z)
  : Py.result Py.value :=
  let nonce := default clock_ms nonce in
  signature ← sign_user_action order_action acct nonce;
  mret (Py.VDict [ ("action", Py.VDict order_action);
                   ("signature", returned signature);
                   ("nonce", Py.VInt nonce) ]).

Definition create_signed_cancel (clock_ms : Z)
  (cancel_action : Py.dict Py.value) (acct : account) (nonce : option Z)
  : Py.result Py.value :=
  let nonce := default clock_ms nonce in
  signature ← sign_user_action cancel_action acct nonce;
  mret (Py.VDict [ ("action", Py.VDict cancel_action);
                   ("signature", returned signature);
                   ("nonce", Py.VInt nonce) ]).

End Helpers.

End Signing.

(** ** Streaming client ([hyperliquid/websocket.py]) *)

Module HyperliquidWebSocket.

(** A socket is known by the number of the connection that opened it. *)
Definition socket := nat.

(** The life of the task held in [_reconnect_task]. *)
Inductive task := NoTask | Pending | Running | Done.

Record t := mk {
  max_reconnects : Z;
  websocket : option socket;
  connected : bool;
  reconnect_count : Z;
  subscriptions : gmap string (Py.dict Py.value);
  reconnect_task : task;
  loops_running : bool;
  (** every frame the client wrote, oldest first, with its socket *)
  sent : list (socket * Py.value);
  (** every event handed to the callbacks, oldest first *)
  emitted : list string;
}.

Definition init (max_reconnects : Z) : t :=
  {| max_reconnects := max_reconnects; websocket := None;
     connected := false; reconnect_count := 0; subscriptions := ∅;
     reconnect_task := NoTask; loops_running := false; sent := [];
     emitted := [] |}.

(** [_handle_reconnect]: after the delay a new [connect] task is created
    unless one is still held and not done. *)
Definition _handle_reconnect (st : t) : t :=
  if (max_reconnects st <=? reconnect_count st) then st
  else
    {| max_reconnects := max_reconnects st; websocket := websocket st;
       connected := connected st;
       reconnect_count := reconnect_count st + 1;
       subscriptions := subscriptions st;
       reconnect_task :=
         match reconnect_task st with
         | NoTask | Done => Pending
         | held => held
         end;
       loops_running := loops_running st; sent := sent st;
       emitted := emitted st |}.

(** [connect]: [outcome] is the socket [websockets.connect] returns, or
    [None] when it raises. *)
Definition connect (outcome : option socket) (st : t) : t :=
  match outcome with
  | Some sock =>
      {| max_reconnects := max_reconnects st; websocket := Some sock;
         connected := true; reconnect_count := 0;
         subscriptions := subscriptions st;
         reconnect_task := reconnect_task st; loops_running := true;
         sent := sent st; emitted := (emitted st ++ ["connected"])%list |}
  | None => _handle_reconnect st
  end.

(** The event loop runs the pending reconnect task: it is [connect], and
    the task is done when [connect] returns. *)
Definition run_reconnect_task (outcome : option socket) (st : t) : t :=
  match reconnect_task st with
  | Pending =>
      let running :=
        {| max_reconnects := max_reconnects st; websocket := websocket st;
           connected := connected st; reconnect_count := reconnect_count st;
           subscriptions := subscriptions st; reconnect_task := Running;
           loops_running := loops_running st; sent := sent st;
           emitted := emitted st |} in
      let st' := connect outcome running in
      {| max_reconnects := max_reconnects st'; websocket := websocket st';
         connected := connected st'; reconnect_count := reconnect_count st';
         subscriptions := subscriptions st'; reconnect_task := Done;
         loops_running := loops_running st'; sent := sent st';
         emitted := emitted st' |}
  | _ => st
  end.

(** The end of [_receive_loop] once the connection is closed or fails. *)
Definition connection_lost (st : t) : t :=
  if connected st then
    _handle_reconnect
      {| max_reconnects := max_reconnects st; websocket := websocket st;
         connected := false; reconnect_count := reconnect_count st;
         subscriptions := subscriptions st;
         reconnect_task := reconnect_task st; loops_running := false;
         sent := sent st;
         emitted := (emitted st ++ ["disconnected"])%list |}
  else
    {| max_reconnects := max_reconnects st; websocket := websocket st;
       connected := connected st; reconnect_count := reconnect_count st;
       subscriptions := subscriptions st;
       reconnect_task := reconnect_task st; loops_running := false;
       sent := sent st; emitted := emitted st |}.

Definition subscribe_message (subscription : Py.dict Py.value) : Py.value :=
  Py.VDict
    [ ("method", Py.VStr "subscribe");
      ("subscription", Py.VDict subscription) ].

(** [f"{subscription['type']}_{subscription.get('coin', subscription.get('user', ''))}"],
    or [None] when the subscription has no [type]. *)
Definition sub_key (subscription : Py.dict Py.value) : option string :=
  match Py.get subscription "type" with
  | Some ty =>
      Some (Py.str ty +:+ "_"
            +:+ Py.str (Py.get_default subscription "coin"
                          (Py.get_default subscription "user" (Py.VStr EmptyString))))
  | None => None
  end.

(** [_subscribe]: [send_ok] tells whether writing the frame succeeds. *)
Definition _subscribe (send_ok : bool) (subscription : Py.dict Py.value)
  (st : t) : bool * t :=
  match connected st, websocket st with
  | true, Some sock =>
      if send_ok then
        let written :=
          (sent st ++ [(sock, subscribe_message subscription)])%list in
        match sub_key subscription with
        | Some key =>
            (true,
             {| max_reconnects := max_reconnects st;
                websocket := websocket st; connected := connected st;
                reconnect_count := reconnect_count st;
                subscriptions := <[key := subscription]> (subscriptions st);
                reconnect_task := reconnect_task st;
                loops_running := loops_running st; sent := written;
                emitted := emitted st |})
        | None =>
            (false,
             {| max_reconnects := max_reconnects st;
                websocket := websocket st; connected := connected st;
                reconnect_count := reconnect_count st;
                subscriptions := subscriptions st;
                reconnect_task := reconnect_task st;
                loops_running := loops_running st; sent := written;
                emitted := emitted st |})
        end
      else (false, st)
  | _, _ => (false, st)
  end.

Definition subscribe_trades (send_ok : bool) (coin : string) (st : t)
  : bool * t :=
  _subscribe send_ok [ ("type", Py.VStr "trades"); ("coin", Py.VStr coin) ] st.

Definition get_subscriptions (st : t) : list (Py.dict Py.value) :=
  (map_to_list (subscriptions st)).*2.

(** *** Unsubscribing, disconnecting and runs of the client *)

Definition unsubscribe_message (subscription : Py.dict Py.value) : Py.value :=
  Py.VDict
    [ ("method", Py.VStr "unsubscribe");
      ("subscription", Py.VDict subscription) ].

(** [unsubscribe]: [send_ok] tells whether writing the frame succeeds. *)
Definition unsubscribe (send_ok : bool) (subscription : Py.dict Py.value)
  (st : t) : bool * t :=
  match connected st, websocket st with
  | true, Some sock =>
      if send_ok then
        let written :=
          (sent st ++ [(sock, unsubscribe_message subscription)])%list in
        match sub_key subscription with
        | Some key =>
            (true,
             {| max_reconnects := max_reconnects st;
                websocket := websocket st; connected := connected st;
                reconnect_count := reconnect_count st;
                subscriptions := delete key (subscriptions st);
                reconnect_task := reconnect_task st;
                loops_running := loops_running st; sent := written;
                emitted := emitted st |})
        | None =>
            (false,
             {| max_reconnects := max_reconnects st;
                websocket := websocket st; connected := connected st;
                reconnect_count := reconnect_count st;
                subscriptions := subscriptions st;
                reconnect_task := reconnect_task st;
                loops_running := loops_running st; sent := written;
                emitted := emitted st |})
        end
      else (false, st)
  | _, _ => (false, st)
  end.

(** [task.cancel()]: a task that has not started never runs; cancelling a
    finished task, or none, does nothing. *)
Definition cancel (k : task) : task :=
  match k with
  | Pending => Done
  | other => other
  end.

(** [disconnect]: the socket is closed but stays assigned, and the tracked
    subscriptions are kept. *)
Definition disconnect (st : t) : t :=
  {| max_reconnects := max_reconnects st; websocket := websocket st;
     connected := false; reconnect_count := reconnect_count st;
     subscriptions := subscriptions st;
     reconnect_task := cancel (reconnect_task st); loops_running := false;
     sent := sent st; emitted := (emitted st ++ ["disconnected"])%list |}.

Definition health_check (st : t) : bool :=
  connected st && match websocket st with Some _ => true | None => false end.

Definition subscribe_l2_book (send_ok : bool) (coin : string) (st : t)
  : bool * t :=
  _subscribe send_ok [ ("type", Py.VStr "l2Book"); ("coin", Py.VStr coin) ] st.

Definition subscribe_order_updates (send_ok : bool) (user_address : string)
  (st : t) : bool * t :=
  _subscribe send_ok
    [ ("type", Py.VStr "orderUpdates"); ("user", Py.VStr user_address) ] st.

Definition subscribe_user_updates (send_ok : bool) (user_address : string)
  (st : t) : bool * t :=
  _subscribe send_ok
    [ ("type", Py.VStr "user"); ("user", Py.VStr user_address) ] st.

(** What can happen to a client: the caller's calls, the loss of the
    connection, and the event loop running the reconnect task. *)
Inductive event : Type :=
| Connect (outcome : option socket)
| Disconnect
| ConnectionLost
| RunReconnectTask (outcome : option socket)
| Subscribe (send_ok : bool) (subscription : Py.dict Py.value)
| Unsubscribe (send_ok : bool) (subscription : Py.dict Py.value).

Definition step (st : t) (ev : event) : t :=
  match ev with
  | Connect outcome => connect outcome st
  | Disconnect => disconnect st
  | ConnectionLost => connection_lost st
  | RunReconnectTask outcome => run_reconnect_task outcome st
  | Subscribe send_ok subscription => (_subscribe send_ok subscription st).2
  | Unsubscribe send_ok subscription =>
      (unsubscribe send_ok subscription st).2
  end.

Definition run (st : t) (events : list event) : t := foldl step st events.

(** Every tracked subscription sits under its own key and has had its
    subscribe frame written. *)
Definition tracked_were_sent (st : t) : Prop :=
  ∀ (key : string) (subscription : Py.dict Py.value),
    subscriptions st !! key = Some subscription ->
    sub_key subscription = Some key ∧
    ∃ sock, (sock, subscribe_message subscription) ∈ sent st.

(** The reconnect counter stays between 0 and the configured maximum. *)
Definition counter_in_bounds (st : t) : Prop :=
  0 <= reconnect_count st <= Z.max 0 (max_reconnects st).

End HyperliquidWebSocket.

(** ** Sequences of registry calls *)

Module RegistryRuns.
Import WalletRegistry.

(** The size limits of a wallet's two activity lists. *)
Definition within_caps (w : wallet) : Prop :=
  (length (default [] (approved_actions w)) <= 100)%nat ∧
  (length (default [] (blocked_actions w)) <= 50)%nat.

Definition all_within_caps (r : t) : Prop :=
  map_Forall (fun _ w => within_caps w) (default ∅ (wallets r)).

(** One call of [log_wallet_activity] with the clock readings it meets. *)
Record call := {
  call_now1 : string;
  call_now2 : string;
  call_save_now : string;
  call_wallet : string;
  call_action : string;
  call_success : bool;
  call_details : option (Py.dict Py.value);
}.

Definition apply_call (r : t) (c : call) : t :=
  log_wallet_activity (call_now1 c) (call_now2 c) (call_save_now c) r
    (call_wallet c) (call_action c) (call_success c) (call_details c).

Definition run (r : t) (calls : list call) : t := foldl apply_call r calls.

(** The entry a call writes, and the entries a run of calls writes for one
    wallet into its approved ([ok = true]) or blocked ([ok = false]) list,
    oldest first. *)
Definition entry_of (c : call) : action_log :=
  {| timestamp := call_now2 c; action := call_action c;
     success := call_success c; details := default [] (call_details c) |}.

Definition entries_for (wallet_address : string) (ok : bool)
  (calls : list call) : list action_log :=
  map entry_of
    (List.filter
       (fun c => String.eqb (call_wallet c) wallet_address
                 && Bool.eqb (call_success c) ok) calls).

(** The wallet is registered with a counter and holds these two lists. *)
Definition tracked (r : t) (wallet_address : string)
  (approved blocked : list action_log) : Prop :=
  ∃ (w : wallet) (count : Z),
    default ∅ (wallets r) !! wallet_address = Some w ∧
    activity_count w = Some count ∧
    approved_actions w = Some approved ∧
    blocked_actions w = Some blocked.

(** The calls of a run that are addressed to one wallet. *)
Definition calls_for (wallet_address : string) (calls : list call)
  : list call :=
  List.filter (fun c => String.eqb (call_wallet c) wallet_address) calls.

End RegistryRuns.

(** * Properties *)

(** ** Nonce sequencing *)

Section NonceFacts.
Import SignatureEngine.

Lemma get_next_nonce_spec (e : t) :
  (get_next_nonce e).1 = current_nonce e ∧
  current_nonce (get_next_nonce e).2 = current_nonce e + 1.
Proof. by destruct e. Qed.

Lemma issue_cons (count : nat) (e : t) :
  issue (S count) e =
    (current_nonce e :: (issue count (get_next_nonce e).2).1,
     (issue count (get_next_nonce e).2).2).
Proof.
  cbn [issue]. unfold get_next_nonce. cbn [fst snd].
  by destruct (issue count _) as [rest e2].
Qed.

(** After [count] calls the counter stands [count] above where it started. *)
Lemma issue_counter (count : nat) (e : t) :
  current_nonce (issue count e).2 = current_nonce e + Z.of_nat count.
Proof.
  revert e. induction count as [|count IH]; intros e.
  - cbn. lia.
  - rewrite issue_cons. cbn [snd]. rewrite IH.
    destruct (get_next_nonce_spec e) as [_ Hnext]. lia.
Qed.

(** Every nonce handed out lies between the old counter and the new one. *)
Lemma issue_range (count : nat) (e : t) :
  Forall (fun nonce => current_nonce e <= nonce < current_nonce (issue count e).2)
    (issue count e).1.
Proof.
  revert e. induction count as [|count IH]; intros e.
  - constructor.
  - rewrite issue_cons. cbn [fst snd]. constructor.
    + rewrite issue_counter.
      destruct (get_next_nonce_spec e) as [_ Hnext]. lia.
    + eapply Forall_impl; [apply IH|]. cbn beta. intros nonce.
      destruct (get_next_nonce_spec e) as [_ Hnext]. lia.
Qed.

Lemma issue_sorted (count : nat) (e : t) :
  StronglySorted Z.lt (issue count e).1.
Proof.
  revert e. induction count as [|count IH]; intros e.
  - constructor.
  - rewrite issue_cons. cbn [fst]. constructor; [apply IH|].
    eapply Forall_impl; [apply issue_range|]. cbn beta. intros nonce.
    destruct (get_next_nonce_spec e) as [_ Hnext]. lia.
Qed.

Lemma reset_nonce_counter (n : Z) (e : t) :
  current_nonce (reset_nonce n e) = Z.max (current_nonce e) (n + 1).
Proof. reflexivity. Qed.

End NonceFacts.

(** C3. The nonces that [count] successive calls of [get_next_nonce] hand
    out are strictly increasing; [reset_nonce n] leaves the counter at
    least where it was and strictly above [n]; and every nonce handed out
    after a reset is greater than every nonce handed out before it. *)
Theorem nonce_strictly_increasing_never_lowered :
  (∀ (count : nat) (e : SignatureEngine.t),
     StronglySorted Z.lt (SignatureEngine.issue count e).1) ∧
  (∀ (n : Z) (e : SignatureEngine.t),
     SignatureEngine.current_nonce e
       <= SignatureEngine.current_nonce (SignatureEngine.reset_nonce n e) ∧
     n < SignatureEngine.current_nonce (SignatureEngine.reset_nonce n e)) ∧
  (∀ (before after : nat) (n : Z) (e : SignatureEngine.t),
     let e1 := (SignatureEngine.issue before e).2 in
     let e2 := SignatureEngine.reset_nonce n e1 in
     Forall (fun old =>
       Forall (fun new => old < new) (SignatureEngine.issue after e2).1)
       (SignatureEngine.issue before e).1).
Proof.
  split; [exact issue_sorted|]. split.
  - intros n e. rewrite reset_nonce_counter. lia.
  - intros before after n e e1 e2.
    pose proof (reset_nonce_counter n e1) as Hreset. fold e2 in Hreset.
    eapply Forall_impl; [apply issue_range|]. cbn beta. intros old [_ Hold].
    eapply Forall_impl; [apply issue_range|]. cbn beta. intros new [Hnew _].
    fold e1 in Hold. lia.
Qed.

(** ** Asset directory *)

Section DirectoryFacts.
Import Types.

Lemma forallb_elem_of {A : Type} (f : A -> bool) (l : list A) (x : A) :
  forallb f l = true -> x ∈ l -> f x = true.
Proof.
  intros Hall Hx. apply list_elem_of_In in Hx.
  by apply (proj1 (forallb_forall f l) Hall).
Qed.

Lemma perp_id_roundtrip (asset_id : Z) :
  asset_id ∈ Py.values ASSET_IDS ->
  get_asset_id (get_symbol_from_asset_id asset_id) false = asset_id.
Proof.
  intros Hin. apply Z.eqb_eq.
  revert Hin.
  apply (forallb_elem_of
    (fun i => get_asset_id (get_symbol_from_asset_id i) false =? i)).
  by vm_compute.
Qed.

Lemma perp_symbol_roundtrip (symbol : string) :
  symbol ∈ Py.keys ASSET_IDS ->
  get_symbol_from_asset_id (get_asset_id symbol false) = symbol.
Proof.
  intros Hin. apply String.eqb_eq. revert Hin.
  apply (forallb_elem_of
    (fun s => String.eqb (get_symbol_from_asset_id (get_asset_id s false)) s)).
  by vm_compute.
Qed.

Lemma spot_id_roundtrip (spot_index : Z) :
  spot_index ∈ Py.values spot_indices ->
  get_asset_id (get_symbol_from_asset_id (SPOT_ASSET_OFFSET + spot_index)) true
  = SPOT_ASSET_OFFSET + spot_index.
Proof.
  intros Hin. apply Z.eqb_eq. revert Hin.
  apply (forallb_elem_of
    (fun i => get_asset_id (get_symbol_from_asset_id (SPOT_ASSET_OFFSET + i)) true
              =? SPOT_ASSET_OFFSET + i)).
  by vm_compute.
Qed.

Lemma spot_symbol_roundtrip (symbol : string) :
  symbol ∈ Py.keys spot_indices ->
  get_symbol_from_asset_id (get_asset_id symbol true) = symbol.
Proof.
  intros Hin. apply String.eqb_eq. revert Hin.
  apply (forallb_elem_of
    (fun s => String.eqb (get_symbol_from_asset_id (get_asset_id s true)) s)).
  by vm_compute.
Qed.

End DirectoryFacts.

(** C5. On the directory the two look-ups undo each other: for every id
    that is a value of [ASSET_IDS], and every spot index moved up by the
    offset of 10000, looking up the symbol and then its id gives the id
    back; for every symbol of either namespace, looking up the id and then
    its symbol gives the symbol back. *)
Theorem asset_directory_roundtrip :
  (∀ asset_id : Z,
     asset_id ∈ Py.values Types.ASSET_IDS ->
     Types.get_asset_id (Types.get_symbol_from_asset_id asset_id) false
     = asset_id) ∧
  (∀ spot_index : Z,
     spot_index ∈ Py.values Types.spot_indices ->
     Types.get_asset_id
       (Types.get_symbol_from_asset_id (10000 + spot_index)) true
     = 10000 + spot_index) ∧
  (∀ symbol : string,
     symbol ∈ Py.keys Types.ASSET_IDS ->
     Types.get_symbol_from_asset_id (Types.get_asset_id symbol false)
     = symbol) ∧
  (∀ symbol : string,
     symbol ∈ Py.keys Types.spot_indices ->
     Types.get_symbol_from_asset_id (Types.get_asset_id symbol true)
     = symbol).
Proof.
  repeat split.
  - exact perp_id_roundtrip.
  - exact spot_id_roundtrip.
  - exact perp_symbol_roundtrip.
  - exact spot_symbol_roundtrip.
Qed.

Lemma asset_directory_roundtrip_witness :
  (47 ∈ Py.values Types.ASSET_IDS ∧
   Types.get_asset_id (Types.get_symbol_from_asset_id 47) false = 47) ∧
  (1 ∈ Py.values Types.spot_indices ∧
   Types.get_asset_id (Types.get_symbol_from_asset_id (10000 + 1)) true
   = 10000 + 1) ∧
  ("ENA" ∈ Py.keys Types.ASSET_IDS ∧
   Types.get_symbol_from_asset_id (Types.get_asset_id "ENA" false) = "ENA") ∧
  ("HYPE/USDC" ∈ Py.keys Types.spot_indices ∧
   Types.get_symbol_from_asset_id (Types.get_asset_id "HYPE/USDC" true)
   = "HYPE/USDC").
Proof.
  assert (H47 : 47 ∈ Py.values Types.ASSET_IDS)
    by (apply list_elem_of_In; vm_compute; tauto).
  assert (H1 : 1 ∈ Py.values Types.spot_indices)
    by (apply list_elem_of_In; vm_compute; tauto).
  assert (Hena : "ENA" ∈ Py.keys Types.ASSET_IDS)
    by (apply list_elem_of_In; vm_compute; tauto).
  assert (Hhype : "HYPE/USDC" ∈ Py.keys Types.spot_indices)
    by (apply list_elem_of_In; vm_compute; tauto).
  destruct asset_directory_roundtrip as (Hid & Hspot & Hsym & Hspotsym).
  repeat split; auto.
Defined.

Section SentinelFacts.
Import Types.

Lemma prefix_append (p s : string) : String.prefix p (p +:+ s) = true.
Proof.
  induction p as [|c p IH].
  - by destruct s.
  - change (String.prefix (String c p) (String c p +:+ s))
      with (if Ascii.ascii_dec c c then String.prefix p (p +:+ s) else false).
    rewrite IH. by destruct (Ascii.ascii_dec c c).
Qed.

(** No symbol of the directory starts with [UNKNOWN_] or [SPOT_]. *)
Lemma known_symbols_not_sentinels (symbol : string) :
  symbol ∈ (Py.keys ASSET_IDS ++ Py.keys spot_indices)%list ->
  String.prefix "UNKNOWN_" symbol = false ∧
  String.prefix "SPOT_" symbol = false.
Proof.
  intros Hin.
  assert (Hboth : negb (String.prefix "UNKNOWN_" symbol)
                  && negb (String.prefix "SPOT_" symbol) = true).
  { revert Hin.
    apply (forallb_elem_of
      (fun s => negb (String.prefix "UNKNOWN_" s)
                && negb (String.prefix "SPOT_" s))).
    by vm_compute. }
  apply andb_true_iff in Hboth as [H1 H2].
  by rewrite negb_true_iff in H1, H2.
Qed.

Lemma first_symbol_with_value (items : list (string * Z)) (asset_id : Z)
  (symbol : string) :
  first_symbol_with items asset_id = Some symbol ->
  asset_id ∈ Py.values items.
Proof.
  induction items as [|[s aid] items IH]; cbn; [done|].
  destruct (aid =? asset_id) eqn:Heq.
  - intros _. apply Z.eqb_eq in Heq as ->. apply list_elem_of_here.
  - intros H. apply list_elem_of_further. by apply IH.
Qed.

Lemma spot_symbols_get_index (i : Z) (s : string) :
  spot_symbols_get spot_symbols i = Some s -> i ∈ Py.values spot_indices.
Proof.
  unfold spot_symbols. cbn [spot_symbols_get].
  destruct (Z.eqb_spec 0 i) as [<-|_].
  { intros _. apply list_elem_of_In. vm_compute. tauto. }
  destruct (Z.eqb_spec 1 i) as [<-|_]; [|done].
  intros _. apply list_elem_of_In. vm_compute. tauto.
Qed.

(** The id-to-symbol direction does answer an id it does not know with a
    name no asset carries. *)
Lemma unknown_id_sentinel_is_no_symbol (asset_id : Z) :
  (asset_id < SPOT_ASSET_OFFSET -> asset_id ∉ Py.values ASSET_IDS) ->
  (SPOT_ASSET_OFFSET <= asset_id ->
   asset_id - SPOT_ASSET_OFFSET ∉ Py.values spot_indices) ->
  get_symbol_from_asset_id asset_id
    ∉ (Py.keys ASSET_IDS ++ Py.keys spot_indices)%list.
Proof.
  intros Hperp Hspot Hin.
  apply known_symbols_not_sentinels in Hin as [Hunk Hsp].
  unfold get_symbol_from_asset_id in Hunk, Hsp.
  destruct (SPOT_ASSET_OFFSET <=? asset_id) eqn:Hside.
  - apply Z.leb_le in Hside.
    destruct (spot_symbols_get _ _) as [s|] eqn:Hget.
    + by apply spot_symbols_get_index, Hspot in Hget.
    + by rewrite prefix_append in Hsp.
  - apply Z.leb_gt in Hside.
    destruct (first_symbol_with _ _) as [s|] eqn:Hget.
    + by apply first_symbol_with_value, Hperp in Hget.
    + by rewrite prefix_append in Hunk.
Qed.

End SentinelFacts.

(** C6. A symbol the directory does not hold is answered with 0, the id of
    BTC, and in the spot namespace with 10000, the id of PURR/USDC: the
    answer for an unknown symbol cannot be told from a real asset's id. *)
Theorem unknown_symbol_collides_with_known_asset :
  (Py.upper "NOSUCHCOIN" ∉ Py.keys Types.ASSET_IDS) ∧
  Types.get_asset_id "NOSUCHCOIN" false = 0 ∧
  Types.get_asset_id "BTC" false = 0 ∧
  Types.get_symbol_from_asset_id 0 = "BTC" ∧
  ("NOSUCH/USDC" ∉ Py.keys Types.spot_indices) ∧
  Types.get_asset_id "NOSUCH/USDC" true = 10000 ∧
  Types.get_asset_id "PURR/USDC" true = 10000 ∧
  Types.get_symbol_from_asset_id 10000 = "PURR/USDC".
Proof.
  repeat split; try reflexivity.
  - intros Hin.
    apply (forallb_elem_of (fun s => negb (String.eqb s "NOSUCHCOIN"))) in Hin;
      [|by vm_compute].
    by vm_compute in Hin.
  - intros Hin.
    apply (forallb_elem_of (fun s => negb (String.eqb s "NOSUCH/USDC"))) in Hin;
      [|by vm_compute].
    by vm_compute in Hin.
Qed.

(** ** Permission controller *)

Section ControllerFacts.
Import PermissionController.






(** [validate_action] hands the controller back as it received it. *)
Lemma validate_action_state (c : t) (wallet_address action : string)
  (params : option (Py.dict Py.value))
  (wallet_permissions : option (list string)) :
  (validate_action c wallet_address action params wallet_permissions).2 = c.
Proof. unfold validate_action. by destruct (validate_action_body _ _ _ _ _). Qed.

Lemma last_n_last {A : Type} (n : nat) (l : list A) (x : A) :
  (0 < n)%nat -> last (Py.last_n n (l ++ [x])) = Some x.
Proof.
  intros Hn. unfold Py.last_n. rewrite length_app. cbn [length].
  rewrite drop_app_le by lia. by rewrite last_snoc.
Qed.

Lemma length_last_n {A : Type} (n : nat) (l : list A) :
  (length (Py.last_n n l) <= n)%nat.
Proof. unfold Py.last_n. rewrite length_drop. lia. Qed.

(** [log_action] appends its entry, whatever [_update_daily_stats] does. *)
Lemma log_action_appends (now today : string) (c : t)
  (wallet_address action : string) (params result : Py.dict Py.value)
  (agent : option string) :
  last (action_log
          (log_action now today c wallet_address action params result agent).2)
  = Some {| timestamp := now; entry_wallet := wallet_address;
            agent_name := agent; entry_action := action;
            entry_params := params; entry_result := result;
            entry_risk :=
              Py.get_default result "risk_level" (Py.VStr "unknown") |}.
Proof.
  unfold log_action.
  destruct (_update_daily_stats _ _ _ _ _) as [s [msg|]]; cbn [snd action_log].
  - by rewrite last_snoc.
  - destruct (1000 <? _); [|by rewrite last_snoc].
    apply last_n_last. lia.
Qed.

End ControllerFacts.






(** C1, the claim as stated fails: on a fresh controller an order that is
    allowed and an order that is refused both leave the action log empty. *)
Lemma validate_action_logs_nothing :
  let c := PermissionController.init PermissionController.no_environ
             "2025-01-01" in
  let order := Some [ ("size", Py.VInt 10); ("leverage", Py.VInt 2) ] in
  let granted :=
    PermissionController.validate_action c "0xA11CE" "place_order" order
      (Some [ "trading" ]) in
  let refused :=
    PermissionController.validate_action c "0xA11CE" "place_order" order
      (Some [ "read_only" ]) in
  PermissionController.allowed granted.1 = true ∧
  PermissionController.action_log granted.2 = [] ∧
  PermissionController.allowed refused.1 = false ∧
  PermissionController.action_log refused.2 = [].
Proof. by vm_compute. Qed.

(** C1, amended.  [validate_action] itself writes nothing: whether it
    allows or refuses, the controller and with it the action log is left as
    it was.  An entry holding the timestamp, the parameters and the outcome
    is appended to the action log by [log_action], when the caller passes
    the action and its result to it. *)
Theorem validate_action_leaves_log_to_log_action :
  (∀ (c : PermissionController.t) (wallet_address action : string)
     (params : option (Py.dict Py.value))
     (wallet_permissions : option (list string)),
     PermissionController.action_log
       (PermissionController.validate_action c wallet_address action params
          wallet_permissions).2
     = PermissionController.action_log c) ∧
  (∀ (now today : string) (c : PermissionController.t)
     (wallet_address action : string) (params result : Py.dict Py.value)
     (agent : option string),
     ∃ entry : PermissionController.log_entry,
       last (PermissionController.action_log
               (PermissionController.log_action now today c wallet_address
                  action params result agent).2) = Some entry ∧
       PermissionController.timestamp entry = now ∧
       PermissionController.entry_params entry = params ∧
       PermissionController.entry_result entry = result).
Proof.
  split.
  - intros. by rewrite validate_action_state.
  - intros. eexists. split; [apply log_action_appends|]. done.
Qed.

(** ** Order actions *)

(** C8. [create_order_action] depends on its arguments alone and returns
    the dictionary with the keys [type], [orders] and [grouping], in which
    [type] is ["order"], [grouping] is ["na"] and [orders] is a list of one
    order with the keys [a], [b], [p], [s], [r], [t]; [p] and [s] are the
    price and the size as strings. *)
Theorem create_order_action_wire_shape :
  ∀ (number : Type) (str : number -> string) (asset_id : Z) (is_buy : bool)
    (price size : number) (reduce_only : bool) (time_in_force : string),
    ∃ (o : Py.dict Py.value) (kind : string),
      HyperliquidClient.create_order_action str asset_id is_buy price size
        reduce_only time_in_force
      = Py.VDict [ ("type", Py.VStr "order"); ("orders", Py.VList [Py.VDict o]);
                   ("grouping", Py.VStr "na") ] ∧
      Py.keys o = [ "a"; "b"; "p"; "s"; "r"; "t" ] ∧
      Py.get o "a" = Some (Py.VInt asset_id) ∧
      Py.get o "b" = Some (Py.VBool is_buy) ∧
      Py.get o "p" = Some (Py.VStr (str price)) ∧
      Py.get o "s" = Some (Py.VStr (str size)) ∧
      Py.get o "r" = Some (Py.VBool reduce_only) ∧
      Py.get o "t"
      = Some (Py.VDict [ (kind, Py.VDict [ ("tif", Py.VStr time_in_force) ]) ]) ∧
      kind = (if String.eqb time_in_force "Market" then "market" else "limit").
Proof.
  intros. unfold HyperliquidClient.create_order_action.
  eexists _, _. split; [reflexivity|].
  repeat split. by destruct (String.eqb time_in_force "Market").
Qed.

(** ** Signing helpers *)

(** C10. The two module-level helpers are one function: for every action,
    account and nonce, whatever the encoder, the hash and the signer are,
    either both raise the encoder's error, or both return, having built the
    same message, serialised and hashed it to the same bytes and produced
    the same signature dictionary. *)
Theorem sign_user_action_is_sign_l1_action :
  ∀ (bytes account signable signed : Type)
    (json_dumps_sorted_compact : Py.value -> Py.result string)
    (encode_utf8 : string -> bytes) (sha256_digest : bytes -> bytes)
    (bytes_hex : bytes -> string) (encode_defunct : bytes -> signable)
    (sign_message : account -> signable -> signed)
    (signature_of : signed -> bytes) (address_of : account -> string)
    (action : Py.dict Py.value) (acct : account) (nonce : Z),
    let user :=
      Signing.sign_user_action json_dumps_sorted_compact encode_utf8
        sha256_digest bytes_hex encode_defunct sign_message signature_of
        address_of action acct nonce in
    let l1 :=
      Signing.sign_l1_action json_dumps_sorted_compact encode_utf8
        sha256_digest bytes_hex encode_defunct sign_message signature_of
        address_of action acct nonce in
    user = l1 ∧
    match user, l1 with
    | Py.Ok u, Py.Ok l =>
        Signing.message u = Signing.message l ∧
        Signing.message_json u = Signing.message_json l ∧
        Signing.message_hash u = Signing.message_hash l ∧
        Signing.signed_message u = Signing.signed_message l ∧
        Signing.returned u = Signing.returned l ∧
        Signing.message u
        = Py.VDict [ ("action", Py.VDict action); ("nonce", Py.VInt nonce) ]
    | Py.Raise eu, Py.Raise el => eu = el
    | _, _ => False
    end.
Proof.
  intros. subst user l1. split; [reflexivity|].
  unfold Signing.sign_user_action, Signing.sign_l1_action.
  destruct (json_dumps_sorted_compact _) as [json|msg]; cbn.
  - repeat split.
  - reflexivity.
Qed.

(** ** Streaming client *)

Section StreamFacts.
Import HyperliquidWebSocket.

Lemma handle_reconnect_keeps (st : t) :
  sent (_handle_reconnect st) = sent st ∧
  subscriptions (_handle_reconnect st) = subscriptions st.
Proof. unfold _handle_reconnect. by destruct (_ <=? _). Qed.

Lemma connect_keeps (outcome : option socket) (st : t) :
  sent (connect outcome st) = sent st ∧
  subscriptions (connect outcome st) = subscriptions st.
Proof. destruct outcome; [done|apply handle_reconnect_keeps]. Qed.

(** Carry a fact about the state handed to [f] through the call of [f]. *)
Ltac through f fact :=
  match goal with
  | |- context [f ?x] => destruct (fact x) as [-> ->]
  end.

Lemma connection_lost_keeps (st : t) :
  sent (connection_lost st) = sent st ∧
  subscriptions (connection_lost st) = subscriptions st.
Proof.
  unfold connection_lost. destruct (connected st); [|done].
  by through _handle_reconnect handle_reconnect_keeps.
Qed.

Lemma run_reconnect_task_keeps (outcome : option socket) (st : t) :
  sent (run_reconnect_task outcome st) = sent st ∧
  subscriptions (run_reconnect_task outcome st) = subscriptions st.
Proof.
  unfold run_reconnect_task. destruct (reconnect_task st); try done.
  cbn [sent subscriptions].
  by through (connect outcome) (connect_keeps outcome).
Qed.

End StreamFacts.

(** C4, the claim as stated fails: a client subscribed to the trades of
    BTC on its first socket loses the connection and reconnects on a second
    socket; the subscription is still tracked, the client is connected, and
    the only subscribe frame ever written went to the first socket. *)
Lemma reconnect_replays_nothing :
  let sub := [ ("type", Py.VStr "trades"); ("coin", Py.VStr "BTC") ] in
  let subscribed :=
    (HyperliquidWebSocket.subscribe_trades true "BTC"
       (HyperliquidWebSocket.connect (Some 1%nat)
          (HyperliquidWebSocket.init 10))).2 in
  let reconnected :=
    HyperliquidWebSocket.run_reconnect_task (Some 2%nat)
      (HyperliquidWebSocket.connection_lost subscribed) in
  HyperliquidWebSocket.subscriptions subscribed !! "trades_BTC" = Some sub ∧
  HyperliquidWebSocket.connected reconnected = true ∧
  HyperliquidWebSocket.websocket reconnected = Some 2%nat ∧
  HyperliquidWebSocket.subscriptions reconnected !! "trades_BTC" = Some sub ∧
  HyperliquidWebSocket.sent reconnected
  = [ (1%nat, HyperliquidWebSocket.subscribe_message sub) ] ∧
  (2%nat, HyperliquidWebSocket.subscribe_message sub)
    ∉ HyperliquidWebSocket.sent reconnected.
Proof.
  cbv zeta. repeat split; try by vm_compute.
  intros Hin. apply list_elem_of_In in Hin. vm_compute in Hin.
  destruct Hin as [Heq|[]]. discriminate Heq.
Qed.

(** C4, amended.  Reconnecting writes no frame and leaves the tracked
    subscriptions as they are: neither [_handle_reconnect] followed by
    [connect], nor the loss of the connection followed by the reconnect
    task, sends a subscribe message, and the set [get_subscriptions] shows
    the caller afterwards is the set tracked before. *)
Theorem reconnect_keeps_subscriptions_and_sends_nothing :
  ∀ (outcome : option HyperliquidWebSocket.socket)
    (st : HyperliquidWebSocket.t),
    let direct :=
      HyperliquidWebSocket.connect outcome
        (HyperliquidWebSocket._handle_reconnect st) in
    let by_task :=
      HyperliquidWebSocket.run_reconnect_task outcome
        (HyperliquidWebSocket.connection_lost st) in
    HyperliquidWebSocket.sent direct = HyperliquidWebSocket.sent st ∧
    HyperliquidWebSocket.subscriptions direct
    = HyperliquidWebSocket.subscriptions st ∧
    HyperliquidWebSocket.get_subscriptions direct
    = HyperliquidWebSocket.get_subscriptions st ∧
    HyperliquidWebSocket.sent by_task = HyperliquidWebSocket.sent st ∧
    HyperliquidWebSocket.subscriptions by_task
    = HyperliquidWebSocket.subscriptions st ∧
    HyperliquidWebSocket.get_subscriptions by_task
    = HyperliquidWebSocket.get_subscriptions st.
Proof.
  intros outcome st direct by_task.
  destruct (connect_keeps outcome (HyperliquidWebSocket._handle_reconnect st))
    as [Hsent1 Hsubs1].
  destruct (handle_reconnect_keeps st) as [Hsent0 Hsubs0].
  destruct (run_reconnect_task_keeps outcome
              (HyperliquidWebSocket.connection_lost st)) as [Hsent2 Hsubs2].
  destruct (connection_lost_keeps st) as [Hsent3 Hsubs3].
  unfold HyperliquidWebSocket.get_subscriptions. subst direct by_task.
  rewrite Hsent1, Hsubs1, Hsent0, Hsubs0, Hsent2, Hsubs2, Hsent3, Hsubs3.
  done.
Qed.

(** ** Wallet registry *)

Section RegistryFacts.
Import WalletRegistry RegistryRuns.

Lemma last_n_short {A : Type} (n : nat) (l : list A) :
  (length l <= n)%nat -> Py.last_n n l = l.
Proof.
  intros Hlen. unfold Py.last_n.
  by replace (length l - n)%nat with 0%nat by lia.
Qed.

(** Trimming when the list is too long is the same as always keeping the
    last [n] elements. *)
Lemma trim_is_last_n {A : Type} (n : nat) (l : list A) :
  (if (Z.of_nat n <? Z.of_nat (length l)) then Py.last_n n l else l)
  = Py.last_n n l.
Proof.
  destruct (Z.ltb_spec (Z.of_nat n) (Z.of_nat (length l))); [done|].
  symmetry. apply last_n_short. lia.
Qed.

Lemma last_n_app_last_n {A : Type} (n : nat) (l l' : list A) :
  Py.last_n n (Py.last_n n l ++ l') = Py.last_n n (l ++ l').
Proof.
  unfold Py.last_n.
  rewrite <- (drop_app_le l l') by lia.
  rewrite drop_drop. f_equal.
  rewrite ?length_drop, ?length_app. lia.
Qed.

Lemma lookup_save (now : string) (r : t) (a : string) :
  default ∅ (wallets (_save_registry now r)) !! a = default ∅ (wallets r) !! a.
Proof. reflexivity. Qed.

Lemma lookup_set_wallet (r : t) (a b : string) (w : wallet) :
  default ∅ (wallets (set_wallet r a w)) !! b
  = if decide (a = b) then Some w else default ∅ (wallets r) !! b.
Proof. cbn. apply lookup_insert. Qed.

(** What [log_wallet_activity] leaves under the address it was called
    with, when the wallet is registered and carries its counter. *)
Lemma log_wallet_activity_logged (now1 now2 save_now : string) (r : t)
  (a action : string) (ok : bool) (details : option (Py.dict Py.value))
  (w : wallet) (count : Z) :
  default ∅ (wallets r) !! a = Some w ->
  activity_count w = Some count ->
  let entry := {| timestamp := now2; WalletRegistry.action := action;
                  success := ok; WalletRegistry.details := default [] details |} in
  ∃ w' : wallet,
    default ∅ (wallets (log_wallet_activity now1 now2 save_now r a action ok
                          details)) !! a = Some w' ∧
    activity_count w' = Some (count + 1) ∧
    approved_actions w' =
      (if ok then
         Some (Py.last_n 100 (default [] (approved_actions w) ++ [entry]))
       else approved_actions w) ∧
    blocked_actions w' =
      (if ok then blocked_actions w
       else Some (Py.last_n 50 (default [] (blocked_actions w) ++ [entry]))).
Proof.
  intros Hw Hcount entry. unfold log_wallet_activity. rewrite Hw, Hcount.
  eexists. rewrite lookup_save, lookup_set_wallet, decide_True by done.
  split; [reflexivity|]. cbn [activity_count approved_actions blocked_actions].
  split; [done|].
  destruct ok; split; try done; f_equal;
    [apply (trim_is_last_n 100)|apply (trim_is_last_n 50)].
Qed.

(** Wallets under other addresses are not touched. *)
Lemma log_wallet_activity_other (now1 now2 save_now : string) (r : t)
  (a b action : string) (ok : bool) (details : option (Py.dict Py.value)) :
  a ≠ b ->
  default ∅ (wallets (log_wallet_activity now1 now2 save_now r a action ok
                        details)) !! b
  = default ∅ (wallets r) !! b.
Proof.
  intros Hne. unfold log_wallet_activity.
  destruct (default ∅ (wallets r) !! a) as [w|]; [|done].
  destruct (activity_count w);
    rewrite ?lookup_save, lookup_set_wallet, decide_False; done.
Qed.

Lemma within_caps_last_n (w : wallet) (approved blocked : list action_log) :
  approved_actions w = Some (Py.last_n 100 approved) ->
  blocked_actions w = Some (Py.last_n 50 blocked) ->
  within_caps w.
Proof.
  intros Ha Hb. unfold within_caps. rewrite Ha, Hb. cbn [default].
  split; apply length_last_n.
Qed.

Lemma log_wallet_activity_preserves (now1 now2 save_now : string) (r : t)
  (a action : string) (ok : bool) (details : option (Py.dict Py.value)) :
  all_within_caps r ->
  all_within_caps
    (log_wallet_activity now1 now2 save_now r a action ok details).
Proof.
  intros Hall b w' Hb.
  destruct (decide (a = b)) as [<-|Hne].
  2:{ rewrite log_wallet_activity_other in Hb by done. by apply (Hall b). }
  destruct (default ∅ (wallets r) !! a) as [w|] eqn:Hw.
  2:{ unfold log_wallet_activity in Hb. rewrite Hw in Hb.
      rewrite Hw in Hb. done. }
  pose proof (Hall a w Hw) as [Happ Hblk]. cbn beta in Happ, Hblk.
  destruct (activity_count w) as [count|] eqn:Hcount.
  - destruct (log_wallet_activity_logged now1 now2 save_now r a action ok
                details w count Hw Hcount) as (w2 & Hw2 & _ & Ha2 & Hb2).
    rewrite Hw2 in Hb. injection Hb as <-.
    unfold within_caps. rewrite Ha2, Hb2.
    destruct ok; split;
      first [exact Happ | exact Hblk | apply (length_last_n 100)
            | apply (length_last_n 50)].
  - unfold log_wallet_activity in Hb. rewrite Hw, Hcount in Hb.
    rewrite lookup_set_wallet, decide_True in Hb by done.
    injection Hb as <-. by split.
Qed.

Lemma run_preserves (calls : list call) (r : t) :
  all_within_caps r -> all_within_caps (run r calls).
Proof.
  revert r. induction calls as [|c calls IH]; intros r Hall; [done|].
  apply IH. by apply log_wallet_activity_preserves.
Qed.

Lemma register_wallet_preserves (now save_now : string) (r : t)
  (a : string) (m : metadata) :
  all_within_caps r ->
  all_within_caps (register_wallet now save_now r a m).2.
Proof.
  intros Hall b w Hb. cbn [register_wallet snd] in Hb.
  rewrite lookup_save, lookup_set_wallet in Hb.
  destruct (decide (a = b)) as [_|_]; [|by apply (Hall b)].
  injection Hb as <-. split; cbn; lia.
Qed.

Lemma empty_within_caps (now : string) : all_within_caps (empty now).
Proof.
  intros a w H. change ((∅ : gmap string wallet) !! a = Some w) in H.
  by rewrite lookup_empty in H.
Qed.

Lemma register_wallet_tracked (now save_now : string) (r : t)
  (a : string) (m : metadata) :
  tracked (register_wallet now save_now r a m).2 a [] [].
Proof.
  eexists _, 0. cbn [register_wallet snd].
  by rewrite lookup_save, lookup_set_wallet, decide_True.
Qed.

Lemma entries_for_cons (a : string) (ok : bool) (c : call)
  (calls : list call) :
  entries_for a ok (c :: calls)
  = ((if String.eqb (call_wallet c) a && Bool.eqb (call_success c) ok
      then [entry_of c] else []) ++ entries_for a ok calls)%list.
Proof.
  unfold entries_for. cbn [List.filter].
  by destruct (String.eqb (call_wallet c) a && Bool.eqb (call_success c) ok).
Qed.

Lemma entries_for_cons_one (a : string) (ok : bool) (c : call)
  (calls : list call) :
  entries_for a ok (c :: calls)
  = (entries_for a ok [c] ++ entries_for a ok calls)%list.
Proof.
  unfold entries_for. cbn [List.filter].
  by destruct (String.eqb (call_wallet c) a && Bool.eqb (call_success c) ok).
Qed.

(** One call moves a tracked wallet's lists to the last 100 and the last
    50 of what they held plus the entry the call wrote for it. *)
Lemma apply_call_tracked (r : t) (a : string)
  (approved blocked : list action_log) (c : call) :
  tracked r a approved blocked ->
  (length approved <= 100)%nat -> (length blocked <= 50)%nat ->
  tracked (apply_call r c) a
    (Py.last_n 100 (approved ++ entries_for a true [c]))
    (Py.last_n 50 (blocked ++ entries_for a false [c])).
Proof.
  intros (w & count & Hw & Hcount & Happ & Hblk) Hla Hlb.
  rewrite !entries_for_cons. unfold apply_call.
  destruct (String.eqb_spec (call_wallet c) a) as [Heq|Hne].
  - rewrite Heq.
    destruct (log_wallet_activity_logged (call_now1 c) (call_now2 c)
                (call_save_now c) r a (call_action c) (call_success c)
                (call_details c) w count Hw Hcount)
      as (w2 & Hw2 & Hc2 & Ha2 & Hb2).
    exists w2, (count + 1). split; [done|]. split; [done|].
    rewrite Ha2, Hb2, Happ, Hblk. unfold entry_of.
    destruct (call_success c); cbn [andb Bool.eqb default entries_for map
                                    List.filter app];
      rewrite ?app_nil_r; split; f_equal; by rewrite ?last_n_short.
  - exists w, count. rewrite log_wallet_activity_other by done.
    cbn [andb entries_for map List.filter app]. rewrite !app_nil_r.
    by rewrite !last_n_short.
Qed.

Lemma run_tracked (calls : list call) (r : t) (a : string)
  (approved blocked : list action_log) :
  tracked r a approved blocked ->
  (length approved <= 100)%nat -> (length blocked <= 50)%nat ->
  tracked (run r calls) a
    (Py.last_n 100 (approved ++ entries_for a true calls))
    (Py.last_n 50 (blocked ++ entries_for a false calls)).
Proof.
  revert r approved blocked.
  induction calls as [|c calls IH]; intros r approved blocked Ht Hla Hlb.
  - cbn. rewrite !app_nil_r, !last_n_short by done. done.
  - cbn [run foldl]. fold (run (apply_call r c) calls).
    pose proof (apply_call_tracked r a approved blocked c Ht Hla Hlb) as Hstep.
    apply IH in Hstep; [|apply length_last_n..].
    rewrite !last_n_app_last_n, <- !app_assoc in Hstep.
    by rewrite (entries_for_cons_one a true c calls),
               (entries_for_cons_one a false c calls).
Qed.

End RegistryFacts.

(** C9. The approved list of a wallet never outgrows 100 entries and the
    blocked list never outgrows 50: a registry within these limits stays
    within them through registrations and through every sequence of
    [log_wallet_activity] calls; a call that logs to a registered wallet
    leaves the list it wrote to as the last 100 (approved) or last 50
    (blocked) of the old list and the new entry, however long the list was
    before; and from its registration on, a wallet's approved list is the
    last 100 approved entries written for it and its blocked list the last
    50 blocked ones. *)
Theorem activity_logs_stay_bounded :
  (∀ (r : WalletRegistry.t) (calls : list RegistryRuns.call),
     RegistryRuns.all_within_caps r ->
     RegistryRuns.all_within_caps (RegistryRuns.run r calls)) ∧
  (∀ (now save_now : string) (r : WalletRegistry.t) (a : string)
     (m : WalletRegistry.metadata),
     RegistryRuns.all_within_caps r ->
     RegistryRuns.all_within_caps
       (WalletRegistry.register_wallet now save_now r a m).2) ∧
  (∀ (now1 now2 save_now : string) (r : WalletRegistry.t) (a action : string)
     (ok : bool) (details : option (Py.dict Py.value))
     (w : WalletRegistry.wallet) (count : Z),
     default ∅ (WalletRegistry.wallets r) !! a = Some w ->
     WalletRegistry.activity_count w = Some count ->
     ∃ (w' : WalletRegistry.wallet) (kept : list WalletRegistry.action_log),
       default ∅
         (WalletRegistry.wallets
            (WalletRegistry.log_wallet_activity now1 now2 save_now r a action
               ok details)) !! a = Some w' ∧
       (if ok then WalletRegistry.approved_actions w'
        else WalletRegistry.blocked_actions w') = Some kept ∧
       kept =
         Py.last_n (if ok then 100 else 50)
           (default []
              (if ok then WalletRegistry.approved_actions w
               else WalletRegistry.blocked_actions w)
            ++ [ {| WalletRegistry.timestamp := now2;
                    WalletRegistry.action := action;
                    WalletRegistry.success := ok;
                    WalletRegistry.details := default [] details |} ]) ∧
       (length kept <= (if ok then 100 else 50))%nat) ∧
  (∀ (now save_now : string) (r : WalletRegistry.t) (a : string)
     (m : WalletRegistry.metadata) (calls : list RegistryRuns.call),
     RegistryRuns.tracked
       (RegistryRuns.run
          (WalletRegistry.register_wallet now save_now r a m).2 calls) a
       (Py.last_n 100 (RegistryRuns.entries_for a true calls))
       (Py.last_n 50 (RegistryRuns.entries_for a false calls))).
Proof.
  split; [intros r calls; apply run_preserves|].
  split; [intros now save_now r a m; apply register_wallet_preserves|].
  split.
  - intros now1 now2 save_now r a action ok details w count Hw Hcount.
    destruct (log_wallet_activity_logged now1 now2 save_now r a action ok
                details w count Hw Hcount) as (w' & Hw' & _ & Ha & Hb).
    exists w'.
    destruct ok; eexists; (split; [exact Hw'|]);
      (split; [eassumption|]); split; try reflexivity; apply length_last_n.
  - intros now save_now r a m calls.
    apply (run_tracked calls _ a [] []);
      [apply register_wallet_tracked | cbn; lia | cbn; lia].
Qed.

Lemma activity_logs_stay_bounded_witness :
  let m := {| WalletRegistry.meta_permissions := Some ["trading"];
              WalletRegistry.meta_agent_name := None;
              WalletRegistry.meta_description := None;
              WalletRegistry.meta_risk_level := None;
              WalletRegistry.meta_max_daily_volume := None |} in
  let r0 := (WalletRegistry.register_wallet "t0" "t1"
               (WalletRegistry.empty "t0") "0xA11CE" m).2 in
  let order := {| RegistryRuns.call_now1 := "t2";
                  RegistryRuns.call_now2 := "t3";
                  RegistryRuns.call_save_now := "t4";
                  RegistryRuns.call_wallet := "0xA11CE";
                  RegistryRuns.call_action := "place_order";
                  RegistryRuns.call_success := true;
                  RegistryRuns.call_details := None |} in
  RegistryRuns.all_within_caps (WalletRegistry.empty "t0") ∧
  RegistryRuns.all_within_caps r0 ∧
  RegistryRuns.all_within_caps (RegistryRuns.run r0 (replicate 120 order)) ∧
  ∃ (w : WalletRegistry.wallet) (w' : WalletRegistry.wallet)
    (kept : list WalletRegistry.action_log),
    default ∅ (WalletRegistry.wallets r0) !! "0xA11CE" = Some w ∧
    WalletRegistry.activity_count w = Some 0 ∧
    default ∅
      (WalletRegistry.wallets
         (WalletRegistry.log_wallet_activity "t2" "t3" "t4" r0 "0xA11CE"
            "withdraw" false None)) !! "0xA11CE" = Some w' ∧
    WalletRegistry.blocked_actions w' = Some kept ∧
    (length kept <= 50)%nat.
Proof.
  intros m r0 order.
  destruct activity_logs_stay_bounded as (Hrun & Hreg & Hlog & _).
  assert (Hempty : RegistryRuns.all_within_caps (WalletRegistry.empty "t0"))
    by apply empty_within_caps.
  assert (Hr0 : RegistryRuns.all_within_caps r0) by (apply Hreg, Hempty).
  split; [exact Hempty|]. split; [exact Hr0|].
  split; [apply Hrun, Hr0|].
  destruct (Hlog "t2" "t3" "t4" r0 "0xA11CE" "withdraw" false None
              {| WalletRegistry.address := "0xA11CE";
                 WalletRegistry.registered_at := "t0";
                 WalletRegistry.is_active := true;
                 WalletRegistry.permissions := ["trading"];
                 WalletRegistry.agent_name := EmptyString;
                 WalletRegistry.description := EmptyString;
                 WalletRegistry.risk_level := "medium";
                 WalletRegistry.max_daily_volume := 10000;
                 WalletRegistry.last_activity := None;
                 WalletRegistry.activity_count := Some 0;
                 WalletRegistry.approved_actions := Some [];
                 WalletRegistry.blocked_actions := Some [] |} 0)
    as (w' & kept & Hw' & Hkept & _ & Hlen).
  - by vm_compute.
  - reflexivity.
  - eexists _, w', kept. repeat split; try eassumption; by vm_compute.
Defined.

(** * Further properties of the code *)

(** ** Permission controller: grants, verdicts and the audit trail *)

Section GrantFacts.
Import PermissionController.

Lemma mem_elem_of (x : string) (l : list string) :
  Py.mem x l = true <-> x ∈ l.
Proof.
  unfold Py.mem. rewrite existsb_exists. split.
  - intros (y & Hin & Heq). apply String.eqb_eq in Heq as <-.
    by apply list_elem_of_In.
  - intros Hin. exists x. split; [by apply list_elem_of_In|].
    apply String.eqb_refl.
Qed.

Lemma mem_cons (x y : string) (l : list string) :
  Py.mem x (y :: l) = String.eqb x y || Py.mem x l.
Proof. reflexivity. Qed.

Lemma mem_app (x : string) (l l' : list string) :
  Py.mem x (l ++ l') = Py.mem x l || Py.mem x l'.
Proof. apply existsb_app. Qed.

Lemma mem_set_update (x : string) (new acc : list string) :
  Py.mem x (set_update acc new) = Py.mem x acc || Py.mem x new.
Proof.
  unfold set_update. revert acc.
  induction new as [|y new IH]; intros acc; cbn [foldl].
  - by rewrite orb_false_r.
  - rewrite IH, mem_cons.
    destruct (Py.mem y acc) eqn:Hy.
    + destruct (String.eqb_spec x y) as [->|_]; [|done].
      by rewrite Hy.
    + rewrite mem_app, mem_cons. cbn [Py.mem existsb].
      by rewrite orb_false_r, orb_assoc.
Qed.

(** What the loop of [_check_permissions] decides, with the set it has
    gathered so far. *)
Lemma check_permissions_loop_spec (levels : Py.dict level_config)
  (action : string) (perms acc : list string) :
  pc_allowed (check_permissions_loop levels action perms acc) = true <->
  action ∈ acc ∨
  ∃ p, p ∈ perms ∧
       ("*" ∈ level_actions_of levels p ∨ action ∈ level_actions_of levels p).
Proof.
  revert acc. induction perms as [|p perms IH]; intros acc;
    cbn [check_permissions_loop].
  - destruct (Py.mem action acc) eqn:Hmem; cbn [pc_allowed].
    + apply mem_elem_of in Hmem. naive_solver.
    + split; [done|]. intros [Hin|(p & Hp & _)].
      * apply mem_elem_of in Hin. congruence.
      * by apply elem_of_nil in Hp.
  - destruct (Py.mem "*" (level_actions_of levels p)) eqn:Hstar;
      cbn [pc_allowed].
    + apply mem_elem_of in Hstar. split; [|done]. intros _. right.
      exists p. split; [apply list_elem_of_here|by left].
    + rewrite IH. rewrite <- !mem_elem_of, mem_set_update, orb_true_iff.
      rewrite !mem_elem_of. split.
      * intros [[Hacc|Hnew]|(q & Hq & Hor)]; [by left| |].
        -- right. exists p. split; [apply list_elem_of_here|by right].
        -- right. exists q. split; [by apply list_elem_of_further|done].
      * intros [Hacc|(q & Hq & Hor)]; [by left; left|].
        apply elem_of_cons in Hq as [->|Hq].
        -- destruct Hor as [Hs|Ha]; [|by left; right].
           apply mem_elem_of in Hs. congruence.
        -- right. by exists q.
Qed.

Lemma check_permissions_spec (c : t) (action : string)
  (perms : list string) :
  pc_allowed (_check_permissions c action perms) = true <->
  ∃ p, p ∈ perms ∧
       ("*" ∈ level_actions_of (permission_levels c) p ∨
        action ∈ level_actions_of (permission_levels c) p).
Proof.
  unfold _check_permissions. rewrite check_permissions_loop_spec. split.
  - intros [Hnil|H]; [by apply elem_of_nil in Hnil|done].
  - intros H. by right.
Qed.

End GrantFacts.

(** X1. An action is permitted exactly when one of the wallet's grants
    carries the wildcard or lists the action; grants the controller does
    not know add nothing.  So the verdict does not depend on the order of
    the grants, and adding grants never takes a permission away. *)
Theorem grants_decide_permission :
  ∀ (c : PermissionController.t) (action : string)
    (perms perms' : list string),
    (PermissionController.pc_allowed
       (PermissionController._check_permissions c action perms) = true <->
     ∃ p, p ∈ perms ∧
          ("*" ∈ PermissionController.level_actions_of
                   (PermissionController.permission_levels c) p ∨
           action ∈ PermissionController.level_actions_of
                      (PermissionController.permission_levels c) p)) ∧
    ((∀ p, p ∈ perms -> p ∈ perms') ->
     PermissionController.pc_allowed
       (PermissionController._check_permissions c action perms) = true ->
     PermissionController.pc_allowed
       (PermissionController._check_permissions c action perms') = true).
Proof.
  intros c action perms perms'.
  split; [apply check_permissions_spec|].
  intros Hsub Hallowed. apply check_permissions_spec.
  apply check_permissions_spec in Hallowed.
  destruct Hallowed as (p & Hp & Hor). exists p. split; [by apply Hsub|done].
Qed.

Lemma grants_decide_permission_witness :
  let c := PermissionController.init PermissionController.no_environ
             "2025-01-01" in
  PermissionController.pc_allowed
    (PermissionController._check_permissions c "cancel_order"
       ["read_only"; "trading"]) = true ∧
  PermissionController.pc_allowed
    (PermissionController._check_permissions c "cancel_order"
       ["trading"; "unheard_of"; "read_only"]) = true.
Proof.
  intros c. split; [reflexivity|].
  apply (proj2 (grants_decide_permission c "cancel_order"
                  ["read_only"; "trading"]
                  ["trading"; "unheard_of"; "read_only"])).
  - intros p Hp. apply list_elem_of_In in Hp. apply list_elem_of_In.
    cbn in *. tauto.
  - reflexivity.
Defined.

Section VerdictFacts.
Import PermissionController.


(** The verdict is read off the permission levels and the risk limits
    alone. *)
Lemma validate_action_reads_policy_only (c c' : t)
  (wallet_address action : string) (params : option (Py.dict Py.value))
  (wallet_permissions : option (list string)) :
  permission_levels c' = permission_levels c ->
  global_risk_limits c' = global_risk_limits c ->
  (validate_action c' wallet_address action params wallet_permissions).1
  = (validate_action c wallet_address action params wallet_permissions).1.
Proof.
  intros Hlevels Hlimits.
  assert (Hbody :
    validate_action_body c' wallet_address action params wallet_permissions
    = validate_action_body c wallet_address action params wallet_permissions).
  { unfold validate_action_body, _check_permissions, _check_risk_limits,
      check_risk_limits_body, _requires_ai_confirmation, _get_action_limits.
    by rewrite Hlevels, Hlimits. }
  unfold validate_action. rewrite Hbody.
  by destruct (validate_action_body c _ _ _ _).
Qed.

Lemma log_action_keeps_policy (now today : string) (c : t)
  (wallet_address action : string) (params result : Py.dict Py.value)
  (agent : option string) :
  let c' :=
    (log_action now today c wallet_address action params result agent).2 in
  permission_levels c' = permission_levels c ∧
  global_risk_limits c' = global_risk_limits c.
Proof.
  unfold log_action.
  by destruct (_update_daily_stats _ _ _ _ _) as [s [msg|]].
Qed.

End VerdictFacts.

(** Close a goal about a verdict that has been computed. *)
Ltac well_formed :=
  cbn;
  first [ left; repeat split; eauto; fail
        | right; repeat split; eauto; fail
        | repeat split; eauto ].

(** X2. Every verdict of [validate_action] is well formed: a refusal
    carries a reason and neither limits nor a confirmation flag; an
    approval carries the confirmation flag, with the reason exactly when
    confirmation is required and the limits exactly when it is not. *)
Theorem verdict_is_well_formed :
  ∀ (c : PermissionController.t) (wallet_address action : string)
    (params : option (Py.dict Py.value))
    (wallet_permissions : option (list string)),
    let v :=
      (PermissionController.validate_action c wallet_address action params
         wallet_permissions).1 in
    if PermissionController.allowed v then
      (PermissionController.requires_ai_confirmation v = Some true ∧
       is_Some (PermissionController.reason v) ∧
       PermissionController.limits v = None ∧
       PermissionController.risk_level v = "high") ∨
      (PermissionController.requires_ai_confirmation v = Some false ∧
       PermissionController.reason v = None ∧
       is_Some (PermissionController.limits v))
    else
      is_Some (PermissionController.reason v) ∧
      PermissionController.requires_ai_confirmation v = None ∧
      PermissionController.limits v = None.
Proof.
  intros c wallet_address action params perms.
  unfold PermissionController.validate_action,
    PermissionController.validate_action_body.
  destruct (PermissionController.pc_allowed _); cbn [negb];
    [|by well_formed].
  destruct (PermissionController.rc_allowed _); cbn [negb].
  - destruct (PermissionController._requires_ai_confirmation _ _ _)
      as [[|]|msg]; cbn [mbind mret Py.result_bind Py.result_ret];
      [by well_formed| |by well_formed].
    destruct (PermissionController._get_action_risk_level _ _)
      as [level|msg]; cbn [mbind mret Py.result_bind Py.result_ret];
      [|by well_formed].
    destruct (PermissionController._get_action_limits _ _ _)
      as [lim|msg]; by well_formed.
  - destruct (PermissionController.rc_risk_level _); by well_formed.
Qed.



(** X4. [emergency_stop] returns [True] and appends a [system] entry for
    the wallet, but it stops nothing: like every [log_action], it leaves
    each later verdict of [validate_action], for the stopped wallet as for
    any other, what it was before. *)
Theorem emergency_stop_logs_but_blocks_nothing :
  ∀ (now today : string) (c : PermissionController.t)
    (wallet_address stop_reason : string),
    let stopped :=
      PermissionController.emergency_stop now today c wallet_address
        stop_reason in
    stopped.1 = true ∧
    last (PermissionController.action_log stopped.2)
    = Some {| PermissionController.timestamp := now;
              PermissionController.entry_wallet := wallet_address;
              PermissionController.agent_name := Some "system";
              PermissionController.entry_action := "emergency_stop";
              PermissionController.entry_params :=
                [ ("reason", Py.VStr stop_reason) ];
              PermissionController.entry_result :=
                [ ("success", Py.VBool true); ("action", Py.VStr "stopped") ];
              PermissionController.entry_risk := Py.VStr "unknown" |} ∧
    ∀ (wallet action : string) (params : option (Py.dict Py.value))
      (wallet_permissions : option (list string)),
      (PermissionController.validate_action stopped.2 wallet action params
         wallet_permissions).1
      = (PermissionController.validate_action c wallet action params
           wallet_permissions).1.
Proof.
  intros now today c wallet_address stop_reason stopped.
  pose proof (log_action_appends now today c wallet_address "emergency_stop"
                [("reason", Py.VStr stop_reason)]
                [("success", Py.VBool true); ("action", Py.VStr "stopped")]
                (Some "system")) as Hlast.
  pose proof (log_action_keeps_policy now today c wallet_address
                "emergency_stop" [("reason", Py.VStr stop_reason)]
                [("success", Py.VBool true); ("action", Py.VStr "stopped")]
                (Some "system")) as [Hlevels Hlimits].
  subst stopped. unfold PermissionController.emergency_stop.
  destruct (PermissionController.log_action _ _ _ _ _ _ _ _)
    as [[msg|] c'] eqn:Hlog; cbn [fst snd] in *.
  - exfalso. unfold PermissionController.log_action in Hlog.
    cbn in Hlog. by destruct (negb _) in Hlog.
  - split; [done|]. split; [exact Hlast|].
    intros. by apply validate_action_reads_policy_only.
Qed.

Section AuditFacts.
Import PermissionController.


Lemma filter_all {A : Type} (f : A -> bool) (l : list A) :
  Forall (fun x => f x = true) (List.filter f l).
Proof.
  apply Forall_forall. intros x Hx. apply list_elem_of_In in Hx.
  by apply filter_In in Hx as [_ Hx].
Qed.

Lemma Forall_drop_of {A : Type} (P : A -> Prop) (n : nat) (l : list A) :
  Forall P l -> Forall P (drop n l).
Proof. apply Forall_drop. Qed.


End AuditFacts.



(** X6. [get_audit_log] for a wallet and a positive limit returns the last
    [limit] entries of that wallet, oldest first, and entries of no other
    wallet.  A limit of 0 does not return nothing: the slice [[-0:]] is the
    whole list, so every entry of the wallet comes back; a negative limit
    drops that many of the oldest entries.  Without an address, or with
    the empty one, the log is not filtered. *)
Theorem audit_log_returns_last_entries_of_wallet :
  ∀ (c : PermissionController.t) (address : string) (limit : Z),
    let mine :=
      List.filter
        (fun e => String.eqb (PermissionController.entry_wallet e) address)
        (PermissionController.action_log c) in
    (address ≠ EmptyString ->
     Forall (fun e => PermissionController.entry_wallet e = address)
       (PermissionController.get_audit_log c (Some address) limit) ∧
     (0 < limit ->
      PermissionController.get_audit_log c (Some address) limit
      = Py.last_n (Z.to_nat limit) mine ∧
      Z.of_nat
        (length (PermissionController.get_audit_log c (Some address) limit))
      <= limit) ∧
     (limit = 0 ->
      PermissionController.get_audit_log c (Some address) limit = mine) ∧
     (limit < 0 ->
      PermissionController.get_audit_log c (Some address) limit
      = drop (Z.to_nat (- limit)) mine)) ∧
    PermissionController.get_audit_log c None 0
    = PermissionController.action_log c ∧
    PermissionController.get_audit_log c (Some EmptyString) 0
    = PermissionController.action_log c.
Proof.
  intros c address limit mine. split; [|done].
  intros Hne. unfold PermissionController.get_audit_log.
  destruct (String.eqb_spec address EmptyString) as [->|_]; [done|].
  cbn [negb]. fold mine. unfold Py.slice_last.
  assert (Hmine : Forall
            (fun e => PermissionController.entry_wallet e = address) mine).
  { eapply Forall_impl; [apply filter_all|]. cbn beta. intros e He.
    by apply String.eqb_eq. }
  split; [destruct (0 <? limit); by apply Forall_drop|].
  split; [|split].
  - intros Hpos. rewrite (proj2 (Z.ltb_lt 0 limit) Hpos).
    split; [done|]. fold (Py.last_n (Z.to_nat limit) mine).
    pose proof (length_last_n (Z.to_nat limit) mine). lia.
  - intros ->. done.
  - intros Hneg. by rewrite (proj2 (Z.ltb_ge 0 limit)) by lia.
Qed.

Lemma audit_log_returns_last_entries_of_wallet_witness :
  let c0 := PermissionController.init PermissionController.no_environ
              "2025-01-01" in
  let c1 := (PermissionController.log_action "t1" "2025-01-01" c0 "0xA11CE"
               "get_balance" [] [] None).2 in
  let c2 := (PermissionController.log_action "t2" "2025-01-01" c1 "0xB0B"
               "get_balance" [] [] None).2 in
  let c3 := (PermissionController.log_action "t3" "2025-01-01" c2 "0xA11CE"
               "get_data" [] [] None).2 in
  map PermissionController.timestamp
    (PermissionController.get_audit_log c3 (Some "0xA11CE") 1) = ["t3"] ∧
  map PermissionController.timestamp
    (PermissionController.get_audit_log c3 (Some "0xA11CE") 0)
  = ["t1"; "t3"] ∧
  map PermissionController.timestamp
    (PermissionController.get_audit_log c3 (Some "0xA11CE") (-1)) = ["t3"].
Proof.
  intros c0 c1 c2 c3.
  assert (Hne : "0xA11CE" ≠ EmptyString) by discriminate.
  destruct (audit_log_returns_last_entries_of_wallet c3 "0xA11CE" 1)
    as [H1 _].
  destruct (H1 Hne) as (_ & Hpos & _ & _).
  destruct (audit_log_returns_last_entries_of_wallet c3 "0xA11CE" 0)
    as [H0 _].
  destruct (H0 Hne) as (_ & _ & Hzero & _).
  destruct (audit_log_returns_last_entries_of_wallet c3 "0xA11CE" (-1))
    as [Hm _].
  destruct (Hm Hne) as (_ & _ & _ & Hneg).
  rewrite (proj1 (Hpos ltac:(lia))), (Hzero eq_refl), (Hneg ltac:(lia)).
  by vm_compute.
Defined.



(** X8. After [_update_daily_stats] the statistics carry today's date.
    Within a day the trade count never falls and rises by at most one, and
    the worst loss never rises; on the first update of a new day the
    previous totals are dropped, leaving at most one trade and a worst loss
    of at most zero. *)
Theorem daily_stats_roll_over_and_move_one_way :
  ∀ (today : string) (s : PermissionController.stats) (action : string)
    (params result : Py.dict Py.value),
    let s' :=
      (PermissionController._update_daily_stats today s action params
         result).1 in
    PermissionController.date s' = today ∧
    (PermissionController.date s = today ->
     PermissionController.total_trades s
       <= PermissionController.total_trades s'
       <= PermissionController.total_trades s + 1 ∧
     PermissionController.max_loss s' <= PermissionController.max_loss s) ∧
    (PermissionController.date s ≠ today ->
     0 <= PermissionController.total_trades s' <= 1 ∧
     PermissionController.max_loss s' <= 0).
Proof.
  intros today s action params result s'. subst s'.
  assert (Hfrom : ∀ s0 : PermissionController.stats,
    PermissionController.date s0 = today ->
    let s1 :=
      (PermissionController._update_daily_stats today s0 action params
         result).1 in
    PermissionController.date s1 = today ∧
    PermissionController.total_trades s0
      <= PermissionController.total_trades s1
      <= PermissionController.total_trades s0 + 1 ∧
    PermissionController.max_loss s1 <= PermissionController.max_loss s0).
  { intros s0 Hdate. unfold PermissionController._update_daily_stats.
    rewrite Hdate, String.eqb_refl. cbn [negb].
    repeat case_match; simplify_eq;
      cbn [fst PermissionController.date PermissionController.total_trades
           PermissionController.max_loss];
      repeat split; lia. }
  destruct (String.eqb_spec (PermissionController.date s) today) as [Heq|Hne].
  - destruct (Hfrom s Heq) as (Hd & Ht & Hl). split; [done|].
    split; [done|]. done.
  - assert (Hreset :
      PermissionController._update_daily_stats today s action params result
      = PermissionController._update_daily_stats today
          (PermissionController.fresh_stats today) action params result).
    { unfold PermissionController._update_daily_stats.
      cbn [PermissionController.fresh_stats PermissionController.date].
      rewrite String.eqb_refl.
      destruct (String.eqb_spec (PermissionController.date s) today);
        [done|]. done. }
    rewrite Hreset.
    destruct (Hfrom (PermissionController.fresh_stats today) eq_refl)
      as (Hd & Ht & Hl).
    cbn [PermissionController.fresh_stats PermissionController.total_trades
         PermissionController.max_loss] in Ht, Hl.
    split; [done|]. split; [done|]. intros _. split; [lia|done].
Qed.

Lemma daily_stats_roll_over_and_move_one_way_witness :
  let s := {| PermissionController.date := "2025-01-01";
              PermissionController.total_trades := 7;
              PermissionController.total_volume := 900;
              PermissionController.total_pnl := -40;
              PermissionController.max_loss := -30 |} in
  let same :=
    (PermissionController._update_daily_stats "2025-01-01" s "close_position"
       [ ("pnl", Py.VInt (-55)) ] []).1 in
  let next :=
    (PermissionController._update_daily_stats "2025-01-02" s "place_order"
       [ ("size", Py.VInt 2) ] [ ("success", Py.VBool true) ]).1 in
  (7 <= PermissionController.total_trades same <= 8 ∧
   PermissionController.max_loss same <= -30) ∧
  (0 <= PermissionController.total_trades next <= 1 ∧
   PermissionController.max_loss next <= 0).
Proof.
  intros s same next.
  destruct (daily_stats_roll_over_and_move_one_way "2025-01-01" s
              "close_position" [ ("pnl", Py.VInt (-55)) ] [])
    as (_ & Hsame & _).
  destruct (daily_stats_roll_over_and_move_one_way "2025-01-02" s
              "place_order" [ ("size", Py.VInt 2) ]
              [ ("success", Py.VBool true) ]) as (_ & _ & Hnext).
  split; [apply Hsame; reflexivity|apply Hnext; discriminate].
Defined.

(** ** Signature engine: construction, nonces under signing, typed data *)

Section EngineFacts.
Import SignatureEngine.
Context {account signed : Type}.
Context (json_dumps_sorted_compact : Py.value -> Py.result string).
Context (sign_message_text : account -> string -> Py.result signed).
Context (sign_typed_data : account -> Py.value -> Py.result signed).
Context (signed_r signed_s : signed -> string).
Context (signed_v : signed -> Z).
Context (acct : account).

#[local] Abbreviation sign_l1 :=
  (sign_l1_action json_dumps_sorted_compact sign_message_text signed_r
     signed_s signed_v acct).
#[local] Abbreviation sign_user :=
  (sign_user_action sign_typed_data signed_r signed_s signed_v acct).
#[local] Abbreviation order_signature :=
  (create_order_signature json_dumps_sorted_compact sign_message_text
     signed_r signed_s signed_v acct).
#[local] Abbreviation transfer_signature :=
  (create_transfer_signature sign_typed_data signed_r signed_s signed_v acct).
#[local] Abbreviation after_call :=
  (after json_dumps_sorted_compact sign_message_text sign_typed_data
     signed_r signed_s signed_v acct).
#[local] Abbreviation run_calls :=
  (run json_dumps_sorted_compact sign_message_text sign_typed_data
     signed_r signed_s signed_v acct).

Lemma sign_l1_state (e : t) (action : Py.dict Py.value) (nonce : option Z) :
  (sign_l1 e action nonce).2 = (draw_nonce e nonce).2.
Proof. unfold sign_l1_action. by destruct (draw_nonce e nonce). Qed.

Lemma sign_user_state (e : t) (action : Py.dict Py.value)
  (nonce : option Z) :
  (sign_user e action nonce).2 = (draw_nonce e nonce).2.
Proof. unfold sign_user_action. by destruct (draw_nonce e nonce). Qed.

Lemma order_signature_state (e : t) (action : Py.dict Py.value) :
  (order_signature e action).2 = (get_next_nonce e).2.
Proof.
  unfold create_order_signature.
  destruct (get_next_nonce e) as [nonce e1] eqn:Hnext.
  pose proof (sign_l1_state e1 action (Some nonce)) as Hstate.
  destruct (sign_l1 e1 action (Some nonce)) as [sig e2]. by cbn in *.
Qed.

Lemma transfer_signature_state (e : t) (action : Py.dict Py.value) :
  (transfer_signature e action).2 = (get_next_nonce e).2.
Proof.
  unfold create_transfer_signature.
  destruct (get_next_nonce e) as [nonce e1] eqn:Hnext.
  pose proof (sign_user_state e1 action (Some nonce)) as Hstate.
  destruct (sign_user e1 action (Some nonce)) as [sig e2]. by cbn in *.
Qed.

(** A call moves the counter up by one for each nonce it draws, and never
    down. *)
Lemma after_call_counter (e : t) (c : call) :
  current_nonce e + Z.of_nat (length (drawn_by e c))
    <= current_nonce (after_call e c) ∧
  (drawn_by e c ≠ [] -> current_nonce (after_call e c) = current_nonce e + 1).
Proof.
  destruct c as [|n|action [n|]|action [n|]|action|action];
    cbn [after drawn_by length];
    rewrite ?sign_l1_state, ?sign_user_state, ?order_signature_state,
      ?transfer_signature_state;
    cbn [draw_nonce snd get_next_nonce reset_nonce current_nonce];
    split; try done; lia.
Qed.

Lemma run_cons (e : t) (c : call) (calls : list call) :
  run_calls e (c :: calls)
  = ((drawn_by e c ++ (run_calls (after_call e c) calls).1)%list,
     (run_calls (after_call e c) calls).2).
Proof. cbn [run]. by destruct (run _ _ _ _ _ _ _ _ calls). Qed.

Lemma drawn_by_cases (e : t) (c : call) :
  drawn_by e c = [] ∨ drawn_by e c = [current_nonce e].
Proof. destruct c as [|n|action [n|]|action [n|]|action|action]; auto. Qed.

Lemma run_range (calls : list call) (e : t) :
  current_nonce e <= current_nonce (run_calls e calls).2 ∧
  Forall (fun n => current_nonce e <= n < current_nonce (run_calls e calls).2)
    (run_calls e calls).1.
Proof.
  revert e. induction calls as [|c calls IH]; intros e.
  - cbn. split; [lia|constructor].
  - rewrite run_cons. cbn [fst snd].
    destruct (IH (after_call e c)) as [Hmono Hall].
    destruct (after_call_counter e c) as [Hstep Hdrawn].
    split; [lia|]. apply Forall_app. split.
    + destruct (drawn_by_cases e c) as [->| Heq]; [constructor|].
      rewrite Heq in *. constructor; [|constructor].
      specialize (Hdrawn ltac:(done)). lia.
    + eapply Forall_impl; [exact Hall|]. cbn beta. intros n. lia.
Qed.

Lemma run_sorted (calls : list call) (e : t) :
  StronglySorted Z.lt (run_calls e calls).1.
Proof.
  revert e. induction calls as [|c calls IH]; intros e.
  - constructor.
  - rewrite run_cons. cbn [fst].
    destruct (drawn_by_cases e c) as [->| Heq]; [apply IH|].
    destruct (after_call_counter e c) as [_ Hdrawn].
    rewrite Heq in *. cbn [app]. constructor; [apply IH|].
    destruct (run_range calls (after_call e c)) as [_ Hall].
    eapply Forall_impl; [exact Hall|]. cbn beta. intros n.
    specialize (Hdrawn ltac:(done)). lia.
Qed.

End EngineFacts.

(** X9. Whatever mix of [get_next_nonce], [reset_nonce], signing with or
    without a nonce of the caller's, [create_order_signature] and
    [create_transfer_signature] is called on one engine, and whether the
    signings succeed or raise, the nonces the engine draws from its counter
    are strictly increasing, all lie between the counter before and after,
    and the counter never goes down. *)
Theorem drawn_nonces_increase_under_any_calls :
  ∀ (account signed : Type)
    (json_dumps_sorted_compact : Py.value -> Py.result string)
    (sign_message_text : account -> string -> Py.result signed)
    (sign_typed_data : account -> Py.value -> Py.result signed)
    (signed_r signed_s : signed -> string) (signed_v : signed -> Z)
    (acct : account) (e : SignatureEngine.t)
    (calls : list SignatureEngine.call),
    let done_ :=
      SignatureEngine.run json_dumps_sorted_compact sign_message_text
        sign_typed_data signed_r signed_s signed_v acct e calls in
    StronglySorted Z.lt done_.1 ∧
    Forall (fun n => SignatureEngine.current_nonce e <= n
                     < SignatureEngine.current_nonce done_.2) done_.1 ∧
    SignatureEngine.current_nonce e <= SignatureEngine.current_nonce done_.2.
Proof.
  intros. subst done_. split; [apply run_sorted|].
  destruct (run_range json_dumps_sorted_compact sign_message_text
              sign_typed_data signed_r signed_s signed_v acct calls e)
    as [Hmono Hall].
  by split.
Qed.

(** X10. Signing draws at most one nonce.  Without a nonce of the caller's,
    [sign_l1_action] and [sign_user_action] sign with the counter's value and
    move the counter on by one, also when the signing raises, so a failed
    signing burns its nonce; with a nonce given they leave the counter
    alone.  [create_order_signature] and [create_transfer_signature] return
    the counter's value as the nonce, sign with it, and move the counter on
    by one, not two. *)
Theorem signing_draws_one_nonce :
  ∀ (account signed : Type)
    (json_dumps_sorted_compact : Py.value -> Py.result string)
    (sign_message_text : account -> string -> Py.result signed)
    (sign_typed_data : account -> Py.value -> Py.result signed)
    (signed_r signed_s : signed -> string) (signed_v : signed -> Z)
    (acct : account) (e : SignatureEngine.t) (action : Py.dict Py.value)
    (n : Z),
    let sign_l1 :=
      SignatureEngine.sign_l1_action json_dumps_sorted_compact
        sign_message_text signed_r signed_s signed_v acct in
    let sign_user :=
      SignatureEngine.sign_user_action sign_typed_data signed_r signed_s
        signed_v acct in
    let order :=
      SignatureEngine.create_order_signature json_dumps_sorted_compact
        sign_message_text signed_r signed_s signed_v acct e action in
    let transfer :=
      SignatureEngine.create_transfer_signature sign_typed_data signed_r
        signed_s signed_v acct e action in
    let now_ := SignatureEngine.current_nonce e in
    let moved := (SignatureEngine.get_next_nonce e).2 in
    ((sign_l1 e action None).1 = (sign_l1 e action (Some now_)).1 ∧
     (sign_l1 e action None).2 = moved ∧
     (sign_l1 e action (Some n)).2 = e) ∧
    ((sign_user e action None).1 = (sign_user e action (Some now_)).1 ∧
     (sign_user e action None).2 = moved ∧
     (sign_user e action (Some n)).2 = e) ∧
    (order.2 = moved ∧
     order.1 = (sig ← (sign_l1 e action (Some now_)).1; mret (sig, now_))) ∧
    (transfer.2 = moved ∧
     transfer.1
     = (sig ← (sign_user e action (Some now_)).1; mret (sig, now_))).
Proof.
  intros. subst sign_l1 sign_user order transfer now_ moved.
  repeat split;
    rewrite ?sign_l1_state, ?sign_user_state, ?order_signature_state,
      ?transfer_signature_state; done.
Qed.

Section TypedDataFacts.
Import SignatureEngine.

Lemma eq_str_false (v : Py.value) (s : string) :
  v ≠ Py.VStr s -> Py.eq_str v s = false.
Proof.
  destruct v as [| | |s'| |]; try done. intros Hne. cbn.
  destruct (String.eqb_spec s' s) as [->|]; [done|done].
Qed.

Lemma eq_str_true (s : string) : Py.eq_str (Py.VStr s) s = true.
Proof. apply String.eqb_refl. Qed.

End TypedDataFacts.

(** X11. For the four user actions it supports ([usdSend], [withdraw3],
    [spotSend], [approveAgent]) [_create_typed_data] builds a structure
    whose [types] holds one schema, named by [primaryType], and whose
    message has exactly the schema's fields, in the schema's order; the
    nonce is the value of the last field, the one of type [uint64].  Any
    other action type, a missing one included, raises the error that names
    the type. *)
Theorem typed_data_message_matches_schema :
  ∀ (action : Py.dict Py.value) (nonce : Z),
    let action_type :=
      Py.get_default action "type" (Py.VStr EmptyString) in
    let supported := ["usdSend"; "withdraw3"; "spotSend"; "approveAgent"] in
    ((∃ name, name ∈ supported ∧ action_type = Py.VStr name) ->
     ∃ (primary last_field : string) (fields : list Py.value)
       (message : Py.dict Py.value),
       SignatureEngine._create_typed_data action nonce
       = Py.Ok (Py.VDict
           [ ("types", Py.VDict [ (primary, Py.VList fields) ]);
             ("primaryType", Py.VStr primary);
             ("domain", Py.VDict
                [ ("name", Py.VStr "HyperliquidSignTransaction");
                  ("version", Py.VStr "1");
                  ("chainId", Py.VInt 42161);
                  ("verifyingContract",
                   Py.VStr "0x0000000000000000000000000000000000000000") ]);
             ("message", Py.VDict message) ]) ∧
       map (fun f => Py.getitem_str f "name") fields
       = map (fun k => Py.Ok (Py.VStr k)) (Py.keys message) ∧
       last fields
       = Some (SignatureEngine.schema_field last_field "uint64") ∧
       last message = Some (last_field, Py.VInt nonce)) ∧
    ((∀ name, name ∈ supported -> action_type ≠ Py.VStr name) ->
     SignatureEngine._create_typed_data action nonce
     = Py.Raise ("Unsupported action type for typed data: "
                 +:+ Py.str action_type)).
Proof.
  intros action nonce action_type supported. split.
  - intros (name & Hin & Htype). subst supported.
    unfold SignatureEngine._create_typed_data. fold action_type.
    rewrite Htype.
    repeat (apply elem_of_cons in Hin as [->|Hin]);
      [| | | |by apply elem_of_nil in Hin];
      cbn [Py.eq_str String.eqb Ascii.eqb Bool.eqb mbind mret
           Py.result_bind Py.result_ret];
      eexists _, _, _, _; (split; [reflexivity|]); repeat split.
  - intros Hnone. unfold SignatureEngine._create_typed_data.
    fold action_type.
    rewrite !eq_str_false; [done|..]; apply Hnone; subst supported;
      apply list_elem_of_In; cbn; tauto.
Qed.

Lemma typed_data_message_matches_schema_witness :
  (∃ td, SignatureEngine._create_typed_data
           [ ("type", Py.VStr "usdSend"); ("destination", Py.VStr "0xB0B");
             ("amount", Py.VStr "12.5") ] 1700000000000 = Py.Ok td) ∧
  SignatureEngine._create_typed_data [ ("type", Py.VStr "order") ] 7
  = Py.Raise "Unsupported action type for typed data: order".
Proof.
  split.
  - destruct (proj1 (typed_data_message_matches_schema
                       [ ("type", Py.VStr "usdSend");
                         ("destination", Py.VStr "0xB0B");
                         ("amount", Py.VStr "12.5") ] 1700000000000))
      as (primary & last_field & fields & message & Htd & _).
    + exists "usdSend". split; [|reflexivity].
      apply list_elem_of_In. cbn. tauto.
    + eexists. exact Htd.
  - apply (proj2 (typed_data_message_matches_schema
                    [ ("type", Py.VStr "order") ] 7)).
    intros name Hin Heq. apply list_elem_of_In in Hin. cbn in Hin, Heq.
    injection Heq as <-.
    destruct Hin as [H|[H|[H|[H|[]]]]]; discriminate H.
Defined.

(** X12. For one engine and one action, L1 messages built with different
    nonces differ: two nonces that give the same message are the same
    nonce, with or without a vault address in the action. *)
Theorem l1_message_determines_nonce :
  ∀ (json_dumps_sorted_compact : Py.value -> Py.result string)
    (e : SignatureEngine.t) (action : Py.dict Py.value) (n1 n2 : Z)
    (message : string),
    SignatureEngine._create_l1_message json_dumps_sorted_compact e action n1
    = Py.Ok message ->
    SignatureEngine._create_l1_message json_dumps_sorted_compact e action n2
    = Py.Ok message ->
    n1 = n2.
Proof.
  intros json e action n1 n2 message.
  unfold SignatureEngine._create_l1_message.
  destruct (json (Py.VDict action)) as [action_json|msg]; [|done].
  cbn [mbind mret Py.result_bind Py.result_ret].
  destruct (Py.truthy _); intros H1 H2; rewrite <- H2 in H1;
    injection H1 as H1; repeat apply (inj (String.app _)) in H1;
    by apply (inj pretty) in H1.
Qed.

Lemma l1_message_determines_nonce_witness :
  let json := fun _ : Py.value => Py.Ok "{}" in
  let e := SignatureEngine.init "0xA11CE" 1700000000000 in
  SignatureEngine._create_l1_message json e [] 41 = Py.Ok "0xA11CE{}41" ∧
  41 = 41.
Proof.
  intros json e. split; [reflexivity|].
  apply (l1_message_determines_nonce json e [] 41 41 "0xA11CE{}41");
    reflexivity.
Defined.

(** X13. [__init__] builds an engine only from a key that is present, is
    not the placeholder, keeps at least 64 characters once stripped of
    white space, and is accepted by [Account.from_key]; the key given as
    argument wins over the environment's, and an empty argument falls back
    to the environment.  The engine then signs for the account's address
    and starts its counter at the clock. *)
Theorem engine_built_only_from_checked_key :
  ∀ (account : Type) (from_key : string -> Py.result account)
    (address_of : account -> string) (private_key env_key : option string)
    (time_ms : Z) (acct : account) (e : SignatureEngine.t),
    SignatureEngine.__init__ from_key address_of private_key env_key time_ms
    = inr (acct, e) <->
    ∃ key : string,
      ((private_key = Some key) ∨
       ((private_key = None ∨ private_key = Some EmptyString) ∧
        env_key = Some key)) ∧
      key ≠ EmptyString ∧
      key ≠ "your_eth_private_key_here" ∧
      64 <= Z.of_nat (String.length (Py.strip key)) ∧
      from_key key = Py.Ok acct ∧
      e = SignatureEngine.init (address_of acct) time_ms.
Proof.
  intros account from_key address_of private_key env_key time_ms acct e.
  unfold SignatureEngine.__init__. split.
  - set (chosen := match private_key with
                   | Some k => if negb (String.eqb k EmptyString)
                               then Some k else env_key
                   | None => env_key end).
    assert (Hchosen : ∀ key, chosen = Some key -> key ≠ EmptyString ->
              private_key = Some key ∨
              ((private_key = None ∨ private_key = Some EmptyString) ∧
               env_key = Some key)).
    { subst chosen. intros key Hkey Hne.
      destruct private_key as [k|]; [|by right; split; [left|]].
      destruct (String.eqb_spec k EmptyString) as [->|_]; cbn [negb] in Hkey.
      - right. split; [by right|done].
      - left. done. }
    destruct chosen as [key|]; [|done].
    destruct (String.eqb_spec key EmptyString) as [|Hne]; [done|].
    destruct (String.eqb_spec key "your_eth_private_key_here") as [|Hph];
      [done|].
    cbn [orb]. destruct (Z.ltb_spec (Z.of_nat (String.length (Py.strip key))) 64);
      [done|].
    destruct (from_key key) as [a|msg] eqn:Hfrom; [|done].
    intros [= <- <-]. exists key. split; [by apply Hchosen|]. done.
  - intros (key & Hsel & Hne & Hph & Hlen & Hfrom & ->).
    assert (Hchosen : match private_key with
                      | Some k => if negb (String.eqb k EmptyString)
                                  then Some k else env_key
                      | None => env_key end = Some key).
    { destruct Hsel as [->|[[->| ->] ->]]; [|done|done].
      by destruct (String.eqb_spec key EmptyString). }
    rewrite Hchosen.
    destruct (String.eqb_spec key EmptyString); [done|].
    destruct (String.eqb_spec key "your_eth_private_key_here"); [done|].
    cbn [orb]. rewrite (proj2 (Z.ltb_ge _ _) Hlen). by rewrite Hfrom.
Qed.

Lemma engine_built_only_from_checked_key_witness :
  let key :=
    "0x0123456789abcdef0123456789abcdef0123456789abcdef0123456789abcdef" in
  let from_key := fun k : string => Py.Ok (String.length k) in
  let address_of := fun n : nat => "0xA11CE" in
  SignatureEngine.__init__ from_key address_of (Some EmptyString) (Some key)
    1700000000000
  = inr (66%nat, SignatureEngine.init "0xA11CE" 1700000000000) ∧
  SignatureEngine.__init__ from_key address_of
    (Some ("   " +:+ "0123456789abcdef0123456789abcdef0123456789abcdef"
           +:+ "                ")) None 1700000000000
  = inl SignatureEngine.KeyPlaceholderOrShort.
Proof.
  intros key from_key address_of. split; [|reflexivity].
  apply (proj2 (engine_built_only_from_checked_key nat from_key address_of
                  (Some EmptyString) (Some key) 1700000000000 66%nat
                  (SignatureEngine.init "0xA11CE" 1700000000000))).
  exists key. split; [right; split; [by right|done]|].
  split; [discriminate|]. split; [discriminate|].
  split; [by vm_compute|]. split; reflexivity.
Defined.

(** ** Signing helpers: what [verify_signature] accepts *)

Section VerifyFacts.
Import Signing.
Context {bytes account signable signed : Type}.
Context (json_dumps_sorted_compact : Py.value -> Py.result string).
Context (encode_utf8 : string -> bytes).
Context (sha256_digest : bytes -> bytes).
Context (bytes_hex : bytes -> string).
Context (encode_defunct : bytes -> signable).
Context (sign_message : account -> signable -> signed).
Context (signature_of : signed -> bytes).
Context (address_of : account -> string).
Context (bytes_fromhex : string -> Py.result bytes).
Context (recover_message : signable -> bytes -> Py.result string).

#[local] Abbreviation verify :=
  (verify_signature json_dumps_sorted_compact encode_utf8 sha256_digest
     bytes_hex encode_defunct bytes_fromhex recover_message).
#[local] Abbreviation sign :=
  (sign_user_action json_dumps_sorted_compact encode_utf8 sha256_digest
     bytes_hex encode_defunct sign_message signature_of address_of).

(** A dictionary without a truthy [nonce] is never accepted. *)
Lemma verify_needs_nonce (action signature_dict : Py.dict Py.value)
  (expected_sender : option string) :
  Py.truthy (Py.get_default signature_dict "nonce" Py.VNone) = false ->
  verify action signature_dict expected_sender = false.
Proof.
  intros Hnonce. unfold verify_signature, verify_signature_body.
  rewrite Hnonce. destruct expected_sender as [expected|]; [|done].
  by destruct (negb (String.eqb expected EmptyString) && _).
Qed.

(** An expected sender that is empty or is the dictionary's sender changes
    nothing; any other is refused at once. *)
Lemma verify_sender_matches (action signature_dict : Py.dict Py.value)
  (expected : string) :
  expected = EmptyString ∨
  Py.eq_str (Py.get_default signature_dict "sender" Py.VNone) expected
  = true ->
  verify action signature_dict (Some expected)
  = verify action signature_dict None.
Proof.
  unfold verify_signature, verify_signature_body.
  intros [->|Hsame]; [done|]. by rewrite Hsame, andb_false_r.
Qed.

Lemma verify_sender_differs (action signature_dict : Py.dict Py.value)
  (expected : string) :
  expected ≠ EmptyString ->
  Py.eq_str (Py.get_default signature_dict "sender" Py.VNone) expected
  = false ->
  verify action signature_dict (Some expected) = false.
Proof.
  intros Hne Hdiff. unfold verify_signature, verify_signature_body.
  rewrite Hdiff. by destruct (String.eqb_spec expected EmptyString).
Qed.

(** What the signing helpers return has the keys [hash], [signature] and
    [sender], and no other. *)
Lemma sign_returns_three_keys (action : Py.dict Py.value) (acct : account)
  (nonce : Z) (f : frame) :
  sign action acct nonce = Py.Ok f ->
  returned f
  = Py.VDict
      [ ("hash", Py.VStr (bytes_hex (message_hash f)));
        ("signature", Py.VStr (bytes_hex (signature_of (signed_message f))));
        ("sender", Py.VStr (address_of acct)) ] ∧
  json_dumps_sorted_compact (message f) = Py.Ok (message_json f) ∧
  message f
  = Py.VDict [ ("action", Py.VDict action); ("nonce", Py.VInt nonce) ] ∧
  message_hash f = sha256_digest (encode_utf8 (message_json f)) ∧
  signed_message f = sign_message acct (encode_defunct (message_hash f)).
Proof.
  unfold sign_user_action.
  destruct (json_dumps_sorted_compact _) as [json|msg] eqn:Hjson; [|done].
  cbn [mbind mret Py.result_bind Py.result_ret]. intros [= <-].
  by cbn.
Qed.

End VerifyFacts.

(** X14. [verify_signature] never accepts a signature dictionary as the
    signing helpers return it: the dictionary carries [hash], [signature]
    and [sender] but no [nonce], and verification gives up at the missing
    nonce.  This holds for every action, account, nonce and expected
    sender, for [sign_user_action] and [sign_l1_action] alike, and so for
    the signature inside what [create_signed_order] returns. *)
Theorem verify_rejects_what_sign_returns :
  ∀ (bytes account signable signed : Type)
    (json_dumps_sorted_compact : Py.value -> Py.result string)
    (encode_utf8 : string -> bytes) (sha256_digest : bytes -> bytes)
    (bytes_hex : bytes -> string) (encode_defunct : bytes -> signable)
    (sign_message : account -> signable -> signed)
    (signature_of : signed -> bytes) (address_of : account -> string)
    (bytes_fromhex : string -> Py.result bytes)
    (recover_message : signable -> bytes -> Py.result string)
    (action : Py.dict Py.value) (acct : account) (nonce clock_ms : Z)
    (expected_sender : option string),
    let verify :=
      Signing.verify_signature json_dumps_sorted_compact encode_utf8
        sha256_digest bytes_hex encode_defunct bytes_fromhex
        recover_message action in
    let rejected (signature : Py.value) :=
      ∃ d, signature = Py.VDict d ∧ verify d expected_sender = false in
    (∀ f, Signing.sign_user_action json_dumps_sorted_compact encode_utf8
            sha256_digest bytes_hex encode_defunct sign_message signature_of
            address_of action acct nonce = Py.Ok f ->
          rejected (Signing.returned f)) ∧
    (∀ f, Signing.sign_l1_action json_dumps_sorted_compact encode_utf8
            sha256_digest bytes_hex encode_defunct sign_message signature_of
            address_of action acct nonce = Py.Ok f ->
          rejected (Signing.returned f)) ∧
    (∀ signed_order,
       Signing.create_signed_order json_dumps_sorted_compact encode_utf8
         sha256_digest bytes_hex encode_defunct sign_message signature_of
         address_of clock_ms action acct (Some nonce)
       = Py.Ok (Py.VDict signed_order) ->
       ∃ signature, Py.get signed_order "signature" = Some signature ∧
                    rejected signature).
Proof.
  intros. subst verify rejected.
  assert (Hsign : ∀ f,
    Signing.sign_user_action json_dumps_sorted_compact encode_utf8
      sha256_digest bytes_hex encode_defunct sign_message signature_of
      address_of action acct nonce = Py.Ok f ->
    ∃ d, Signing.returned f = Py.VDict d ∧
         Signing.verify_signature json_dumps_sorted_compact encode_utf8
           sha256_digest bytes_hex encode_defunct bytes_fromhex
           recover_message action d expected_sender = false).
  { intros f Hf.
    apply sign_returns_three_keys in Hf as (Hret & _).
    eexists. split; [exact Hret|]. by apply verify_needs_nonce. }
  split; [exact Hsign|]. split; [exact Hsign|].
  intros signed_order. unfold Signing.create_signed_order. cbn [default].
  destruct (Signing.sign_user_action _ _ _ _ _ _ _ _ _ _ _) as [f|msg] eqn:Hf;
    [|done].
  cbn [mbind mret Py.result_bind Py.result_ret]. intros [= <-].
  exists (Signing.returned f). split; [reflexivity|]. by apply Hsign.
Qed.

Lemma verify_rejects_what_sign_returns_witness :
  let json := fun _ : Py.value => Py.Ok "{}" in
  let same := fun s : string => s in
  let sign := fun (_ : unit) (m : string) => m in
  let address := fun _ : unit => "0xA11CE" in
  let fromhex := fun s : string => Py.Ok s in
  let recover := fun (_ _ : string) => Py.Ok "0xA11CE" in
  Signing.verify_signature json same same same same fromhex recover []
    [ ("hash", Py.VStr "{}"); ("signature", Py.VStr "{}");
      ("sender", Py.VStr "0xA11CE") ] None = false.
Proof.
  intros json same sign address fromhex recover.
  destruct (proj1 (verify_rejects_what_sign_returns string unit string string
                     json same same same same sign same address fromhex
                     recover [] tt 5 0 None)
              {| Signing.message :=
                   Py.VDict [ ("action", Py.VDict []); ("nonce", Py.VInt 5) ];
                 Signing.message_json := "{}";
                 Signing.message_bytes := "{}";
                 Signing.message_hash := "{}";
                 Signing.signed_message := "{}";
                 Signing.returned :=
                   Py.VDict [ ("hash", Py.VStr "{}");
                              ("signature", Py.VStr "{}");
                              ("sender", Py.VStr "0xA11CE") ] |} eq_refl)
    as (d & Hd & Hrejected).
  injection Hd as <-. exact Hrejected.
Defined.

(** X15. Once the caller adds the nonce it signed with to the dictionary,
    [verify_signature] accepts it, provided the nonce is not 0, hex decoding
    undoes hex encoding on the signature and recovery returns the signer's
    address; the expected sender may be left out, empty, or that address.
    With the nonce 0 the same dictionary is rejected, since 0 counts as a
    missing nonce; and with any other expected sender it is rejected. *)
Theorem verify_accepts_signature_with_its_nonce :
  ∀ (bytes account signable signed : Type)
    (json_dumps_sorted_compact : Py.value -> Py.result string)
    (encode_utf8 : string -> bytes) (sha256_digest : bytes -> bytes)
    (bytes_hex : bytes -> string) (encode_defunct : bytes -> signable)
    (sign_message : account -> signable -> signed)
    (signature_of : signed -> bytes) (address_of : account -> string)
    (bytes_fromhex : string -> Py.result bytes)
    (recover_message : signable -> bytes -> Py.result string)
    (action : Py.dict Py.value) (acct : account) (nonce : Z)
    (f : Signing.frame) (d : Py.dict Py.value),
    let verify :=
      Signing.verify_signature json_dumps_sorted_compact encode_utf8
        sha256_digest bytes_hex encode_defunct bytes_fromhex
        recover_message action in
    Signing.sign_user_action json_dumps_sorted_compact encode_utf8
      sha256_digest bytes_hex encode_defunct sign_message signature_of
      address_of action acct nonce = Py.Ok f ->
    Signing.returned f = Py.VDict d ->
    bytes_fromhex (bytes_hex (signature_of (Signing.signed_message f)))
    = Py.Ok (signature_of (Signing.signed_message f)) ->
    recover_message (encode_defunct (Signing.message_hash f))
      (signature_of (Signing.signed_message f))
    = Py.Ok (address_of acct) ->
    (nonce ≠ 0 ->
     verify (d ++ [ ("nonce", Py.VInt nonce) ])%list None = true ∧
     verify (d ++ [ ("nonce", Py.VInt nonce) ])%list (Some EmptyString) = true ∧
     verify (d ++ [ ("nonce", Py.VInt nonce) ])%list (Some (address_of acct))
     = true ∧
     ∀ other, other ≠ EmptyString -> other ≠ address_of acct ->
       verify (d ++ [ ("nonce", Py.VInt nonce) ])%list (Some other) = false) ∧
    (nonce = 0 ->
     ∀ expected, verify (d ++ [ ("nonce", Py.VInt nonce) ])%list expected = false).
Proof.
  intros until d. intros verify Hf Hd Hhex Hrecover.
  apply sign_returns_three_keys in Hf as (Hret & Hjson & Hmsg & Hhash & Hsig).
  rewrite Hret in Hd. injection Hd as <-. cbn [app].
  rewrite Hmsg in Hjson.
  assert (Haccept : nonce ≠ 0 ->
    Signing.verify_signature_body json_dumps_sorted_compact encode_utf8
      sha256_digest bytes_hex encode_defunct bytes_fromhex recover_message
      action
      [ ("hash", Py.VStr (bytes_hex (Signing.message_hash f)));
        ("signature",
         Py.VStr (bytes_hex (signature_of (Signing.signed_message f))));
        ("sender", Py.VStr (address_of acct));
        ("nonce", Py.VInt nonce) ] None = Py.Ok true).
  { intros Hnz. unfold Signing.verify_signature_body.
    cbn [Py.get_default Py.get String.eqb Ascii.eqb Bool.eqb Py.truthy
         Py.getitem_str].
    rewrite (proj2 (Z.eqb_neq nonce 0) Hnz). cbn [negb].
    rewrite Hjson. cbn [mbind mret Py.result_bind Py.result_ret].
    rewrite <- Hhash, eq_str_true. cbn [negb].
    rewrite Hhex. cbn [mbind mret Py.result_bind Py.result_ret].
    rewrite Hrecover. cbn [mbind mret Py.result_bind Py.result_ret].
    by rewrite eq_str_true. }
  split.
  - intros Hnz. specialize (Haccept Hnz).
    assert (Hnone : verify
      [ ("hash", Py.VStr (bytes_hex (Signing.message_hash f)));
        ("signature",
         Py.VStr (bytes_hex (signature_of (Signing.signed_message f))));
        ("sender", Py.VStr (address_of acct));
        ("nonce", Py.VInt nonce) ] None = true).
    { subst verify. unfold Signing.verify_signature. by rewrite Haccept. }
    subst verify. split; [exact Hnone|]. split; [|split].
    + rewrite verify_sender_matches; [exact Hnone|by left].
    + rewrite verify_sender_matches; [exact Hnone|right].
      apply eq_str_true.
    + intros other Hne Hother. apply verify_sender_differs; [done|].
      cbn. by destruct (String.eqb_spec (address_of acct) other).
  - intros -> expected. by apply verify_needs_nonce.
Qed.

Lemma verify_accepts_signature_with_its_nonce_witness :
  let json := fun _ : Py.value => Py.Ok "{}" in
  let same := fun s : string => s in
  let fromhex := fun s : string => Py.Ok s in
  let recover := fun (_ _ : string) => Py.Ok "0xA11CE" in
  let d := [ ("hash", Py.VStr "{}"); ("signature", Py.VStr "{}");
             ("sender", Py.VStr "0xA11CE") ] in
  Signing.verify_signature json same same same same fromhex recover []
    (d ++ [ ("nonce", Py.VInt 5) ])%list None = true ∧
  Signing.verify_signature json same same same same fromhex recover []
    (d ++ [ ("nonce", Py.VInt 0) ])%list None = false.
Proof.
  intros json same fromhex recover d.
  pose (sign := fun (_ : unit) (m : string) => m).
  pose (address := fun _ : unit => "0xA11CE").
  pose (frame_of := fun n : Z =>
    {| Signing.message :=
         Py.VDict [ ("action", Py.VDict []); ("nonce", Py.VInt n) ];
       Signing.message_json := "{}";
       Signing.message_bytes := "{}";
       Signing.message_hash := "{}";
       Signing.signed_message := "{}";
       Signing.returned := Py.VDict d |}).
  split.
  - apply (proj1 (verify_accepts_signature_with_its_nonce string unit string
                    string json same same same same sign same address
                    fromhex recover [] tt 5 (frame_of 5) d
                    eq_refl eq_refl eq_refl eq_refl)).
    discriminate.
  - apply (proj2 (verify_accepts_signature_with_its_nonce string unit string
                    string json same same same same sign same address
                    fromhex recover [] tt 0 (frame_of 0) d
                    eq_refl eq_refl eq_refl eq_refl)).
    reflexivity.
Defined.

(** ** Asset directory: case and namespaces *)

Section CaseFacts.
Import Types.



Lemma get_default_in_values {V : Type} (P : V -> Prop) (d : Py.dict V)
  (k : string) (dflt : V) :
  Forall P (Py.values d) -> P dflt -> P (Py.get_default d k dflt).
Proof.
  intros Hall Hdflt. unfold Py.get_default.
  induction d as [|[k' v] d IH]; cbn [Py.get]; [done|].
  apply Forall_cons in Hall as [Hv Hall].
  destruct (String.eqb k' k); [done|]. by apply IH.
Qed.

Lemma forallb_Forall {A : Type} (f : A -> bool) (l : list A) :
  forallb f l = true -> Forall (fun x => f x = true) l.
Proof.
  intros Hall. apply Forall_forall. intros x Hx.
  by apply (forallb_elem_of f l).
Qed.

End CaseFacts.


(** X17. The two namespaces never meet: whatever the symbol, known or not,
    a perpetual id lies between 0 and 99 and a spot id is 10000 or 10001,
    so no perpetual look-up and spot look-up return the same id, and
    [get_symbol_from_asset_id] reads an id returned by a spot look-up as a
    spot symbol. *)
Theorem perp_and_spot_ids_never_collide :
  ∀ perp spot : string,
    0 <= Types.get_asset_id perp false <= 99 ∧
    10000 <= Types.get_asset_id spot true <= 10001 ∧
    Types.get_asset_id perp false ≠ Types.get_asset_id spot true ∧
    Types.get_symbol_from_asset_id (Types.get_asset_id spot true)
      ∈ Py.keys Types.spot_indices.
Proof.
  intros perp spot.
  assert (Hperp : 0 <= Types.get_asset_id perp false <= 99).
  { unfold Types.get_asset_id.
    apply (get_default_in_values (fun v => 0 <= v <= 99)); [|lia].
    eapply Forall_impl;
      [apply (forallb_Forall (fun v => (0 <=? v) && (v <=? 99)));
       by vm_compute|].
    cbn beta. intros v Hv. apply andb_true_iff in Hv as [H0 H99].
    apply Z.leb_le in H0, H99. lia. }
  assert (Hspot : Types.get_asset_id spot true = 10000 ∨
                  Types.get_asset_id spot true = 10001).
  { unfold Types.get_asset_id, Types.SPOT_ASSET_OFFSET.
    apply (get_default_in_values
             (fun v => 10000 + v = 10000 ∨ 10000 + v = 10001));
      [|by left].
    repeat constructor; by vm_compute. }
  split; [exact Hperp|]. split; [lia|]. split; [lia|].
  destruct Hspot as [-> | ->]; apply list_elem_of_In; vm_compute; tauto.
Qed.

(** ** REST client: cached metadata and asset look-up *)

Section ClientFacts.
Import HyperliquidClient.

Lemma cached_some (meta : Py.value) :
  meta ≠ Py.VNone -> cached meta = Some meta.
Proof. by destruct meta. Qed.

Lemma get_meta_hit (later : Py.result Py.value) (st : t) (meta : Py.value) :
  _meta_cache st = Some meta -> get_meta later st = (Py.Ok meta, st).
Proof. intros Hcache. unfold get_meta. by rewrite Hcache. Qed.

Lemma get_meta_fills (reply : Py.result Py.value) (st : t)
  (meta : Py.value) :
  (get_meta reply st).1 = Py.Ok meta -> meta ≠ Py.VNone ->
  _meta_cache (get_meta reply st).2 = Some meta.
Proof.
  unfold get_meta.
  destruct (_meta_cache st) as [m|] eqn:Hcache; cbn [fst snd].
  - by intros [= ->].
  - destruct (_post_request reply st) as [m|msg]; cbn [fst snd]; [|done].
    intros [= ->] Hnot. by apply cached_some.
Qed.

(** [get_asset_info] with the metadata cached and the id not yet known. *)
Lemma get_asset_info_from_cached_meta (reply : Py.result Py.value)
  (asset_id : Z) (st : t) (meta : Py.dict Py.value)
  (universe : list Py.value) :
  _asset_info_cache st !! asset_id = None ->
  _meta_cache st = Some (Py.VDict meta) ->
  Py.get meta "universe" = Some (Py.VList universe) ->
  get_asset_info reply asset_id st =
    match
      (if asset_id <? Z.of_nat (length universe) then
         asset_data ← Py.getitem_int (Py.VList universe) asset_id;
         Types.AssetInfo_from_dict asset_data
       else
         Py.Raise ("Asset ID " +:+ Py.str_int asset_id
                   +:+ " not found in universe"))
    with
    | Py.Ok asset_info =>
        (Py.Ok asset_info,
         {| session := session st; _meta_cache := _meta_cache st;
            _spot_meta_cache := _spot_meta_cache st;
            _asset_info_cache :=
              <[asset_id := asset_info]> (_asset_info_cache st) |})
    | Py.Raise msg => (Py.Raise msg, st)
    end.
Proof.
  intros Hfresh Hcache Huniverse. unfold get_asset_info.
  rewrite Hfresh. unfold get_meta. rewrite Hcache.
  cbn [mbind mret Py.result_bind Py.result_ret Py.get_method].
  unfold Py.get_default. rewrite Huniverse.
  cbn [mbind mret Py.result_bind Py.result_ret Py.len]. by rewrite Hcache.
Qed.

Lemma get_asset_info_hit (later : Py.result Py.value) (asset_id : Z)
  (st : t) (info : Types.AssetInfo) :
  _asset_info_cache st !! asset_id = Some info ->
  get_asset_info later asset_id st = (Py.Ok info, st).
Proof. intros Hhit. unfold get_asset_info. by rewrite Hhit. Qed.

End ClientFacts.

(** X18. The exchange metadata is fetched once: after a [get_meta] that
    returned a reply other than [None], every later [get_meta] returns that
    same reply and leaves the client as it is, whatever the exchange would
    answer now and even with the session closed.  A fetch that fails leaves
    the cache empty, and without a session nothing can be fetched. *)
Theorem meta_is_fetched_once :
  ∀ (reply later : Py.result Py.value) (st : HyperliquidClient.t)
    (meta : Py.value),
    ((HyperliquidClient.get_meta reply st).1 = Py.Ok meta ->
     meta ≠ Py.VNone ->
     let st' := (HyperliquidClient.get_meta reply st).2 in
     HyperliquidClient.get_meta later st' = (Py.Ok meta, st') ∧
     HyperliquidClient.get_meta later (HyperliquidClient.close st')
     = (Py.Ok meta, HyperliquidClient.close st')) ∧
    (HyperliquidClient._meta_cache st = None ->
     (∀ msg, reply = Py.Raise msg ->
             (HyperliquidClient.get_meta reply st).2 = st) ∧
     (HyperliquidClient.session st = false ->
      HyperliquidClient.get_meta reply st
      = (Py.Raise "HTTP session not started. Call start() first.", st))).
Proof.
  intros reply later st meta. split.
  - intros Hmeta Hnot st'.
    pose proof (get_meta_fills reply st meta Hmeta Hnot) as Hfilled.
    fold st' in Hfilled. split; by apply get_meta_hit.
  - intros Hcache. unfold HyperliquidClient.get_meta,
      HyperliquidClient._post_request. rewrite Hcache. split.
    + intros msg ->. by destruct (negb _).
    + intros ->. done.
Qed.

Lemma meta_is_fetched_once_witness :
  let universe := Py.VDict [ ("universe", Py.VList []) ] in
  let st := HyperliquidClient.start HyperliquidClient.init in
  let st' := (HyperliquidClient.get_meta (Py.Ok universe) st).2 in
  HyperliquidClient.get_meta (Py.Raise "timeout") st' = (Py.Ok universe, st') ∧
  HyperliquidClient.get_meta (Py.Ok universe) HyperliquidClient.init
  = (Py.Raise "HTTP session not started. Call start() first.",
     HyperliquidClient.init).
Proof.
  intros universe st st'. split.
  - apply (proj1 (meta_is_fetched_once (Py.Ok universe) (Py.Raise "timeout")
                    st universe)); [reflexivity|discriminate].
  - apply (proj2 (meta_is_fetched_once (Py.Ok universe) (Py.Ok universe)
                    HyperliquidClient.init universe)); reflexivity.
Defined.

(** X19. [get_asset_info] on a client that has the metadata cached, with a
    list of [n] assets as its universe, for an id not yet in the asset
    cache: an id of [n] or more raises the not-found error and changes
    nothing; an id from 0 to [n - 1] decodes that entry of the list; a
    negative id from [-n] to [-1] is not refused but decodes the entry
    counted from the end of the list; an id below [-n] raises the list's
    index error.  An info that was decoded is stored under the id asked
    for, and the next call with that id returns it whatever the reply. *)
Theorem asset_info_bounds_and_cache :
  ∀ (reply later : Py.result Py.value) (asset_id : Z)
    (st : HyperliquidClient.t) (meta : Py.dict Py.value)
    (universe : list Py.value),
    HyperliquidClient._asset_info_cache st !! asset_id = None ->
    HyperliquidClient._meta_cache st = Some (Py.VDict meta) ->
    Py.get meta "universe" = Some (Py.VList universe) ->
    let n := Z.of_nat (length universe) in
    let asked := HyperliquidClient.get_asset_info reply asset_id st in
    (n <= asset_id ->
     asked = (Py.Raise ("Asset ID " +:+ Py.str_int asset_id
                        +:+ " not found in universe"), st)) ∧
    (asset_id < - n -> asked = (Py.Raise "list index out of range", st)) ∧
    (- n <= asset_id < n ->
     ∃ asset_data,
       universe !! Z.to_nat (if asset_id <? 0 then asset_id + n else asset_id)
       = Some asset_data ∧
       asked.1 = Types.AssetInfo_from_dict asset_data ∧
       ∀ info, asked.1 = Py.Ok info ->
         HyperliquidClient._asset_info_cache asked.2 !! asset_id = Some info ∧
         HyperliquidClient.get_asset_info later asset_id asked.2
         = (Py.Ok info, asked.2)).
Proof.
  intros reply later asset_id st meta universe Hfresh Hcache Huniverse n asked.
  subst asked.
  rewrite (get_asset_info_from_cached_meta reply asset_id st meta universe)
    by done.
  fold n. split; [|split].
  - intros Hbig. by rewrite (proj2 (Z.ltb_ge asset_id n) Hbig).
  - intros Hsmall. rewrite (proj2 (Z.ltb_lt asset_id n)) by lia.
    cbn [mbind mret Py.result_bind Py.result_ret Py.getitem_int]. fold n.
    rewrite (proj2 (Z.ltb_lt asset_id 0)) by lia.
    by rewrite (proj2 (Z.leb_gt 0 (asset_id + n))) by lia.
  - intros Hrange. rewrite (proj2 (Z.ltb_lt asset_id n)) by lia.
    cbn [mbind mret Py.result_bind Py.result_ret Py.getitem_int]. fold n.
    set (j := if asset_id <? 0 then asset_id + n else asset_id).
    assert (Hj : 0 <= j < n).
    { subst j. destruct (Z.ltb_spec asset_id 0); lia. }
    rewrite (proj2 (Z.leb_le 0 j)), (proj2 (Z.ltb_lt j n)) by lia.
    cbn [andb].
    destruct (universe !! Z.to_nat j) as [asset_data|] eqn:Hget.
    2:{ apply lookup_ge_None in Hget. lia. }
    exists asset_data. split; [done|].
    cbn [mbind mret Py.result_bind Py.result_ret].
    destruct (Types.AssetInfo_from_dict asset_data) as [info|msg];
      cbn [fst snd]; [|done].
    split; [done|]. intros info' [= <-].
    assert (Hstored :
      HyperliquidClient._asset_info_cache
        {| HyperliquidClient.session := HyperliquidClient.session st;
           HyperliquidClient._meta_cache := HyperliquidClient._meta_cache st;
           HyperliquidClient._spot_meta_cache :=
             HyperliquidClient._spot_meta_cache st;
           HyperliquidClient._asset_info_cache :=
             <[asset_id := info]> (HyperliquidClient._asset_info_cache st) |}
      !! asset_id = Some info) by apply lookup_insert_eq.
    split; [exact Hstored|]. by apply get_asset_info_hit.
Qed.

Lemma asset_info_bounds_and_cache_witness :
  let btc := Py.VDict [ ("name", Py.VStr "BTC"); ("szDecimals", Py.VInt 5) ] in
  let eth := Py.VDict [ ("name", Py.VStr "ETH"); ("szDecimals", Py.VInt 4);
                        ("maxLeverage", Py.VInt 50) ] in
  let meta := [ ("universe", Py.VList [ btc; eth ]) ] in
  let st :=
    (HyperliquidClient.get_meta (Py.Ok (Py.VDict meta))
       (HyperliquidClient.start HyperliquidClient.init)).2 in
  (HyperliquidClient.get_asset_info (Py.Raise "unused") (-1) st).1
  = Py.Ok {| Types.name := Py.VStr "ETH"; Types.sz_decimals := Py.VInt 4;
             Types.max_leverage := Py.VInt 50;
             Types.only_isolated := Py.VBool false |} ∧
  (HyperliquidClient.get_asset_info (Py.Raise "unused") 2 st).1
  = Py.Raise "Asset ID 2 not found in universe" ∧
  (HyperliquidClient.get_asset_info (Py.Raise "unused") (-3) st).1
  = Py.Raise "list index out of range".
Proof.
  intros btc eth meta st.
  pose proof (asset_info_bounds_and_cache (Py.Raise "unused")
                (Py.Raise "unused")) as Hinfo.
  destruct (Hinfo (-1) st meta [btc; eth] eq_refl eq_refl eq_refl)
    as (_ & _ & Hwrap).
  destruct (Hinfo 2 st meta [btc; eth] eq_refl eq_refl eq_refl)
    as (Hbig & _ & _).
  destruct (Hinfo (-3) st meta [btc; eth] eq_refl eq_refl eq_refl)
    as (_ & Hsmall & _).
  destruct Hwrap as (asset_data & Hget & Hdecoded & _); [cbn; lia|].
  cbn in Hget. injection Hget as <-.
  split; [by rewrite Hdecoded|].
  split; [by rewrite Hbig by (cbn; lia)|by rewrite Hsmall by (cbn; lia)].
Defined.

(** ** Streaming client: subscriptions and reconnection *)

Section SubscriptionFacts.
Import HyperliquidWebSocket.

Lemma subscribe_offline (send_ok : bool) (subscription : Py.dict Py.value)
  (st : t) :
  health_check st = false ->
  _subscribe send_ok subscription st = (false, st) ∧
  unsubscribe send_ok subscription st = (false, st).
Proof.
  unfold health_check, _subscribe, unsubscribe.
  by destruct (connected st), (websocket st).
Qed.

Lemma subscribe_online (subscription : Py.dict Py.value) (st : t)
  (sock : socket) (key : string) :
  connected st = true -> websocket st = Some sock ->
  sub_key subscription = Some key ->
  let st' := (_subscribe true subscription st).2 in
  (_subscribe true subscription st).1 = true ∧
  subscriptions st' = <[key := subscription]> (subscriptions st) ∧
  sent st' = (sent st ++ [(sock, subscribe_message subscription)])%list ∧
  connected st' = true ∧ websocket st' = Some sock.
Proof.
  intros Hc Hw Hk. unfold _subscribe. by rewrite Hc, Hw, Hk.
Qed.

Lemma unsubscribe_online (subscription : Py.dict Py.value) (st : t)
  (sock : socket) (key : string) :
  connected st = true -> websocket st = Some sock ->
  sub_key subscription = Some key ->
  let st' := (unsubscribe true subscription st).2 in
  (unsubscribe true subscription st).1 = true ∧
  subscriptions st' = delete key (subscriptions st) ∧
  sent st' = (sent st ++ [(sock, unsubscribe_message subscription)])%list.
Proof.
  intros Hc Hw Hk. unfold unsubscribe. by rewrite Hc, Hw, Hk.
Qed.

End SubscriptionFacts.

(** X20. A client that is not connected, or has no socket, subscribes and
    unsubscribes nothing: both calls return [False] and leave the client,
    its tracked subscriptions and the frames written all as they were.
    That is the state [disconnect] leaves, which closes the connection but
    keeps the tracked subscriptions. *)
Theorem offline_subscribe_changes_nothing :
  ∀ (send_ok : bool) (subscription : Py.dict Py.value)
    (st : HyperliquidWebSocket.t),
    (HyperliquidWebSocket.health_check st = false ->
     HyperliquidWebSocket._subscribe send_ok subscription st = (false, st) ∧
     HyperliquidWebSocket.unsubscribe send_ok subscription st = (false, st)) ∧
    HyperliquidWebSocket.health_check (HyperliquidWebSocket.disconnect st)
    = false ∧
    HyperliquidWebSocket.subscriptions (HyperliquidWebSocket.disconnect st)
    = HyperliquidWebSocket.subscriptions st ∧
    HyperliquidWebSocket._subscribe send_ok subscription
      (HyperliquidWebSocket.disconnect st)
    = (false, HyperliquidWebSocket.disconnect st).
Proof.
  intros send_ok subscription st.
  split; [apply subscribe_offline|]. split; [done|]. split; [done|].
  by apply subscribe_offline.
Qed.

Lemma offline_subscribe_changes_nothing_witness :
  HyperliquidWebSocket.subscribe_trades true "BTC"
    (HyperliquidWebSocket.init 10)
  = (false, HyperliquidWebSocket.init 10).
Proof.
  apply (proj1 (offline_subscribe_changes_nothing true
                  [ ("type", Py.VStr "trades"); ("coin", Py.VStr "BTC") ]
                  (HyperliquidWebSocket.init 10))).
  reflexivity.
Defined.

(** X21. On a connected client, subscribing a subscription that has a type
    tracks it under its key and writes one subscribe frame; unsubscribing
    it afterwards writes one unsubscribe frame and leaves the tracked set
    as it was without that key.  Subscribing the same subscription twice
    tracks it once and writes two frames. *)
Theorem subscribe_unsubscribe_round_trip :
  ∀ (subscription : Py.dict Py.value) (st : HyperliquidWebSocket.t)
    (sock : HyperliquidWebSocket.socket) (key : string),
    HyperliquidWebSocket.connected st = true ->
    HyperliquidWebSocket.websocket st = Some sock ->
    HyperliquidWebSocket.sub_key subscription = Some key ->
    let once := (HyperliquidWebSocket._subscribe true subscription st).2 in
    let twice := (HyperliquidWebSocket._subscribe true subscription once).2 in
    let undone := (HyperliquidWebSocket.unsubscribe true subscription once).2 in
    HyperliquidWebSocket.subscriptions once !! key = Some subscription ∧
    HyperliquidWebSocket.subscriptions twice
    = HyperliquidWebSocket.subscriptions once ∧
    HyperliquidWebSocket.sent twice
    = (HyperliquidWebSocket.sent st
       ++ [ (sock, HyperliquidWebSocket.subscribe_message subscription);
            (sock, HyperliquidWebSocket.subscribe_message subscription) ])%list ∧
    HyperliquidWebSocket.subscriptions undone
    = delete key (HyperliquidWebSocket.subscriptions st) ∧
    HyperliquidWebSocket.sent undone
    = (HyperliquidWebSocket.sent st
       ++ [ (sock, HyperliquidWebSocket.subscribe_message subscription);
            (sock, HyperliquidWebSocket.unsubscribe_message subscription) ])%list.
Proof.
  intros subscription st sock key Hc Hw Hk once twice undone.
  destruct (subscribe_online subscription st sock key Hc Hw Hk)
    as (_ & Hsubs & Hsent & Hc1 & Hw1).
  fold once in Hsubs, Hsent, Hc1, Hw1.
  destruct (subscribe_online subscription once sock key Hc1 Hw1 Hk)
    as (_ & Hsubs2 & Hsent2 & _).
  destruct (unsubscribe_online subscription once sock key Hc1 Hw1 Hk)
    as (_ & Hsubs3 & Hsent3).
  fold twice in Hsubs2, Hsent2. fold undone in Hsubs3, Hsent3.
  rewrite Hsubs2, Hsent2, Hsubs3, Hsent3, Hsubs, Hsent.
  rewrite lookup_insert_eq, insert_insert_eq, delete_insert_eq,
    <- !app_assoc.
  done.
Qed.

Lemma subscribe_unsubscribe_round_trip_witness :
  let st := HyperliquidWebSocket.connect (Some 1%nat)
              (HyperliquidWebSocket.init 10) in
  let sub := [ ("type", Py.VStr "l2Book"); ("coin", Py.VStr "ETH") ] in
  HyperliquidWebSocket.subscriptions
    (HyperliquidWebSocket.unsubscribe true sub
       (HyperliquidWebSocket.subscribe_l2_book true "ETH" st).2).2
  = delete "l2Book_ETH" (HyperliquidWebSocket.subscriptions st).
Proof.
  intros st sub.
  apply (subscribe_unsubscribe_round_trip sub st 1%nat "l2Book_ETH");
    reflexivity.
Defined.

(** X22. A subscription without a [type] is written to the socket all the
    same, as a subscribe or an unsubscribe frame, but the call then returns
    [False] and the tracked set is left untouched: the caller is told of a
    failure after the frame has gone out. *)
Theorem untyped_subscription_is_sent_but_reported_failed :
  ∀ (subscription : Py.dict Py.value) (st : HyperliquidWebSocket.t)
    (sock : HyperliquidWebSocket.socket),
    HyperliquidWebSocket.connected st = true ->
    HyperliquidWebSocket.websocket st = Some sock ->
    Py.get subscription "type" = None ->
    let subscribed := HyperliquidWebSocket._subscribe true subscription st in
    let unsubscribed :=
      HyperliquidWebSocket.unsubscribe true subscription st in
    subscribed.1 = false ∧
    HyperliquidWebSocket.subscriptions subscribed.2
    = HyperliquidWebSocket.subscriptions st ∧
    HyperliquidWebSocket.sent subscribed.2
    = (HyperliquidWebSocket.sent st
       ++ [ (sock, HyperliquidWebSocket.subscribe_message subscription) ])%list ∧
    unsubscribed.1 = false ∧
    HyperliquidWebSocket.subscriptions unsubscribed.2
    = HyperliquidWebSocket.subscriptions st ∧
    HyperliquidWebSocket.sent unsubscribed.2
    = (HyperliquidWebSocket.sent st
       ++ [ (sock, HyperliquidWebSocket.unsubscribe_message subscription) ])%list.
Proof.
  intros subscription st sock Hc Hw Htype subscribed unsubscribed.
  subst subscribed unsubscribed.
  unfold HyperliquidWebSocket._subscribe, HyperliquidWebSocket.unsubscribe,
    HyperliquidWebSocket.sub_key.
  by rewrite Hc, Hw, Htype.
Qed.

Lemma untyped_subscription_is_sent_but_reported_failed_witness :
  let st := HyperliquidWebSocket.connect (Some 1%nat)
              (HyperliquidWebSocket.init 10) in
  let sub := [ ("coin", Py.VStr "BTC") ] in
  (HyperliquidWebSocket._subscribe true sub st).1 = false ∧
  HyperliquidWebSocket.sent (HyperliquidWebSocket._subscribe true sub st).2
  = [ (1%nat, HyperliquidWebSocket.subscribe_message sub) ].
Proof.
  intros st sub.
  destruct (untyped_subscription_is_sent_but_reported_failed sub st 1%nat
              eq_refl eq_refl eq_refl) as (Hfalse & _ & Hsent & _).
  split; [exact Hfalse|exact Hsent].
Defined.

Section RunFacts.
Import HyperliquidWebSocket.

Lemma tracked_were_sent_keeps (st st' : t) :
  sent st' = sent st -> subscriptions st' = subscriptions st ->
  tracked_were_sent st -> tracked_were_sent st'.
Proof.
  intros Hsent Hsubs Hinv key sub. rewrite Hsubs, Hsent. apply Hinv.
Qed.

Lemma step_tracked_were_sent (st : t) (ev : event) :
  tracked_were_sent st -> tracked_were_sent (step st ev).
Proof.
  intros Hinv.
  destruct ev as [outcome| | |outcome|send_ok sub|send_ok sub]; cbn [step].
  - destruct (connect_keeps outcome st) as [Hsent Hsubs].
    by apply (tracked_were_sent_keeps st).
  - by apply (tracked_were_sent_keeps st).
  - destruct (connection_lost_keeps st) as [Hsent Hsubs].
    by apply (tracked_were_sent_keeps st).
  - destruct (run_reconnect_task_keeps outcome st) as [Hsent Hsubs].
    by apply (tracked_were_sent_keeps st).
  - unfold _subscribe.
    destruct (connected st), (websocket st) as [sock|], send_ok;
      cbn [snd]; try done.
    destruct (sub_key sub) as [key|] eqn:Hkey; cbn [snd];
      intros k s; cbn [subscriptions sent].
    + rewrite lookup_insert. case_decide as Heq.
      * intros [= <-]. subst k. split; [done|]. exists sock.
        apply elem_of_app. right. apply list_elem_of_here.
      * intros Hk. destruct (Hinv k s Hk) as (Hown & sock' & Hin).
        split; [done|]. exists sock'. apply elem_of_app. by left.
    + intros Hk. destruct (Hinv k s Hk) as (Hown & sock' & Hin).
      split; [done|]. exists sock'. apply elem_of_app. by left.
  - unfold unsubscribe.
    destruct (connected st), (websocket st) as [sock|], send_ok;
      cbn [snd]; try done.
    destruct (sub_key sub) as [key|] eqn:Hkey; cbn [snd];
      intros k s; cbn [subscriptions sent].
    + rewrite lookup_delete. case_decide as Heq; [done|].
      intros Hk. destruct (Hinv k s Hk) as (Hown & sock' & Hin).
      split; [done|]. exists sock'. apply elem_of_app. by left.
    + intros Hk. destruct (Hinv k s Hk) as (Hown & sock' & Hin).
      split; [done|]. exists sock'. apply elem_of_app. by left.
Qed.

Lemma handle_reconnect_bounds (st : t) :
  counter_in_bounds st ->
  counter_in_bounds (_handle_reconnect st) ∧
  max_reconnects (_handle_reconnect st) = max_reconnects st.
Proof.
  unfold counter_in_bounds, _handle_reconnect.
  destruct (Z.leb_spec (max_reconnects st) (reconnect_count st));
    cbn [reconnect_count max_reconnects]; lia.
Qed.

Lemma connect_bounds (outcome : option socket) (st : t) :
  counter_in_bounds st ->
  counter_in_bounds (connect outcome st) ∧
  max_reconnects (connect outcome st) = max_reconnects st.
Proof.
  destruct outcome as [sock|]; [|apply handle_reconnect_bounds].
  unfold counter_in_bounds. cbn [connect reconnect_count max_reconnects]. lia.
Qed.

Lemma step_bounds (st : t) (ev : event) :
  counter_in_bounds st ->
  counter_in_bounds (step st ev) ∧
  max_reconnects (step st ev) = max_reconnects st.
Proof.
  intros Hinv.
  destruct ev as [outcome| | |outcome|send_ok sub|send_ok sub]; cbn [step].
  - by apply connect_bounds.
  - done.
  - unfold connection_lost. destruct (connected st); [|done].
    match goal with
    | |- context [_handle_reconnect ?x] =>
        destruct (handle_reconnect_bounds x Hinv) as [Hb Hm]
    end.
    done.
  - unfold run_reconnect_task. destruct (reconnect_task st); try done.
    match goal with
    | |- context [connect outcome ?x] =>
        destruct (connect_bounds outcome x Hinv) as [Hb Hm]
    end.
    done.
  - unfold _subscribe.
    by destruct (connected st), (websocket st), send_ok, (sub_key sub).
  - unfold unsubscribe.
    by destruct (connected st), (websocket st), send_ok, (sub_key sub).
Qed.

Lemma run_snoc (st : t) (events : list event) (ev : event) :
  run st (events ++ [ev]) = step (run st events) ev.
Proof. unfold run. by rewrite foldl_app. Qed.

(** Losing the connection with attempts left creates the reconnect task. *)
Lemma connection_lost_schedules (st : t) :
  connected st = true ->
  reconnect_task st = NoTask ∨ reconnect_task st = Done ->
  reconnect_count st < max_reconnects st ->
  connection_lost st =
    {| max_reconnects := max_reconnects st; websocket := websocket st;
       connected := false; reconnect_count := reconnect_count st + 1;
       subscriptions := subscriptions st; reconnect_task := Pending;
       loops_running := false; sent := sent st;
       emitted := (emitted st ++ ["disconnected"])%list |}.
Proof.
  intros Hc Htask Hleft. unfold connection_lost, _handle_reconnect.
  rewrite Hc.
  cbn [max_reconnects reconnect_count reconnect_task websocket connected
       subscriptions loops_running sent emitted].
  rewrite (proj2 (Z.leb_gt _ _) Hleft). by destruct Htask as [-> | ->].
Qed.

(** A pending reconnect task that fails to connect counts the attempt, if
    attempts are left, and ends without creating a task. *)
Lemma failed_task_ends (st : t) :
  reconnect_task st = Pending ->
  run_reconnect_task None st =
    {| max_reconnects := max_reconnects st; websocket := websocket st;
       connected := connected st;
       reconnect_count :=
         if max_reconnects st <=? reconnect_count st then reconnect_count st
         else reconnect_count st + 1;
       subscriptions := subscriptions st; reconnect_task := Done;
       loops_running := loops_running st; sent := sent st;
       emitted := emitted st |}.
Proof.
  intros Hpending. unfold run_reconnect_task, connect, _handle_reconnect.
  rewrite Hpending.
  cbn [max_reconnects reconnect_count reconnect_task websocket connected
       subscriptions loops_running sent emitted].
  by destruct (max_reconnects st <=? reconnect_count st).
Qed.

End RunFacts.

(** X23. Whatever the caller does and whatever happens to the connection,
    starting from a new client, every subscription the client tracks is
    kept under the key built from its own type and coin or user, and its
    subscribe frame has been written to some socket: nothing is ever
    tracked that was not sent. *)
Theorem tracked_subscriptions_were_sent :
  ∀ (max_reconnects : Z) (events : list HyperliquidWebSocket.event)
    (key : string) (subscription : Py.dict Py.value),
    let st :=
      HyperliquidWebSocket.run (HyperliquidWebSocket.init max_reconnects)
        events in
    HyperliquidWebSocket.subscriptions st !! key = Some subscription ->
    HyperliquidWebSocket.sub_key subscription = Some key ∧
    ∃ sock,
      (sock, HyperliquidWebSocket.subscribe_message subscription)
        ∈ HyperliquidWebSocket.sent st.
Proof.
  intros max_reconnects events. cbv zeta.
  induction events as [|ev events IH] using rev_ind.
  - intros key sub Hk. cbn in Hk. by rewrite lookup_empty in Hk.
  - rewrite run_snoc. by apply step_tracked_were_sent.
Qed.

Lemma tracked_subscriptions_were_sent_witness :
  let events :=
    [ HyperliquidWebSocket.Connect (Some 1%nat);
      HyperliquidWebSocket.Subscribe true
        [ ("type", Py.VStr "user"); ("user", Py.VStr "0xA11CE") ];
      HyperliquidWebSocket.ConnectionLost;
      HyperliquidWebSocket.RunReconnectTask (Some 2%nat) ] in
  ∃ sock,
    (sock, HyperliquidWebSocket.subscribe_message
             [ ("type", Py.VStr "user"); ("user", Py.VStr "0xA11CE") ])
      ∈ HyperliquidWebSocket.sent
          (HyperliquidWebSocket.run (HyperliquidWebSocket.init 10) events).
Proof.
  intros events.
  apply (tracked_subscriptions_were_sent 10 events "user_0xA11CE"
           [ ("type", Py.VStr "user"); ("user", Py.VStr "0xA11CE") ]).
  by vm_compute.
Defined.

(** X24. Reconnection is bounded: through any run of a new client the
    configured maximum is never changed and the reconnect counter stays
    between 0 and that maximum (0 when the maximum is negative). *)
Theorem reconnect_counter_stays_bounded :
  ∀ (max_reconnects : Z) (events : list HyperliquidWebSocket.event),
    let st :=
      HyperliquidWebSocket.run (HyperliquidWebSocket.init max_reconnects)
        events in
    HyperliquidWebSocket.max_reconnects st = max_reconnects ∧
    0 <= HyperliquidWebSocket.reconnect_count st <= Z.max 0 max_reconnects.
Proof.
  intros max_reconnects events. cbv zeta.
  induction events as [|ev events [IHmax IHcount]] using rev_ind.
  - cbn. lia.
  - rewrite run_snoc.
    destruct (step_bounds
                (HyperliquidWebSocket.run
                   (HyperliquidWebSocket.init max_reconnects) events) ev)
      as [Hb Hm].
    { unfold HyperliquidWebSocket.counter_in_bounds. by rewrite IHmax. }
    unfold HyperliquidWebSocket.counter_in_bounds in Hb.
    rewrite Hm, IHmax in Hb.
    split; [by rewrite Hm|done].
Qed.

(** X25. A reconnect attempt that fails is not followed by another.  When
    a connected client with attempts left loses its connection, a reconnect
    task is created; if that task fails to connect, the attempt is counted
    again but no new task is created, because the task sees itself still
    running.  The client is then disconnected with no task pending, and
    running the event loop further changes nothing, however many attempts
    [max_reconnects] would still allow. *)
Theorem failed_reconnect_is_not_retried :
  ∀ st : HyperliquidWebSocket.t,
    HyperliquidWebSocket.connected st = true ->
    HyperliquidWebSocket.reconnect_task st = HyperliquidWebSocket.NoTask ∨
    HyperliquidWebSocket.reconnect_task st = HyperliquidWebSocket.Done ->
    HyperliquidWebSocket.reconnect_count st
      < HyperliquidWebSocket.max_reconnects st ->
    let lost := HyperliquidWebSocket.connection_lost st in
    let failed := HyperliquidWebSocket.run_reconnect_task None lost in
    HyperliquidWebSocket.reconnect_task lost = HyperliquidWebSocket.Pending ∧
    HyperliquidWebSocket.connected failed = false ∧
    HyperliquidWebSocket.reconnect_task failed = HyperliquidWebSocket.Done ∧
    HyperliquidWebSocket.reconnect_count failed
    = Z.min (HyperliquidWebSocket.reconnect_count st + 2)
        (HyperliquidWebSocket.max_reconnects st) ∧
    ∀ outcome,
      HyperliquidWebSocket.run_reconnect_task outcome failed = failed.
Proof.
  intros st Hc Htask Hleft lost failed. subst failed lost.
  rewrite (connection_lost_schedules st Hc Htask Hleft).
  rewrite failed_task_ends by reflexivity.
  cbn [HyperliquidWebSocket.max_reconnects
       HyperliquidWebSocket.reconnect_count
       HyperliquidWebSocket.reconnect_task HyperliquidWebSocket.connected].
  split; [done|]. split; [done|]. split; [done|]. split.
  - destruct (Z.leb_spec (HyperliquidWebSocket.max_reconnects st)
                (HyperliquidWebSocket.reconnect_count st + 1)); lia.
  - intros outcome. reflexivity.
Qed.

Lemma failed_reconnect_is_not_retried_witness :
  let st := HyperliquidWebSocket.connect (Some 1%nat)
              (HyperliquidWebSocket.init 10) in
  let failed :=
    HyperliquidWebSocket.run_reconnect_task None
      (HyperliquidWebSocket.connection_lost st) in
  HyperliquidWebSocket.connected failed = false ∧
  HyperliquidWebSocket.reconnect_count failed = 2 ∧
  HyperliquidWebSocket.run_reconnect_task (Some 2%nat) failed = failed.
Proof.
  intros st failed.
  destruct (failed_reconnect_is_not_retried st eq_refl (or_introl eq_refl))
    as (_ & Hoff & _ & Hcount & Hstuck); [cbn; lia|].
  split; [exact Hoff|]. split; [exact Hcount|]. apply Hstuck.
Defined.

(** ** Wallet registry: registration, activity, clean-up and import *)

Section RegistryMoreFacts.
Import WalletRegistry RegistryRuns.




(** A logged call stamps the wallet's last activity. *)
Lemma log_wallet_activity_stamp (now1 now2 save_now : string) (r : t)
  (a action : string) (ok : bool) (details : option (Py.dict Py.value))
  (w : wallet) (count : Z) :
  default ∅ (wallets r) !! a = Some w ->
  activity_count w = Some count ->
  ∃ w' : wallet,
    default ∅ (wallets (log_wallet_activity now1 now2 save_now r a action ok
                          details)) !! a = Some w' ∧
    activity_count w' = Some (count + 1) ∧
    last_activity w' = Some now1.
Proof.
  intros Hw Hcount. unfold log_wallet_activity. rewrite Hw, Hcount.
  eexists. rewrite lookup_save, lookup_set_wallet, decide_True by done.
  by split.
Qed.

Lemma run_counts (calls : list call) (r : t) (a : string) (w : wallet)
  (count : Z) :
  default ∅ (wallets r) !! a = Some w ->
  activity_count w = Some count ->
  ∃ w' : wallet,
    default ∅ (wallets (run r calls)) !! a = Some w' ∧
    activity_count w'
    = Some (count + Z.of_nat (length (calls_for a calls))) ∧
    last_activity w'
    = match last (map call_now1 (calls_for a calls)) with
      | Some stamp => Some stamp
      | None => last_activity w
      end.
Proof.
  revert r w count. induction calls as [|c calls IH]; intros r w count Hw Hc.
  - exists w. cbn. rewrite Z.add_0_r. done.
  - cbn [run foldl]. fold (run (apply_call r c) calls).
    unfold calls_for. cbn [List.filter]. fold (calls_for a calls).
    destruct (String.eqb_spec (call_wallet c) a) as [Heq|Hne].
    + destruct (log_wallet_activity_stamp (call_now1 c) (call_now2 c)
                  (call_save_now c) r a (call_action c) (call_success c)
                  (call_details c) w count Hw Hc) as (w1 & Hw1 & Hc1 & Hl1).
      destruct (IH (apply_call r c) w1 (count + 1)) as (w2 & Hw2 & Hc2 & Hl2).
      { unfold apply_call. by rewrite Heq. }
      { done. }
      exists w2. split; [done|]. split.
      * rewrite Hc2. cbn [length]. f_equal. lia.
      * rewrite Hl2, Hl1. cbn [map].
        destruct (map call_now1 (calls_for a calls)) as [|x l] eqn:Hrest;
          [done|].
        rewrite last_cons_cons.
        destruct (last (x :: l)) eqn:Hlast; [done|].
        by apply last_None in Hlast.
    + destruct (IH (apply_call r c) w count) as (w2 & Hw2 & Hc2 & Hl2).
      { unfold apply_call. by rewrite log_wallet_activity_other. }
      { done. }
      by exists w2.
Qed.


Lemma import_registry_wallets (save_now : string) (r : t)
  (imported_wallets : gmap string wallet) :
  default ∅ (wallets (import_registry (Some (Some imported_wallets))
                        save_now r).2)
  = imported_wallets ∪ default ∅ (wallets r).
Proof. reflexivity. Qed.

Lemma register_wallet_permissions (now save_now : string) (r : t)
  (a : string) (m : metadata) :
  get_wallet_permissions (register_wallet now save_now r a m).2 a
  = default ["read"] (meta_permissions m).
Proof.
  unfold get_wallet_permissions, get_wallet_info.
  cbn [register_wallet snd].
  by rewrite lookup_save, lookup_set_wallet, decide_True.
Qed.

End RegistryMoreFacts.

(** X26. Registering a wallet stores a fresh, active entry under its
    address, with the permissions of the metadata or ["read"] when it gives
    none, and with empty activity lists and a zero counter, whatever was
    registered under that address before: registering an address again
    wipes its activity.  Entries under other addresses are not touched. *)
Theorem register_wallet_stores_fresh_entry :
  ∀ (now save_now : string) (r : WalletRegistry.t) (a : string)
    (m : WalletRegistry.metadata),
    let r' := (WalletRegistry.register_wallet now save_now r a m).2 in
    (∃ w, WalletRegistry.get_wallet_info r' a = Some w ∧
          WalletRegistry.registered_at w = now ∧
          WalletRegistry.activity_count w = Some 0 ∧
          WalletRegistry.last_activity w = None ∧
          WalletRegistry.approved_actions w = Some [] ∧
          WalletRegistry.blocked_actions w = Some []) ∧
    WalletRegistry.get_wallet_permissions r' a
    = default ["read"] (WalletRegistry.meta_permissions m) ∧
    WalletRegistry.is_wallet_active r' a = true ∧
    (∀ b, b ≠ a ->
          WalletRegistry.get_wallet_info r' b
          = WalletRegistry.get_wallet_info r b) ∧
    (WalletRegistry.get_wallet_info r a = None ->
     WalletRegistry.get_wallet_permissions r a = [] ∧
     WalletRegistry.is_wallet_active r a = false).
Proof.
  intros now save_now r a m r'. subst r'.
  unfold WalletRegistry.get_wallet_permissions,
    WalletRegistry.is_wallet_active, WalletRegistry.get_wallet_info.
  cbn [WalletRegistry.register_wallet snd].
  rewrite lookup_save, lookup_set_wallet, decide_True by done.
  split; [eexists; split; [reflexivity|done]|].
  split; [done|]. split; [done|]. split.
  - intros b Hne.
    by rewrite lookup_save, lookup_set_wallet, decide_False.
  - by intros ->.
Qed.

Lemma register_wallet_stores_fresh_entry_witness :
  let m := {| WalletRegistry.meta_permissions := None;
              WalletRegistry.meta_agent_name := None;
              WalletRegistry.meta_description := None;
              WalletRegistry.meta_risk_level := None;
              WalletRegistry.meta_max_daily_volume := None |} in
  let r := (WalletRegistry.register_wallet "t0" "t1"
              (WalletRegistry.empty "t0") "0xA11CE" m).2 in
  WalletRegistry.get_wallet_info r "0xB0B" = None ∧
  WalletRegistry.get_wallet_permissions r "0xB0B" = [] ∧
  WalletRegistry.get_wallet_info
    (WalletRegistry.register_wallet "t2" "t3" r "0xB0B" m).2 "0xA11CE"
  = WalletRegistry.get_wallet_info r "0xA11CE".
Proof.
  intros m r.
  destruct (register_wallet_stores_fresh_entry "t2" "t3" r "0xB0B" m)
    as (_ & _ & _ & Hother & _).
  destruct (register_wallet_stores_fresh_entry "t0" "t1"
              (WalletRegistry.empty "t0") "0xB0B" m)
    as (_ & _ & _ & _ & Hnone).
  assert (Hfree : WalletRegistry.get_wallet_info r "0xB0B" = None)
    by (by vm_compute).
  destruct (register_wallet_stores_fresh_entry "t0" "t1" r "0xB0B" m)
    as (_ & _ & _ & _ & Hnone').
  split; [exact Hfree|]. split; [apply (Hnone' Hfree)|].
  apply Hother. discriminate.
Defined.

(** X27. A wallet registered without permissions can do nothing: the
    registry gives it ["read"], which is none of the controller's levels
    ([read_only], [trading], [full_access]), so a controller built by
    [__init__] refuses every action the wallet asks for, reading a balance
    included. *)
Theorem default_registration_permits_nothing :
  ∀ (env : PermissionController.environ)
    (today now save_now wallet_address action : string)
    (r : WalletRegistry.t) (m : WalletRegistry.metadata)
    (params : option (Py.dict Py.value)),
    WalletRegistry.meta_permissions m = None ->
    let granted :=
      WalletRegistry.get_wallet_permissions
        (WalletRegistry.register_wallet now save_now r wallet_address m).2
        wallet_address in
    granted = ["read"] ∧
    PermissionController.allowed
      (PermissionController.validate_action
         (PermissionController.init env today) wallet_address action params
         (Some granted)).1 = false.
Proof.
  intros env today now save_now wallet_address action r m params Hnone granted.
  assert (Hgranted : granted = ["read"]).
  { subst granted. by rewrite register_wallet_permissions, Hnone. }
  split; [exact Hgranted|]. rewrite Hgranted.
  unfold PermissionController.validate_action,
    PermissionController.validate_action_body.
  destruct (PermissionController.pc_allowed _) eqn:Hallowed; [|done].
  exfalso.
  apply check_permissions_spec in Hallowed as (p & Hp & Hor).
  apply list_elem_of_In in Hp. destruct Hp as [<-|[]].
  assert (Hlevel :
    PermissionController.level_actions_of
      (PermissionController.permission_levels
         (PermissionController.init env today)) "read" = [])
    by reflexivity.
  rewrite Hlevel in Hor. destruct Hor as [H|H]; by apply elem_of_nil in H.
Qed.

Lemma default_registration_permits_nothing_witness :
  let m := {| WalletRegistry.meta_permissions := None;
              WalletRegistry.meta_agent_name := Some "scout";
              WalletRegistry.meta_description := None;
              WalletRegistry.meta_risk_level := None;
              WalletRegistry.meta_max_daily_volume := None |} in
  PermissionController.allowed
    (PermissionController.validate_action
       (PermissionController.init PermissionController.no_environ
          "2025-01-01") "0xA11CE" "get_balance" None
       (Some
          (WalletRegistry.get_wallet_permissions
             (WalletRegistry.register_wallet "t0" "t1"
                (WalletRegistry.empty "t0") "0xA11CE" m).2 "0xA11CE"))).1
  = false.
Proof.
  intros m.
  apply (default_registration_permits_nothing PermissionController.no_environ
           "2025-01-01" "t0" "t1" "0xA11CE" "get_balance"
           (WalletRegistry.empty "t0") m None).
  reflexivity.
Defined.

(** X28. From its registration on, a wallet's [activity_count] is the
    number of [log_wallet_activity] calls made for it, approved or blocked,
    and its [last_activity] is the time of the latest of them; the counter
    keeps counting when the two activity lists have reached their caps.  A
    call for an address that is not registered changes nothing at all. *)
Theorem activity_count_counts_every_call :
  ∀ (now save_now : string) (r : WalletRegistry.t) (a : string)
    (m : WalletRegistry.metadata) (calls : list RegistryRuns.call),
    (∃ w,
       WalletRegistry.get_wallet_info
         (RegistryRuns.run
            (WalletRegistry.register_wallet now save_now r a m).2 calls) a
       = Some w ∧
       WalletRegistry.activity_count w
       = Some (Z.of_nat (length (RegistryRuns.calls_for a calls))) ∧
       WalletRegistry.last_activity w
       = last (map RegistryRuns.call_now1 (RegistryRuns.calls_for a calls))) ∧
    ∀ (now1 now2 : string) (action : string) (ok : bool)
      (details : option (Py.dict Py.value)),
      WalletRegistry.get_wallet_info r a = None ->
      WalletRegistry.log_wallet_activity now1 now2 save_now r a action ok
        details = r.
Proof.
  intros now save_now r a m calls. split.
  - destruct (register_wallet_tracked now save_now r a m)
      as (w & count & Hw & Hcount & _).
    assert (Hzero : count = 0 ∧ WalletRegistry.last_activity w = None).
    { cbn [WalletRegistry.register_wallet snd] in Hw.
      rewrite lookup_save, lookup_set_wallet, decide_True in Hw by done.
      injection Hw as <-. cbn in Hcount. by injection Hcount as <-. }
    destruct Hzero as [-> Hnever].
    destruct (run_counts calls _ a w 0 Hw Hcount) as (w' & Hw' & Hc' & Hl').
    exists w'. split; [exact Hw'|]. split; [by rewrite Hc'|].
    rewrite Hl', Hnever. by destruct (last _).
  - intros now1 now2 action ok details Hnone.
    unfold WalletRegistry.log_wallet_activity.
    unfold WalletRegistry.get_wallet_info in Hnone. by rewrite Hnone.
Qed.

Lemma activity_count_counts_every_call_witness :
  let r := WalletRegistry.empty "t0" in
  WalletRegistry.log_wallet_activity "t1" "t2" "t3" r "0xA11CE"
    "place_order" true None = r.
Proof.
  intros r.
  apply (proj2 (activity_count_counts_every_call "t0" "t3" r "0xA11CE"
                  {| WalletRegistry.meta_permissions := None;
                     WalletRegistry.meta_agent_name := None;
                     WalletRegistry.meta_description := None;
                     WalletRegistry.meta_risk_level := None;
                     WalletRegistry.meta_max_daily_volume := None |} [])).
  by vm_compute.
Defined.



(** X30. [import_registry] merges the wallets of the file into the
    registry: afterwards an address found in the file holds the file's
    entry, replacing whatever was registered, and every other address
    holds what it held.  Entries are taken as they are, so the activity
    lists stay within their caps only if the file's are; a file without
    [wallets] changes no wallet, and a file that cannot be read changes
    nothing and returns [False]. *)
Theorem import_registry_merges_file_entries :
  ∀ (save_now : string) (r : WalletRegistry.t)
    (imported_wallets : gmap string WalletRegistry.wallet),
    let merged :=
      WalletRegistry.import_registry (Some (Some imported_wallets)) save_now
        r in
    merged.1 = true ∧
    (∀ a, WalletRegistry.get_wallet_info merged.2 a
          = match imported_wallets !! a with
            | Some w => Some w
            | None => WalletRegistry.get_wallet_info r a
            end) ∧
    (RegistryRuns.all_within_caps r ->
     map_Forall (fun _ w => RegistryRuns.within_caps w) imported_wallets ->
     RegistryRuns.all_within_caps merged.2) ∧
    (∀ a, WalletRegistry.get_wallet_info
            (WalletRegistry.import_registry (Some None) save_now r).2 a
          = WalletRegistry.get_wallet_info r a) ∧
    WalletRegistry.import_registry None save_now r = (false, r).
Proof.
  intros save_now r imported_wallets merged. subst merged.
  unfold WalletRegistry.get_wallet_info, RegistryRuns.all_within_caps.
  rewrite import_registry_wallets.
  split; [done|]. split; [|split; [|done]].
  - intros a. rewrite lookup_union.
    by destruct (imported_wallets !! a), (_ !! a).
  - intros Hr Hfile. by apply map_Forall_union_2.
Qed.

Lemma import_registry_merges_file_entries_witness :
  let long_list :=
    replicate 101
      {| WalletRegistry.timestamp := "t"; WalletRegistry.action := "a";
         WalletRegistry.success := true; WalletRegistry.details := [] |} in
  let heavy :=
    {| WalletRegistry.address := "0xA11CE";
       WalletRegistry.registered_at := "t0";
       WalletRegistry.is_active := true;
       WalletRegistry.permissions := ["trading"];
       WalletRegistry.agent_name := EmptyString;
       WalletRegistry.description := EmptyString;
       WalletRegistry.risk_level := "medium";
       WalletRegistry.max_daily_volume := 10000;
       WalletRegistry.last_activity := None;
       WalletRegistry.activity_count := Some 101;
       WalletRegistry.approved_actions := Some long_list;
       WalletRegistry.blocked_actions := Some [] |} in
  let merged :=
    (WalletRegistry.import_registry (Some (Some {[ "0xA11CE" := heavy ]}))
       "t1" (WalletRegistry.empty "t0")).2 in
  WalletRegistry.get_wallet_info merged "0xA11CE" = Some heavy ∧
  ¬ RegistryRuns.within_caps heavy ∧
  RegistryRuns.all_within_caps
    (WalletRegistry.import_registry (Some (Some ∅)) "t1"
       (WalletRegistry.empty "t0")).2.
Proof.
  intros long_list heavy merged.
  destruct (import_registry_merges_file_entries "t1"
              (WalletRegistry.empty "t0") {[ "0xA11CE" := heavy ]})
    as (_ & Hlookup & _).
  destruct (import_registry_merges_file_entries "t1"
              (WalletRegistry.empty "t0") ∅) as (_ & _ & Hcaps & _).
  split; [|split].
  - fold merged in Hlookup. rewrite Hlookup.
    by rewrite lookup_singleton_eq.
  - intros [Happroved _]. vm_compute in Happroved. lia.
  - apply Hcaps; [apply empty_within_caps|].
    intros a w Hw. by rewrite lookup_empty in Hw.
Defined.
